(** * A shallow embedding of the chat application [app.py]

    The Flask handlers are embedded as functions over an explicit world:
    the three relational tables with their sequences, the signed cookie that
    Flask calls [session], the messages flashed to the next page, and the log
    of calls made to the generative model.  Statements that psycopg2 runs are
    functions on the tables; Python's [try], [except] and [finally] are
    combinators of a small state-and-exception monad. *)

From Stdlib Require Import ZArith List String Ascii Bool Lia.
From Stdlib Require Import Sorting.Sorted Sorting.Permutation.
Import ListNotations.

Local Open Scope string_scope.
Local Open Scope Z_scope.

(** ** Python strings

    A [str] is modelled by Rocq's [string]; its 8-bit characters are read as
    the code points 0 to 255. *)

Module PyStr.

(** [str.isspace] on one code point below 256. *)
Definition isspace (c : ascii) : bool :=
  let n := nat_of_ascii c in
  (((9 <=? n) && (n <=? 13)) || ((28 <=? n) && (n <=? 32))
   || (n =? 133) || (n =? 160))%nat.

Fixpoint lstrip (s : string) : string :=
  match s with
  | EmptyString => EmptyString
  | String c s' => if isspace c then lstrip s' else s
  end.

Fixpoint rstrip (s : string) : string :=
  match s with
  | EmptyString => EmptyString
  | String c s' =>
      match rstrip s' with
      | EmptyString => if isspace c then EmptyString else String c EmptyString
      | r => String c r
      end
  end.

(** [s.strip()] *)
Definition strip (s : string) : string := rstrip (lstrip s).

(** [str.lower] on one code point below 256: the ASCII capitals and the
    Latin-1 capitals (all of 0xC0..0xDE but the multiplication sign). *)
Definition lower_char (c : ascii) : ascii :=
  let n := nat_of_ascii c in
  if (((65 <=? n) && (n <=? 90))
      || ((192 <=? n) && (n <=? 222) && negb (n =? 215)))%nat
  then ascii_of_nat (n + 32) else c.

Fixpoint lower (s : string) : string :=
  match s with
  | EmptyString => EmptyString
  | String c s' => String (lower_char c) (lower s')
  end.

(** Python's truth value of a string: [not s] holds of the empty string. *)
Definition falsy (s : string) : bool :=
  match s with EmptyString => true | _ => false end.

Definition len (s : string) : Z := Z.of_nat (String.length s).

End PyStr.

(** ** Timestamps

    A [TIMESTAMP] is the number of microseconds since 1970-01-01 00:00. *)

Module Clock.

Definition usec_per_minute : Z := 60000000.
Definition usec_per_day : Z := 86400000000.

Definition digit (n : Z) : ascii := ascii_of_nat (48 + Z.to_nat (n mod 10)).

Definition two_digits (n : Z) : string :=
  String (digit (n / 10)) (String (digit n) EmptyString).

Definition four_digits (n : Z) : string :=
  String (digit (n / 1000)) (String (digit (n / 100)) (two_digits n)).

Definition hour_of (t : Z) : Z := (t / (60 * usec_per_minute)) mod 24.
Definition minute_of (t : Z) : Z := (t / usec_per_minute) mod 60.

(** [to_char(t, 'HH24:MI')] and [strftime('%H:%M')] *)
Definition hh24_mi (t : Z) : string :=
  two_digits (hour_of t) ++ ":" ++ two_digits (minute_of t).

(** The proleptic Gregorian date of a day number (days since 1970-01-01). *)
Definition civil_of_days (days : Z) : Z * Z * Z :=
  let z := days + 719468 in
  let era := z / 146097 in
  let doe := z mod 146097 in
  let yoe := (doe - doe / 1460 + doe / 36524 - doe / 146096) / 365 in
  let doy := doe - (365 * yoe + yoe / 4 - yoe / 100) in
  let mp := (5 * doy + 2) / 153 in
  let d := doy - (153 * mp + 2) / 5 + 1 in
  let m := if mp <? 10 then mp + 3 else mp - 9 in
  let y := yoe + era * 400 + (if m <=? 2 then 1 else 0) in
  (y, m, d).

(** [t.strftime('%Y-%m-%d %H:%M')], for the years 1000 to 9999. *)
Definition strftime_ymd_hm (t : Z) : string :=
  let '(y, m, d) := civil_of_days (t / usec_per_day) in
  four_digits y ++ "-" ++ two_digits m ++ "-" ++ two_digits d
    ++ " " ++ hh24_mi t.

End Clock.

(** ** Data model: the three tables of [init_db] *)

Record User := mkUser {
  u_id : Z;
  u_username : string;
  u_password : string;
  u_email : option string;
  u_created_at : Z
}.

Record ChatSession := mkChatSession {
  cs_id : Z;
  cs_user_id : option Z;
  cs_created_at : Z
}.

Record ChatMessage := mkChatMessage {
  cm_id : Z;
  cm_session_id : option Z;
  cm_user_id : option Z;
  cm_message : string;
  cm_response : string;
  cm_timestamp : Z
}.

(** Rows are kept in insertion order. *)
Record Tables := mkTables {
  users : list User;
  chat_sessions : list ChatSession;
  chat_messages : list ChatMessage
}.

(** The next values of the three [SERIAL] sequences. *)
Record Sequences := mkSequences {
  users_id_seq : Z;
  chat_sessions_id_seq : Z;
  chat_messages_id_seq : Z
}.

Record Database := mkDatabase {
  db_tables : Tables;
  db_sequences : Sequences
}.

(** Flask's [session]: the keys the handlers read and write. *)
Record Session := mkSession {
  s_user_id : option Z;
  s_username : option string;
  s_session_id : option Z
}.

Definition anonymous : Session := mkSession None None None.

(** One turn of the history handed to [model.start_chat]. *)
Inductive Role := role_user | role_model.

Record Turn := mkTurn {
  role : Role;
  parts : list string
}.

(** What the handlers put in their pages and JSON bodies. *)
Record MessageView := mkMessageView {
  mv_question : string;
  mv_response : string;
  mv_timestamp : string
}.

Record SessionView := mkSessionView {
  sv_session_id : Z;
  sv_session_date : string;
  sv_messages : list MessageView
}.

Inductive Body :=
| JsonError (error : string)
| JsonReply (response : string) (timestamp : option string)
| JsonMessages (messages : list MessageView)
| JsonCleared (message : string)
| IndexPage (sessions : list SessionView) (chat_history : list MessageView)
            (username : option string) (current_session_id : option Z)
| RegisterPage
| RedirectTo (endpoint : string)
| ServerError.

Record Response := mkResponse {
  body : Body;
  status : Z
}.

Definition jsonify (b : Body) : Response := mkResponse b 200.
Definition render_template (b : Body) : Response := mkResponse b 200.
Definition redirect (endpoint : string) : Response :=
  mkResponse (RedirectTo endpoint) 302.

(** A response that carries the key ["error"]. *)
Definition is_error (r : Response) : bool :=
  match body r with JsonError _ => true | _ => false end.

(** ** SQL on lists of rows *)

Module Sql.

(** [column = %s]: never true when either side is [NULL]. *)
Definition eq_int (column parameter : option Z) : bool :=
  match column, parameter with
  | Some a, Some b => a =? b
  | _, _ => false
  end.

Section OrderBy.
Context {A : Type} (leb : A -> A -> bool) (tie : A -> A -> bool).

(** Whether [x] is returned before [y]: by the sort key when it tells them
    apart, and as [tie] has it when it does not. *)
Definition goes_before (x y : A) : bool :=
  if leb y x then leb x y && tie x y else true.

Fixpoint insert_row (x : A) (l : list A) : list A :=
  match l with
  | [] => [x]
  | y :: l' => if goes_before x y then x :: l else y :: insert_row x l'
  end.

(** [ORDER BY]: PostgreSQL leaves open in which order rows with equal sort
    keys are returned; [tie] is that choice. *)
Fixpoint order_by (l : list A) : list A :=
  match l with
  | [] => []
  | x :: l' => insert_row x (order_by l')
  end.
End OrderBy.

(** A choice between rows made on their primary keys. *)
Definition by_key {A} (key : A -> Z) (tie : Z -> Z -> bool) (a b : A) : bool :=
  tie (key a) (key b).

Definition asc {A} (key : A -> Z) (a b : A) : bool := key a <=? key b.
Definition desc {A} (key : A -> Z) (a b : A) : bool := key b <=? key a.
Definition asc_text {A} (key : A -> string) (a b : A) : bool :=
  String.leb (key a) (key b).

(** [character varying(n)] on assignment: a longer value is refused.
    (PostgreSQL cuts a value whose excess is all spaces; usernames and
    emails arrive stripped and a password hash ends in no space.) *)
Definition fits (n : Z) (s : string) : bool := PyStr.len s <=? n.

End Sql.

(** ** The world a request runs in *)

(** What the request cannot decide: whether the server accepts a
    connection, which statement (numbered from 0 within the request) raises
    for a reason beyond the constraints of the tables, whether that failure
    is the loss of the connection, which of two sessions and which of two
    messages (named by their ids) a query returns first when their sort keys
    are equal, the clocks, the generative model and the salted hash. *)
Record Env := mkEnv {
  db_up : bool;
  fault : nat -> option string;
  drops : nat -> bool;
  tie_sessions : Z -> Z -> bool;
  tie_messages : Z -> Z -> bool;
  now : Z;
  wall_clock : Z;
  model_ready : bool;
  send_message : list Turn -> string -> string + string;
  generate_password_hash : string -> string
}.

Record World := mkWorld {
  committed : Tables;
  work : Tables;
  seqs : Sequences;
  aborted : bool;
  closed : bool;
  ops : nat;
  cookie : Session;
  flashes : list (string * string);
  ai_log : list (list Turn * string)
}.

Inductive result (A : Type) :=
| Ok (a : A)
| Raise (e : string).
Arguments Ok {A} a.
Arguments Raise {A} e.

Definition M (A : Type) : Type := World -> result A * World.

Definition ret {A} (a : A) : M A := fun w => (Ok a, w).

Definition bind {A B} (m : M A) (k : A -> M B) : M B :=
  fun w =>
    match m w with
    | (Ok a, w') => k a w'
    | (Raise e, w') => (Raise e, w')
    end.

Definition raise {A} (e : string) : M A := fun w => (Raise e, w).

(** [try: m  except Exception as e: h e] *)
Definition try_except {A} (m : M A) (h : string -> M A) : M A :=
  fun w =>
    match m w with
    | (Ok a, w') => (Ok a, w')
    | (Raise e, w') => h e w'
    end.

(** [try: m  finally: f] *)
Definition finally {A} (m : M A) (f : M unit) : M A :=
  fun w =>
    let (r, w') := m w in
    match f w' with
    | (Ok _, w'') => (r, w'')
    | (Raise e, w'') => (Raise e, w'')
    end.

Declare Scope py_scope.
Delimit Scope py_scope with py.
Notation "x <- m ;; k" := (bind m (fun x => k))
  (at level 61, m at next level, right associativity) : py_scope.
Notation "m ;; k" := (bind m (fun _ => k))
  (at level 61, right associativity) : py_scope.
Local Open Scope py_scope.

(** *** Cookie, flashes and the log of model calls *)

Definition get_session : M Session := fun w => (Ok (cookie w), w).

Definition put_session (c : Session) : M unit :=
  fun w =>
    (Ok tt, mkWorld (committed w) (work w) (seqs w) (aborted w) (closed w)
                    (ops w) c (flashes w) (ai_log w)).

(** [session['session_id'] = sid] *)
Definition set_session_id (sid : Z) : M unit :=
  c <- get_session ;;
  put_session (mkSession (s_user_id c) (s_username c) (Some sid)).

(** [session['user_id'] = uid; session['username'] = name] *)
Definition set_user (uid : Z) (name : string) : M unit :=
  c <- get_session ;;
  put_session (mkSession (Some uid) (Some name) (s_session_id c)).

Definition flash (message category : string) : M unit :=
  fun w =>
    (Ok tt, mkWorld (committed w) (work w) (seqs w) (aborted w) (closed w)
                    (ops w) (cookie w) (flashes w ++ [(message, category)])
                    (ai_log w)).

(** [model.start_chat(history=history).send_message(text).text] *)
Definition ask_model (env : Env) (history : list Turn) (text : string)
  : M string :=
  fun w =>
    let w' := mkWorld (committed w) (work w) (seqs w) (aborted w) (closed w)
                      (ops w) (cookie w) (flashes w)
                      (ai_log w ++ [(history, text)]) in
    match send_message env history text with
    | inr reply => (Ok reply, w')
    | inl e => (Raise e, w')
    end.

(** *** The connection

    One connection per request.  A statement that raises leaves the
    transaction aborted: until [rollback] every further statement raises,
    and [commit] ends the transaction without keeping its changes.  When the
    failure is the loss of the connection ([drops]), the connection object
    is closed from then on: [cursor], [execute], [commit] and [rollback] all
    raise [InterfaceError], and only [close] goes through.  A [commit] that
    raises keeps nothing; when it is cut off by the loss of the connection
    the server may in fact have committed, and what the theorems say of the
    tables after such a [commit] holds either way. *)

Definition statement (A : Type) : Type :=
  Tables -> Sequences -> result (A * Tables) * Sequences.

Definition in_failed_transaction : string :=
  "current transaction is aborted, commands ignored until end of transaction block".

Definition connection_already_closed : string := "connection already closed".

Definition execute {A} (env : Env) (stmt : statement A) : M A :=
  fun w =>
    let w1 b k t s := mkWorld (committed w) t s b k (S (ops w))
                              (cookie w) (flashes w) (ai_log w) in
    if closed w
    then (Raise connection_already_closed,
          w1 (aborted w) true (work w) (seqs w))
    else
      match fault env (ops w) with
      | Some e => (Raise e, w1 true (drops env (ops w)) (work w) (seqs w))
      | None =>
          if aborted w
          then (Raise in_failed_transaction, w1 true false (work w) (seqs w))
          else
            match stmt (work w) (seqs w) with
            | (Ok (a, t), s) => (Ok a, w1 false false t s)
            | (Raise e, s) => (Raise e, w1 true false (work w) s)
            end
      end.

Definition commit (env : Env) : M unit :=
  fun w =>
    let w1 b k c t := mkWorld c t (seqs w) b k (S (ops w))
                              (cookie w) (flashes w) (ai_log w) in
    if closed w
    then (Raise connection_already_closed,
          w1 (aborted w) true (committed w) (work w))
    else
      match fault env (ops w) with
      | Some e =>
          (Raise e, w1 true (drops env (ops w)) (committed w) (work w))
      | None =>
          if aborted w
          then (Ok tt, w1 false false (committed w) (committed w))
          else (Ok tt, w1 false false (work w) (work w))
      end.

(** [conn.rollback()]: raises on a closed connection. *)
Definition rollback : M unit :=
  fun w =>
    if closed w
    then (Raise connection_already_closed, w)
    else (Ok tt, mkWorld (committed w) (committed w) (seqs w) false false
                         (ops w) (cookie w) (flashes w) (ai_log w)).

(** [conn.close()]: what was not committed is dropped; closing a closed
    connection does nothing. *)
Definition close : M unit :=
  fun w =>
    (Ok tt, mkWorld (committed w) (committed w) (seqs w) false true
                    (ops w) (cookie w) (flashes w) (ai_log w)).

(** *** The statements of the handlers *)

Module Stmt.

Definition query {A} (f : Tables -> A) : statement A :=
  fun t s => (Ok (f t, t), s).

(** [SELECT message, response FROM chat_messages WHERE session_id = %s
    ORDER BY timestamp ASC]: no output column is called [timestamp], the
    name is the stored column. *)
Definition select_history (tie : Z -> Z -> bool) (sid : option Z)
  : statement (list ChatMessage) :=
  query (fun t =>
    Sql.order_by (Sql.asc cm_timestamp) (Sql.by_key cm_id tie)
      (filter (fun m => Sql.eq_int (cm_session_id m) sid)
              (chat_messages t))).

Definition view (m : ChatMessage) : MessageView :=
  mkMessageView (cm_message m) (cm_response m)
                (Clock.hh24_mi (cm_timestamp m)).

(** [SELECT message as question, response,
            to_char(timestamp, 'HH24:MI') as timestamp
    FROM chat_messages WHERE session_id = %s ORDER BY timestamp ASC]:
    here [timestamp] names both the stored column and an output column, and
    PostgreSQL then sorts on the output column, the text [HH24:MI]. *)
Definition select_messages (tie : Z -> Z -> bool) (sid : Z)
  : statement (list MessageView) :=
  query (fun t =>
    map view
      (Sql.order_by (Sql.asc_text (fun m => mv_timestamp (view m)))
         (Sql.by_key cm_id tie)
         (filter (fun m => Sql.eq_int (cm_session_id m) (Some sid))
                 (chat_messages t)))).

(** [SELECT s.id AS session_id, s.created_at AS session_date
    FROM chat_sessions s WHERE s.user_id = %s ORDER BY s.created_at DESC] *)
Definition select_sessions (tie : Z -> Z -> bool) (uid : Z)
  : statement (list ChatSession) :=
  query (fun t =>
    Sql.order_by (Sql.desc cs_created_at) (Sql.by_key cs_id tie)
      (filter (fun s => Sql.eq_int (cs_user_id s) (Some uid))
              (chat_sessions t))).

(** [SELECT id FROM chat_sessions WHERE id = %s AND user_id = %s], then
    [fetchone]. *)
Definition select_owned_session (sid uid : Z) : statement (option Z) :=
  query (fun t =>
    match filter (fun s => (cs_id s =? sid)
                           && Sql.eq_int (cs_user_id s) (Some uid))
                 (chat_sessions t) with
    | [] => None
    | s :: _ => Some (cs_id s)
    end).

(** [SELECT id FROM users WHERE username = %s], then [fetchone]. *)
Definition select_user_by_username (name : string) : statement (option Z) :=
  query (fun t =>
    match filter (fun u => String.eqb (u_username u) name) (users t) with
    | [] => None
    | u :: _ => Some (u_id u)
    end).

(** [SELECT id FROM users WHERE email = %s], then [fetchone]. *)
Definition select_user_by_email (email : string) : statement (option Z) :=
  query (fun t =>
    match filter (fun u => match u_email u with
                           | Some e => String.eqb e email
                           | None => false
                           end) (users t) with
    | [] => None
    | u :: _ => Some (u_id u)
    end).

Definition user_exists (t : Tables) (uid : Z) : bool :=
  existsb (fun u => u_id u =? uid) (users t).

Definition session_exists (t : Tables) (sid : Z) : bool :=
  existsb (fun s => cs_id s =? sid) (chat_sessions t).

(** A foreign key accepts [NULL]. *)
Definition references (exists_in : Z -> bool) (v : option Z) : bool :=
  match v with
  | Some x => exists_in x
  | None => true
  end.

(** [INSERT INTO chat_messages (session_id, user_id, message, response)
    VALUES (%s, %s, %s, %s)].  The sequence moves even when the row is
    refused. *)
Definition insert_message (now : Z) (sid uid : option Z)
    (message response : string) : statement unit :=
  fun t s =>
    let id := chat_messages_id_seq s in
    let s' := mkSequences (users_id_seq s) (chat_sessions_id_seq s) (id + 1) in
    if existsb (fun m => cm_id m =? id) (chat_messages t)
    then (Raise "duplicate key value violates unique constraint", s')
    else if negb (references (session_exists t) sid)
            || negb (references (user_exists t) uid)
    then (Raise "insert or update violates foreign key constraint", s')
    else
      (Ok (tt, mkTables (users t) (chat_sessions t)
                 (chat_messages t
                    ++ [mkChatMessage id sid uid message response now])),
       s').

(** [INSERT INTO chat_sessions (user_id) VALUES (%s) RETURNING id] *)
Definition insert_session (now : Z) (uid : Z) : statement Z :=
  fun t s =>
    let id := chat_sessions_id_seq s in
    let s' := mkSequences (users_id_seq s) (id + 1) (chat_messages_id_seq s) in
    if session_exists t id
    then (Raise "duplicate key value violates unique constraint", s')
    else if negb (user_exists t uid)
    then (Raise "insert or update violates foreign key constraint", s')
    else
      (Ok (id, mkTables (users t)
                 (chat_sessions t ++ [mkChatSession id (Some uid) now])
                 (chat_messages t)),
       s').

(** [INSERT INTO users (username, password, email) VALUES (%s, %s, %s)
    RETURNING id] *)
Definition insert_user (now : Z) (name hash : string) (email : option string)
  : statement Z :=
  fun t s =>
    let id := users_id_seq s in
    let s' := mkSequences (id + 1) (chat_sessions_id_seq s)
                          (chat_messages_id_seq s) in
    if negb (Sql.fits 100 name && Sql.fits 255 hash
             && match email with Some e => Sql.fits 255 e | None => true end)
    then (Raise "value too long for type character varying", s')
    else if user_exists t id
            || existsb (fun u => String.eqb (u_username u) name) (users t)
    then (Raise "duplicate key value violates unique constraint", s')
    else
      (Ok (id, mkTables (users t ++ [mkUser id name hash email now])
                 (chat_sessions t) (chat_messages t)),
       s').

(** [DELETE FROM chat_messages WHERE user_id = %s] *)
Definition delete_messages_of (uid : Z) : statement unit :=
  fun t s =>
    (Ok (tt, mkTables (users t) (chat_sessions t)
               (filter (fun m => negb (Sql.eq_int (cm_user_id m) (Some uid)))
                       (chat_messages t))),
     s).

(** [DELETE FROM chat_sessions WHERE user_id = %s]; the messages of the
    deleted sessions go with them ([ON DELETE CASCADE]). *)
Definition delete_sessions_of (uid : Z) : statement unit :=
  fun t s =>
    let owned c := Sql.eq_int (cs_user_id c) (Some uid) in
    let gone := filter owned (chat_sessions t) in
    (Ok (tt, mkTables (users t)
               (filter (fun c => negb (owned c)) (chat_sessions t))
               (filter (fun m =>
                          negb (existsb
                                  (fun c => Sql.eq_int (cm_session_id m)
                                                       (Some (cs_id c)))
                                  gone))
                       (chat_messages t))),
     s).

End Stmt.

(** ** Requests and outcomes *)

(** A key of the JSON body that the handler expects to hold text. *)
Inductive Field :=
| Missing
| Text (s : string)
| NotText.

Record AskRequest := mkAskRequest {
  ask_is_json : bool;
  ask_message : Field
}.

(** The requests considered carry the session id as a JSON integer;
    [None] is a missing key or [null]. *)
Record SwitchRequest := mkSwitchRequest {
  switch_is_json : bool;
  switch_session_id : option Z
}.

(** [request.form.get(key, '')]: a missing key reads as the empty string. *)
Record RegisterRequest := mkRegisterRequest {
  is_post : bool;
  form_username : string;
  form_password : string;
  form_email : string
}.

Record Outcome := mkOutcome {
  out_response : Response;
  out_database : Database;
  out_session : Session;
  out_flashes : list (string * string);
  out_ai_calls : list (list Turn * string)
}.

(** The world at the start of a request. *)
Definition enter (db : Database) (c : Session) : World :=
  mkWorld (db_tables db) (db_tables db) (db_sequences db) false false 0 c
          [] [].

(** Runs a handler on a database and a cookie.  An exception that leaves the
    handler becomes Flask's 500 page; what was not committed is lost. *)
Definition serve (h : M Response) (db : Database) (c : Session) : Outcome :=
  let (r, w) := h (enter db c) in
  mkOutcome
    match r with
    | Ok resp => resp
    | Raise _ => mkResponse ServerError 500
    end
    (mkDatabase (committed w) (seqs w)) (cookie w) (flashes w) (ai_log w).

(** ** Handlers *)

(** The connection object, or [None] when [psycopg2.connect] raised;
    handlers only test it. *)
Definition get_db_connection (env : Env) : bool := db_up env.

Definition login_required (f : Z -> M Response) : M Response :=
  c <- get_session ;;
  match s_user_id c with
  | None => ret (redirect "login")
  | Some user_id => f user_id
  end.

Definition bad_request (msg : string) : Response :=
  mkResponse (JsonError msg) 400.

(** The loop of [ask] over the fetched rows. *)
Fixpoint replay (rows : list ChatMessage) : list Turn :=
  match rows with
  | [] => []
  | row :: rest =>
      mkTurn role_user [cm_message row]
        :: mkTurn role_model [cm_response row] :: replay rest
  end.

(** [data.get('message', '')] followed by [.strip()], which only text has. *)
Definition stripped_message (f : Field) : M string :=
  match f with
  | Missing => ret (PyStr.strip "")
  | Text s => ret (PyStr.strip s)
  | NotText => raise "AttributeError: object has no attribute 'strip'"
  end.

(** The body of the outer [try] of [ask]. *)
Definition ask_try (env : Env) (user_id : Z) (session_id : option Z)
    (user_input : string) : M Response :=
  let conn := get_db_connection env in
  chat_history <-
    (if conn
     then try_except
            (rows <- execute env
                       (Stmt.select_history (tie_messages env) session_id) ;;
             ret (replay rows))
            (fun _ => ret [])
     else ret []) ;;
  response_text <- ask_model env chat_history user_input ;;
  (if conn
   then finally
          (try_except
             (execute env
                (Stmt.insert_message (now env) session_id (Some user_id)
                   user_input response_text) ;;
              commit env)
             (fun _ => rollback))
          close
   else ret tt) ;;
  ret (jsonify (JsonReply response_text
                  (Some (Clock.hh24_mi (wall_clock env))))).

Definition ask (env : Env) (req : AskRequest) : M Response :=
  login_required (fun user_id =>
    if negb (ask_is_json req) then ret (bad_request "Request must be JSON")
    else
      c <- get_session ;;
      let session_id := s_session_id c in
      user_input <- stripped_message (ask_message req) ;;
      if PyStr.falsy user_input then ret (bad_request "No message provided")
      else if String.eqb (PyStr.lower user_input) "exit"
      then ret (jsonify (JsonReply "Chat session ended." None))
      else if negb (model_ready env)
      then ret (jsonify (JsonError
        "AI model not initialized. Please check API key and model availability."))
      else
        try_except
          (ask_try env user_id session_id user_input)
          (fun e => ret (jsonify (JsonError ("Error: " ++ e))))).

Definition switch_session (env : Env) (req : SwitchRequest) : M Response :=
  login_required (fun user_id =>
    if negb (switch_is_json req) then ret (bad_request "Request must be JSON")
    else
      match switch_session_id req with
      | None => ret (bad_request "No session ID provided")
      | Some session_id =>
          if session_id =? 0 then ret (bad_request "No session ID provided")
          else if get_db_connection env
          then finally
                 (try_except
                    (found <- execute env
                                (Stmt.select_owned_session session_id user_id) ;;
                     match found with
                     | None => ret (bad_request "Invalid session")
                     | Some _ =>
                         set_session_id session_id ;;
                         messages <- execute env
                                       (Stmt.select_messages
                                          (tie_messages env) session_id) ;;
                         ret (jsonify (JsonMessages messages))
                     end)
                    (fun e => ret (mkResponse (JsonError e) 500)))
                 close
          else ret (mkResponse (JsonError "Database error") 500)
      end).

Definition clear_history (env : Env) : M Response :=
  login_required (fun user_id =>
    (if get_db_connection env
     then finally
            (try_except
               (execute env (Stmt.delete_messages_of user_id) ;;
                execute env (Stmt.delete_sessions_of user_id) ;;
                commit env ;;
                session_id <- execute env
                                (Stmt.insert_session (now env) user_id) ;;
                set_session_id session_id ;;
                commit env)
               (fun _ => rollback))
            close
     else ret tt) ;;
    ret (jsonify (JsonCleared "Chat history cleared"))).

(** The loop of [home] over the user's sessions.  The two lists are locals
    of the handler: when a query raises they keep what the earlier
    iterations put in them. *)
Fixpoint home_loop (env : Env) (current : option Z) (rows : list ChatSession)
    (chat_sessions : list SessionView) (current_messages : list MessageView)
  : M (list SessionView * list MessageView) :=
  match rows with
  | [] => ret (chat_sessions, current_messages)
  | row :: rest =>
      try_except
        (let session_id := cs_id row in
         let session_date := Clock.strftime_ymd_hm (cs_created_at row) in
         messages <- execute env
                       (Stmt.select_messages (tie_messages env) session_id) ;;
         home_loop env current rest
           (chat_sessions
              ++ [mkSessionView session_id session_date messages])
           (if Sql.eq_int (Some session_id) current
            then messages else current_messages))
        (fun _ => ret (chat_sessions, current_messages))
  end.

Definition home (env : Env) : M Response :=
  login_required (fun user_id =>
    c <- get_session ;;
    let username := s_username c in
    let current_session_id := s_session_id c in
    locals <-
      (if get_db_connection env
       then finally
              (try_except
                 (sessions <- execute env
                                (Stmt.select_sessions (tie_sessions env)
                                   user_id) ;;
                  home_loop env current_session_id sessions [] [])
                 (fun _ => ret ([], [])))
              close
       else ret ([], [])) ;;
    ret (render_template
           (IndexPage (fst locals) (snd locals)
                      username current_session_id))).

Definition min_password_length : Z := 6.

Definition register (env : Env) (req : RegisterRequest) : M Response :=
  if is_post req then
    let username := PyStr.strip (form_username req) in
    let password := form_password req in
    let email := PyStr.strip (form_email req) in
    if PyStr.falsy username || PyStr.falsy password
    then flash "Please enter both username and password" "error" ;;
         ret (render_template RegisterPage)
    else if PyStr.len password <? min_password_length
    then flash "Password must be at least 6 characters long" "error" ;;
         ret (render_template RegisterPage)
    else
      let hashed_password := generate_password_hash env password in
      if get_db_connection env
      then
        returned <-
          finally
            (try_except
               (found <- execute env (Stmt.select_user_by_username username) ;;
                match found with
                | Some _ =>
                    flash "Username already exists" "error" ;;
                    ret (Some (render_template RegisterPage))
                | None =>
                    taken <- (if PyStr.falsy email then ret None
                              else execute env
                                     (Stmt.select_user_by_email email)) ;;
                    match taken with
                    | Some _ =>
                        flash "Email already exists" "error" ;;
                        ret (Some (render_template RegisterPage))
                    | None =>
                        user_id <- execute env
                          (Stmt.insert_user (now env) username hashed_password
                             (if PyStr.falsy email then None else Some email)) ;;
                        session_id <- execute env
                          (Stmt.insert_session (now env) user_id) ;;
                        set_session_id session_id ;;
                        commit env ;;
                        set_user user_id username ;;
                        flash "Registration successful! Welcome to Gemini Chat!"
                              "success" ;;
                        ret (Some (redirect "home"))
                    end
                end)
               (fun e =>
                  rollback ;;
                  flash ("Registration error: " ++ e) "error" ;;
                  ret None))
            close ;;
        match returned with
        | Some response => ret response
        | None => ret (render_template RegisterPage)
        end
      else flash "Database connection error" "error" ;;
           ret (render_template RegisterPage)
  else ret (render_template RegisterPage).

(** ** Properties named by the specification *)

(** The user owns the session: a row of [chat_sessions] has that id and
    that user. *)
Definition owns (t : Tables) (user_id session_id : Z) : bool :=
  existsb (fun s => (cs_id s =? session_id)
                    && Sql.eq_int (cs_user_id s) (Some user_id))
          (chat_sessions t).

Definition sessions_of (t : Tables) (user_id : Z) : list ChatSession :=
  filter (fun s => Sql.eq_int (cs_user_id s) (Some user_id)) (chat_sessions t).

Definition messages_in (t : Tables) (session_id : option Z)
  : list ChatMessage :=
  filter (fun m => Sql.eq_int (cm_session_id m) session_id) (chat_messages t).

(** The rows that [ask] fetches for its history, for a choice [tie]
    between rows of equal timestamps. *)
Definition history_rows (tie : Z -> Z -> bool) (t : Tables) (sid : option Z)
  : list ChatMessage :=
  Sql.order_by (Sql.asc cm_timestamp) (Sql.by_key cm_id tie)
    (messages_in t sid).

(** What [switch_session] and [home] fetch for a session: the views of
    its rows, each once, in ascending order of the text [HH24:MI], for a
    choice [tie] between rows of equal text. *)
Definition listed_messages (tie : Z -> Z -> bool) (t : Tables) (sid : Z)
  : list MessageView :=
  map Stmt.view
    (Sql.order_by (Sql.asc_text (fun m => mv_timestamp (Stmt.view m)))
       (Sql.by_key cm_id tie) (messages_in t (Some sid))).

Definition messages_by (t : Tables) (user_id : Z) : list ChatMessage :=
  filter (fun m => Sql.eq_int (cm_user_id m) (Some user_id)) (chat_messages t).

Definition username_taken (t : Tables) (name : string) : bool :=
  existsb (fun u => String.eqb (u_username u) name) (users t).

Definition email_taken (t : Tables) (email : string) : bool :=
  existsb (fun u => match u_email u with
                    | Some e => String.eqb e email
                    | None => false
                    end) (users t).

Fixpoint only_whitespace (s : string) : bool :=
  match s with
  | EmptyString => true
  | String c s' => PyStr.isspace c && only_whitespace s'
  end.

(** The message key is missing, empty or holds only whitespace. *)
Definition blank (f : Field) : bool :=
  match f with
  | Missing => true
  | Text s => only_whitespace s
  | NotText => false
  end.

(** What [SERIAL] keys and the foreign key of [chat_messages.session_id]
    maintain: every id is below its sequence, and a message names no session
    or a stored one. *)
Definition consistent (db : Database) : bool :=
  let t := db_tables db in
  let s := db_sequences db in
  forallb (fun u => u_id u <? users_id_seq s) (users t)
  && forallb (fun c => cs_id c <? chat_sessions_id_seq s) (chat_sessions t)
  && forallb (fun m => cm_id m <? chat_messages_id_seq s) (chat_messages t)
  && forallb (fun m => Stmt.references (Stmt.session_exists t)
                                       (cm_session_id m))
             (chat_messages t).

Definition no_fault (env : Env) : Prop := forall n, fault env n = None.

(** Whatever fails, the connection stays open. *)
Definition connection_kept (env : Env) : Prop :=
  forall n, drops env n = false.

(** Sequences only move forward. *)
Definition seq_le (s s' : Sequences) : Prop :=
  users_id_seq s <= users_id_seq s'
  /\ chat_sessions_id_seq s <= chat_sessions_id_seq s'
  /\ chat_messages_id_seq s <= chat_messages_id_seq s'.

(** A statement that moves the sequences forward and, when it goes through,
    takes consistent tables to consistent tables. *)
Definition lawful {A} (stmt : statement A) : Prop :=
  forall t s r s',
    stmt t s = (r, s') ->
    seq_le s s'
    /\ (consistent (mkDatabase t s) = true ->
        match r with
        | Ok (_, t') => consistent (mkDatabase t' s') = true
        | Raise _ => True
        end).

(** Both the committed tables and those of the open transaction are
    consistent. *)
Definition sound (w : World) : Prop :=
  consistent (mkDatabase (committed w) (seqs w)) = true
  /\ consistent (mkDatabase (work w) (seqs w)) = true.

Definition keeps {A} (m : M A) : Prop :=
  forall w, sound w -> sound (snd (m w)).

(** The registration did not go through: nothing is stored, the caller's
    cookie is what it was, and the form comes back. *)
Definition refused (db : Database) (c : Session) (o : Outcome) : Prop :=
  out_database o = db
  /\ out_session o = c
  /\ out_response o = render_template RegisterPage.

(** The same, when the answer may also be the 500 page of an exception that
    left the handler. *)
Definition not_registered (db : Database) (c : Session) (o : Outcome) : Prop :=
  out_database o = db
  /\ out_session o = c
  /\ (out_response o = render_template RegisterPage
      \/ out_response o = mkResponse ServerError 500).

(** A response that carries the key ["response"]. *)
Definition is_reply (r : Response) : bool :=
  match body r with JsonReply _ _ => true | _ => false end.

(** ** Sample data

    Two users; alice has two sessions, and the two messages of her first
    session lie on either side of midnight. *)

Module Sample.

(** 2024-03-31 23:59:00 and 2024-04-01 00:01:00 *)
Definition before_midnight : Z := 1711929540000000.
Definition after_midnight : Z := 1711929660000000.

Definition first_message : ChatMessage :=
  mkChatMessage 1 (Some 1) (Some 1) "first" "one" before_midnight.
Definition second_message : ChatMessage :=
  mkChatMessage 2 (Some 1) (Some 1) "second" "two" after_midnight.

Definition db : Database :=
  mkDatabase
    (mkTables
       [mkUser 1 "alice" "pbkdf2:a" None 0;
        mkUser 2 "bob" "pbkdf2:b" (Some "bob@example.org") 0]
       [mkChatSession 1 (Some 1) 10; mkChatSession 2 (Some 1) 20;
        mkChatSession 3 (Some 2) 30]
       [first_message; second_message;
        mkChatMessage 3 (Some 3) (Some 2) "hello" "hi" after_midnight])
    (mkSequences 3 4 4).

Definition alice : Session := mkSession (Some 1) (Some "alice") (Some 1).

(** alice after her active session was deleted. *)
Definition alice_stale : Session := mkSession (Some 1) (Some "alice") (Some 9).

Definition echo (history : list Turn) (text : string) : string + string :=
  inr ("echo " ++ text).

Definition quota (history : list Turn) (text : string) : string + string :=
  inl "429 quota exceeded".

Definition salted (password : string) : string := "pbkdf2:" ++ password.

Definition clock : Z := after_midnight + 7000000.

(** Of two rows with equal sort keys, the one with the lower id first. *)
Definition lower_id_first : Z -> Z -> bool := Z.leb.

(** Everything works. *)
Definition env : Env :=
  mkEnv true (fun _ => None) (fun _ => false) lower_id_first lower_id_first
        clock clock true echo salted.

(** The server refuses connections. *)
Definition env_db_down : Env :=
  mkEnv false (fun _ => None) (fun _ => false) lower_id_first lower_id_first
        clock clock true echo salted.

(** The model raises. *)
Definition env_model_error : Env :=
  mkEnv true (fun _ => None) (fun _ => false) lower_id_first lower_id_first
        clock clock true quota salted.

(** The n-th statement of the request raises. *)
Definition env_fault_at (n : nat) : Env :=
  mkEnv true
        (fun k => if Nat.eqb k n
                  then Some "canceling statement due to statement timeout"
                  else None)
        (fun _ => false)
        lower_id_first lower_id_first clock clock true echo salted.

(** The server goes away during the n-th statement of the request. *)
Definition env_lost_at (n : nat) : Env :=
  mkEnv true
        (fun k => if Nat.eqb k n
                  then Some "server closed the connection unexpectedly"
                  else None)
        (Nat.eqb n)
        lower_id_first lower_id_first clock clock true echo salted.

Definition say (text : string) : AskRequest := mkAskRequest true (Text text).

Definition sign_up (username password email : string) : RegisterRequest :=
  mkRegisterRequest true username password email.

End Sample.

(** ** The remaining routes: [/login], [/logout], [/new_session], [/health] *)

(** [t.strftime('%Y-%m-%d %H:%M:%S')], for the years 1000 to 9999. *)
Definition strftime_ymd_hms (t : Z) : string :=
  Clock.strftime_ymd_hm t ++ ":" ++ Clock.two_digits ((t / 1000000) mod 60).

Module StmtAux.

(** [SELECT * FROM users WHERE username = %s], then [fetchone]. *)
Definition select_user (name : string) : statement (option User) :=
  Stmt.query (fun t =>
    match filter (fun u => String.eqb (u_username u) name) (users t) with
    | [] => None
    | u :: _ => Some u
    end).

(** [SELECT id FROM chat_sessions WHERE user_id = %s
    ORDER BY created_at DESC LIMIT 1], then [fetchone]. *)
Definition select_latest_session (tie : Z -> Z -> bool) (uid : Z)
  : statement (option Z) :=
  Stmt.query (fun t =>
    match Sql.order_by (Sql.desc cs_created_at) (Sql.by_key cs_id tie)
            (filter (fun s => Sql.eq_int (cs_user_id s) (Some uid))
                    (chat_sessions t)) with
    | [] => None
    | s :: _ => Some (cs_id s)
    end).

(** [SELECT version();], then [fetchone]. *)
Definition select_version : statement string :=
  Stmt.query (fun _ => "PostgreSQL").

End StmtAux.

(** What these routes answer with, beside the responses of the chat
    endpoints. *)
Inductive Answer :=
| Chat (r : Response)
| LoginPage
| NewSessionCreated (session_id : Z)
| Health (status database ai_model timestamp : string).

Record LoginRequest := mkLoginRequest {
  login_is_post : bool;
  login_username : string;
  login_password : string;
  login_next : option string
}.

Record Visit := mkVisit {
  visit_answer : Answer;
  visit_database : Database;
  visit_session : Session;
  visit_flashes : list (string * string);
  visit_ai_calls : list (list Turn * string)
}.

(** [serve] for these routes. *)
Definition visit (h : M Answer) (db : Database) (c : Session) : Visit :=
  let (r, w) := h (enter db c) in
  mkVisit
    match r with
    | Ok a => a
    | Raise _ => Chat (mkResponse ServerError 500)
    end
    (mkDatabase (committed w) (seqs w)) (cookie w) (flashes w) (ai_log w).

(** [login_required] around a handler of these routes. *)
Definition login_required_answer (f : Z -> M Answer) : M Answer :=
  c <- get_session ;;
  match s_user_id c with
  | None => ret (Chat (redirect "login"))
  | Some user_id => f user_id
  end.

(** [redirect(next_page)] when the query string names a page, else
    [redirect(url_for('home'))]. *)
Definition after_login (next : option string) : Answer :=
  match next with
  | Some page => if PyStr.falsy page then Chat (redirect "home")
                 else Chat (redirect page)
  | None => Chat (redirect "home")
  end.

(** [check_password_hash] is the second argument. *)
Definition login (env : Env) (check_password_hash : string -> string -> bool)
    (req : LoginRequest) : M Answer :=
  if login_is_post req then
    let username := PyStr.strip (login_username req) in
    let password := login_password req in
    if PyStr.falsy username || PyStr.falsy password
    then flash "Please enter both username and password" "error" ;;
         ret LoginPage
    else
      if get_db_connection env
      then
        returned <-
          finally
            (try_except
               (found <- execute env (StmtAux.select_user username) ;;
                let invalid :=
                  flash "Invalid username or password" "error" ;; ret None in
                match found with
                | None => invalid
                | Some user =>
                    if check_password_hash (u_password user) password
                    then
                      set_user (u_id user) (u_username user) ;;
                      existing_session <-
                        execute env
                          (StmtAux.select_latest_session (tie_sessions env)
                             (u_id user)) ;;
                      session_id <-
                        match existing_session with
                        | Some id => ret id
                        | None =>
                            execute env
                              (Stmt.insert_session (now env) (u_id user))
                        end ;;
                      set_session_id session_id ;;
                      commit env ;;
                      ret (Some (after_login (login_next req)))
                    else invalid
                end)
               (fun e =>
                  flash ("Login error: " ++ e) "error" ;;
                  ret None))
            close ;;
        match returned with
        | Some answer => ret answer
        | None => ret LoginPage
        end
      else flash "Database connection error" "error" ;;
           ret LoginPage
  else ret LoginPage.

(** [session.clear()], then the flash and the redirect. *)
Definition logout : M Response :=
  put_session anonymous ;;
  flash "You have been logged out successfully" "success" ;;
  ret (redirect "login").

(** The [try] block of [new_session].  Its value is the local [session_id]
    as the [return] after the block finds it: bound once the INSERT has
    returned, also when the commit then raises and is rolled back, and
    unbound otherwise.  The one [except] clause of the source stands here
    once for each of the two cases; a [rollback] that raises in the inner
    one raises again in the outer one, and the exception leaves the block
    as it does in the source. *)
Definition new_session_try (env : Env) (user_id : Z) : M (option Z) :=
  finally
    (try_except
       (session_id <- execute env (Stmt.insert_session (now env) user_id) ;;
        set_session_id session_id ;;
        try_except
          (commit env ;; ret (Some session_id))
          (fun _ => rollback ;; ret (Some session_id)))
       (fun _ => rollback ;; ret None))
    close.

Definition new_session (env : Env) : M Answer :=
  login_required_answer (fun user_id =>
    session_id <- (if get_db_connection env
                   then new_session_try env user_id
                   else ret None) ;;
    match session_id with
    | Some id => ret (NewSessionCreated id)
    | None =>
        raise "UnboundLocalError: local variable 'session_id' referenced before assignment"
    end).

Definition test_db_connection (env : Env) : M bool :=
  if get_db_connection env
  then finally
         (try_except
            (version <- execute env StmtAux.select_version ;;
             ret true)
            (fun _ => ret false))
         close
  else ret false.

Definition health_check (env : Env) : M Answer :=
  db_status <- test_db_connection env ;;
  let model_status := model_ready env in
  ret (Health (if db_status && model_status then "healthy" else "unhealthy")
              (if db_status then "connected" else "disconnected")
              (if model_status then "initialized" else "not initialized")
              (strftime_ymd_hms (wall_clock env))).

(** ** The constraints of the schema *)

(** No two elements are the same. *)
Fixpoint distinct_by {A} (same : A -> A -> bool) (l : list A) : bool :=
  match l with
  | [] => true
  | x :: l' => negb (existsb (same x) l') && distinct_by same l'
  end.

(** All that [init_db] declares holds: the three primary keys and
    [username] are unique, the three foreign keys name stored rows (or are
    [NULL]), and every id came from its sequence. *)
Definition well_formed (db : Database) : bool :=
  let t := db_tables db in
  consistent db
  && distinct_by Z.eqb (map u_id (users t))
  && distinct_by Z.eqb (map cs_id (chat_sessions t))
  && distinct_by Z.eqb (map cm_id (chat_messages t))
  && distinct_by String.eqb (map u_username (users t))
  && forallb (fun c => Stmt.references (Stmt.user_exists t) (cs_user_id c))
             (chat_sessions t)
  && forallb (fun m => Stmt.references (Stmt.user_exists t) (cm_user_id m))
             (chat_messages t).

(** A statement that moves the sequences forward and, when it goes through,
    takes well-formed tables to well-formed tables. *)
Definition respects_schema {A} (stmt : statement A) : Prop :=
  forall t s r s',
    stmt t s = (r, s') ->
    seq_le s s'
    /\ (well_formed (mkDatabase t s) = true ->
        match r with
        | Ok (_, t') => well_formed (mkDatabase t' s') = true
        | Raise _ => True
        end).

Definition schema_holds (w : World) : Prop :=
  well_formed (mkDatabase (committed w) (seqs w)) = true
  /\ well_formed (mkDatabase (work w) (seqs w)) = true.

Definition keeps_schema {A} (m : M A) : Prop :=
  forall w, schema_holds w -> schema_holds (snd (m w)).

(** More sample data. *)
Module SampleAux.

(** [check_password_hash] for the hashes of [Sample.salted]. *)
Definition check (pwhash password : string) : bool :=
  String.eqb pwhash (Sample.salted password).

Definition sign_in (username password : string) : LoginRequest :=
  mkLoginRequest true username password None.

End SampleAux.

(** What [home] puts in [chat_sessions] for one of the fetched rows. *)
Definition session_entry (tie : Z -> Z -> bool) (t : Tables)
    (row : ChatSession) : SessionView :=
  mkSessionView (cs_id row) (Clock.strftime_ymd_hm (cs_created_at row))
                (listed_messages tie t (cs_id row)).

(** The tables once both DELETEs of [clear_history] have run. *)
Definition cleared (t : Tables) (uid : Z) : Tables :=
  mkTables (users t)
    (filter (fun c => negb (Sql.eq_int (cs_user_id c) (Some uid)))
            (chat_sessions t))
    (filter (fun m =>
               negb (existsb
                       (fun c => Sql.eq_int (cm_session_id m) (Some (cs_id c)))
                       (sessions_of t uid)))
            (filter (fun m => negb (Sql.eq_int (cm_user_id m) (Some uid)))
                    (chat_messages t))).

(** A message that the user neither wrote nor has in one of their
    sessions. *)
Definition foreign_to (t : Tables) (uid : Z) (m : ChatMessage) : bool :=
  negb (Sql.eq_int (cm_user_id m) (Some uid))
  && negb (existsb (fun c => Sql.eq_int (cm_session_id m) (Some (cs_id c)))
                   (sessions_of t uid)).

(** ** Proof tools *)

Ltac unfold_py :=
  unfold try_except, finally, bind, ret, raise, execute, commit, close,
    rollback, ask_model, flash, set_session_id, set_user, put_session,
    get_session, get_db_connection, Stmt.query, enter.

(** Statements are reasoned about through their lemmas. *)
Arguments Stmt.select_history : simpl never.
Arguments Stmt.select_messages : simpl never.
Arguments Stmt.select_sessions : simpl never.
Arguments Stmt.select_owned_session : simpl never.
Arguments Stmt.select_user_by_username : simpl never.
Arguments Stmt.select_user_by_email : simpl never.
Arguments Stmt.insert_message : simpl never.
Arguments Stmt.insert_session : simpl never.
Arguments Stmt.insert_user : simpl never.
Arguments Stmt.delete_messages_of : simpl never.
Arguments Stmt.delete_sessions_of : simpl never.

(** Splits on what the environment decides next. *)
Ltac env_case :=
  cbn;
  match goal with
  | |- context [db_up ?env] => destruct (db_up env) eqn:?
  | |- context [fault ?env ?n] => destruct (fault env n) eqn:?
  | |- context [drops ?env ?n] => destruct (drops env n) eqn:?
  end.

(** ** Facts about [ORDER BY] *)

Section OrderByFacts.
Context {A : Type} (leb tie : A -> A -> bool).
Hypothesis leb_total : forall a b, leb a b = true \/ leb b a = true.

Let le (a b : A) : Prop := leb a b = true.

Lemma goes_before_le (x y : A) : Sql.goes_before leb tie x y = true -> le x y.
Proof.
  unfold Sql.goes_before, le. destruct (leb y x) eqn:E.
  - now intros [H _]%andb_prop.
  - intros _. destruct (leb_total x y); congruence.
Qed.

Lemma goes_after_le (x y : A) : Sql.goes_before leb tie x y = false -> le y x.
Proof.
  unfold Sql.goes_before, le. destruct (leb y x); [reflexivity|discriminate].
Qed.

Lemma insert_row_perm (x : A) (l : list A) :
  Permutation (x :: l) (Sql.insert_row leb tie x l).
Proof.
  induction l as [|y l IH]; cbn [Sql.insert_row].
  - apply Permutation_refl.
  - destruct (Sql.goes_before leb tie x y).
    + apply Permutation_refl.
    + eapply perm_trans; [apply perm_swap|].
      now apply perm_skip.
Qed.

Lemma order_by_perm (l : list A) : Permutation l (Sql.order_by leb tie l).
Proof.
  induction l as [|x l IH]; cbn [Sql.order_by].
  - constructor.
  - eapply perm_trans; [apply perm_skip, IH|].
    apply insert_row_perm.
Qed.

Lemma insert_row_hd (x a : A) (l : list A) :
  le a x -> HdRel le a l -> HdRel le a (Sql.insert_row leb tie x l).
Proof.
  intros Hax Hl.
  destruct l as [|y l]; cbn [Sql.insert_row].
  - now constructor.
  - destruct (Sql.goes_before leb tie x y); constructor; trivial.
    now inversion Hl.
Qed.

Lemma insert_row_sorted (x : A) (l : list A) :
  Sorted le l -> Sorted le (Sql.insert_row leb tie x l).
Proof.
  induction 1 as [|y l Hs IH Hhd]; cbn [Sql.insert_row].
  - repeat constructor.
  - destruct (Sql.goes_before leb tie x y) eqn:E.
    + constructor; [now constructor|].
      constructor. now apply goes_before_le.
    + constructor; [exact IH|].
      apply insert_row_hd; [|exact Hhd].
      now apply goes_after_le.
Qed.

(** Whatever [tie] is, the rows come out in the order of their keys. *)
Lemma order_by_sorted (l : list A) : Sorted le (Sql.order_by leb tie l).
Proof.
  induction l as [|x l IH]; cbn [Sql.order_by].
  - constructor.
  - now apply insert_row_sorted.
Qed.

Lemma order_by_length (l : list A) :
  List.length (Sql.order_by leb tie l) = List.length l.
Proof. symmetry. apply Permutation_length, order_by_perm. Qed.
End OrderByFacts.

Lemma asc_total {A} (key : A -> Z) (a b : A) :
  Sql.asc key a b = true \/ Sql.asc key b a = true.
Proof.
  unfold Sql.asc.
  destruct (Z.leb_spec (key a) (key b)); [now left|right].
  apply Z.leb_le. lia.
Qed.

(** The rows [ask] fetches are the rows of the session, each once, in
    ascending order of the stored timestamp. *)

Lemma select_history_rows (tie : Z -> Z -> bool) (t : Tables) (s : Sequences)
    (sid : option Z) :
  Stmt.select_history tie sid t s = (Ok (history_rows tie t sid, t), s).
Proof. reflexivity. Qed.

Lemma history_rows_ordered (tie : Z -> Z -> bool) (t : Tables)
    (sid : option Z) :
  Permutation (messages_in t sid) (history_rows tie t sid)
  /\ Sorted (fun a b => cm_timestamp a <= cm_timestamp b)
            (history_rows tie t sid).
Proof.
  split.
  - apply order_by_perm.
  - pose proof (order_by_sorted (Sql.asc cm_timestamp) (Sql.by_key cm_id tie)
                  (asc_total _) (messages_in t sid)) as H.
    fold (history_rows tie t sid) in H.
    induction H as [|a l Hs IH Hhd]; constructor; trivial.
    destruct Hhd; constructor. now apply Z.leb_le.
Qed.

(** ** Facts about [strip] and [lower] *)

Lemma lstrip_whitespace (s : string) :
  only_whitespace s = true -> PyStr.lstrip s = EmptyString.
Proof.
  induction s as [|c s IH]; simpl; trivial.
  destruct (PyStr.isspace c); simpl; [exact IH|discriminate].
Qed.

Lemma strip_whitespace (s : string) :
  only_whitespace s = true -> PyStr.strip s = EmptyString.
Proof. intros H. unfold PyStr.strip. now rewrite lstrip_whitespace. Qed.

Lemma lstrip_head (s : string) :
  PyStr.lstrip s = EmptyString
  \/ exists c r, PyStr.lstrip s = String c r /\ PyStr.isspace c = false.
Proof.
  induction s as [|c s IH]; simpl; [now left|].
  destruct (PyStr.isspace c) eqn:E; [exact IH|].
  right. now exists c, s.
Qed.

Lemma rstrip_empty (s : string) :
  PyStr.rstrip s = EmptyString -> only_whitespace s = true.
Proof.
  induction s as [|c s IH]; simpl; trivial.
  destruct (PyStr.rstrip s); [|discriminate].
  destruct (PyStr.isspace c); [|discriminate].
  intros _. now apply IH.
Qed.

Lemma lstrip_empty (s : string) :
  PyStr.lstrip s = EmptyString -> only_whitespace s = true.
Proof.
  induction s as [|c s IH]; simpl; trivial.
  destruct (PyStr.isspace c); [exact IH|discriminate].
Qed.

(** [strip] leaves nothing exactly of the strings made of whitespace. *)
Lemma strip_empty_iff (s : string) :
  PyStr.strip s = EmptyString <-> only_whitespace s = true.
Proof.
  split; [|apply strip_whitespace].
  unfold PyStr.strip. intros H. apply rstrip_empty in H.
  destruct (lstrip_head s) as [E|(c & r & E & Hc)].
  - now apply lstrip_empty.
  - rewrite E in H. simpl in H. now rewrite Hc in H.
Qed.

Lemma falsy_false (s : string) : s <> EmptyString -> PyStr.falsy s = false.
Proof. destruct s; [congruence|reflexivity]. Qed.

Lemma lower_nonempty (s t : string) :
  PyStr.lower s = t -> t <> EmptyString -> s <> EmptyString.
Proof. intros <- H ->. now apply H. Qed.

(** ** Facts about the statements *)

Lemma database_eta (db : Database) :
  mkDatabase (db_tables db) (db_sequences db) = db.
Proof. now destruct db. Qed.

Lemma insert_message_ok (now : Z) (sid uid : option Z) (msg resp : string)
    (t t' : Tables) (s s' : Sequences) (a : unit) :
  Stmt.insert_message now sid uid msg resp t s = (Ok (a, t'), s') ->
  t' = mkTables (users t) (chat_sessions t)
         (chat_messages t
            ++ [mkChatMessage (chat_messages_id_seq s) sid uid msg resp now]).
Proof.
  unfold Stmt.insert_message.
  destruct (existsb _ _); [discriminate|].
  destruct (_ || _); [discriminate|].
  now intros [= <- <-].
Qed.

Lemma existsb_below {A} (key : A -> Z) (bound : Z) (l : list A) :
  forallb (fun x => key x <? bound) l = true ->
  existsb (fun x => key x =? bound) l = false.
Proof.
  induction l as [|x l IH]; simpl; trivial.
  intros [Hx Hl]%andb_prop. rewrite (IH Hl), orb_false_r.
  apply Z.eqb_neq. apply Z.ltb_lt in Hx. lia.
Qed.

(** In a consistent database the next message id is free, so the row is
    stored as soon as the session and the user it names exist. *)
Lemma insert_message_accepts (now sid uid : Z) (msg resp : string)
    (db : Database) :
  consistent db = true ->
  Stmt.session_exists (db_tables db) sid = true ->
  Stmt.user_exists (db_tables db) uid = true ->
  exists t' s',
    Stmt.insert_message now (Some sid) (Some uid) msg resp
      (db_tables db) (db_sequences db) = (Ok (tt, t'), s').
Proof.
  intros Hc Hs Hu. unfold Stmt.insert_message.
  unfold consistent in Hc.
  apply andb_prop in Hc as [Hc _]. apply andb_prop in Hc as [_ Hm].
  rewrite (existsb_below cm_id _ _ Hm). cbn. rewrite Hs, Hu. cbn.
  eauto.
Qed.

(** ** The endpoint [/ask] *)

(** A message that is neither blank nor [exit] reaches the model when the
    model is there. *)
Lemma ask_passes_guards (env : Env) (req : AskRequest) (uid : Z)
    (text : string) (w : World) :
  s_user_id (cookie w) = Some uid ->
  ask_is_json req = true ->
  ask_message req = Text text ->
  PyStr.strip text <> EmptyString ->
  PyStr.lower (PyStr.strip text) <> "exit" ->
  model_ready env = true ->
  ask env req w
  = try_except
      (ask_try env uid (s_session_id (cookie w)) (PyStr.strip text))
      (fun e => ret (jsonify (JsonError ("Error: " ++ e)))) w.
Proof.
  intros Hauth Hjson Hmsg Hne Hexit Hready.
  unfold ask, login_required, bind at 1, get_session.
  rewrite Hauth, Hjson. cbn [negb].
  unfold bind at 1. rewrite Hmsg. cbn [stripped_message].
  unfold bind at 1, ret at 1.
  rewrite (falsy_false _ Hne).
  apply String.eqb_neq in Hexit. rewrite Hexit, Hready. reflexivity.
Qed.

(** C2: for a logged-in caller, a request to [/ask] whose message is
    missing, empty or only whitespace is answered with an error (status 400,
    "No message provided" when the request is JSON); no row is inserted, the
    database and the cookie are what they were and the model is not
    called. *)
Theorem ask_blank_message_rejected
    (env : Env) (req : AskRequest) (db : Database) (c : Session) (uid : Z) :
  s_user_id c = Some uid ->
  blank (ask_message req) = true ->
  let o := serve (ask env req) db c in
  is_error (out_response o) = true
  /\ status (out_response o) = 400
  /\ (ask_is_json req = true ->
      out_response o = bad_request "No message provided")
  /\ out_database o = db
  /\ out_session o = c
  /\ out_ai_calls o = [].
Proof.
  intros Hauth Hblank.
  unfold serve, ask, login_required, bind, get_session, ret; cbn [cookie enter].
  rewrite Hauth.
  destruct (ask_is_json req); cbn.
  - destruct (ask_message req) as [|s|]; cbn in *; try discriminate.
    + rewrite database_eta. repeat split.
    + apply strip_empty_iff in Hblank. rewrite Hblank. cbn.
      rewrite database_eta. repeat split.
  - rewrite database_eta. repeat split. discriminate.
Qed.

Lemma ask_blank_message_rejected_witness :
  let o := serve (ask Sample.env (Sample.say "   ")) Sample.db Sample.alice in
  is_error (out_response o) = true
  /\ status (out_response o) = 400
  /\ (ask_is_json (Sample.say "   ") = true ->
      out_response o = bad_request "No message provided")
  /\ out_database o = Sample.db
  /\ out_session o = Sample.alice
  /\ out_ai_calls o = [].
Proof.
  apply (ask_blank_message_rejected Sample.env (Sample.say "   ")
           Sample.db Sample.alice 1); reflexivity.
Defined.

(** C9: for a logged-in caller, a JSON request to [/ask] whose trimmed
    message is [exit] in any letter case is answered with the fixed response
    "Chat session ended."; the model is not called and no row is written:
    database and cookie are what they were. *)
Theorem ask_exit_ends_chat
    (env : Env) (req : AskRequest) (db : Database) (c : Session)
    (uid : Z) (text : string) :
  s_user_id c = Some uid ->
  ask_is_json req = true ->
  ask_message req = Text text ->
  PyStr.lower (PyStr.strip text) = "exit" ->
  let o := serve (ask env req) db c in
  out_response o = jsonify (JsonReply "Chat session ended." None)
  /\ out_ai_calls o = []
  /\ out_database o = db
  /\ out_session o = c.
Proof.
  intros Hauth Hjson Hmsg Hexit.
  assert (Hne : PyStr.strip text <> EmptyString)
    by (apply (lower_nonempty _ _ Hexit); discriminate).
  unfold serve, ask, login_required, bind, get_session, ret; cbn [cookie enter].
  rewrite Hauth, Hjson, Hmsg. cbn [negb stripped_message ret].
  rewrite (falsy_false _ Hne), Hexit. cbn.
  rewrite database_eta. repeat split.
Qed.

Lemma ask_exit_ends_chat_witness :
  let o := serve (ask Sample.env (Sample.say " ExIt ")) Sample.db Sample.alice in
  out_response o = jsonify (JsonReply "Chat session ended." None)
  /\ out_ai_calls o = []
  /\ out_database o = Sample.db
  /\ out_session o = Sample.alice.
Proof.
  apply (ask_exit_ends_chat Sample.env (Sample.say " ExIt ")
           Sample.db Sample.alice 1 " ExIt "); reflexivity.
Defined.

(** [lower] sends to a lower-case letter of [exit] that letter and its
    capital, nothing else. *)
Lemma lower_char_preimage (c l : ascii) :
  In l ["e"; "x"; "i"; "t"]%char ->
  PyStr.lower_char c = l ->
  c = l \/ c = ascii_of_nat (nat_of_ascii l - 32).
Proof.
  intros Hl H.
  destruct c as [[] [] [] [] [] [] [] []];
    cbn in Hl; destruct Hl as [<-|[<-|[<-|[<-|[]]]]];
    first [discriminate H | now left | now right].
Qed.

(** The messages that end the chat are the sixteen spellings of [exit]. *)
Lemma lower_exit_spellings (s : string) :
  PyStr.lower s = "exit" <->
  exists a b c d,
    s = String a (String b (String c (String d EmptyString)))
    /\ (a = "e" \/ a = "E")%char /\ (b = "x" \/ b = "X")%char
    /\ (c = "i" \/ c = "I")%char /\ (d = "t" \/ d = "T")%char.
Proof.
  split.
  - destruct s as [|a [|b [|c [|d [|? ?]]]]]; try discriminate.
    cbn [PyStr.lower]. intros [= Ha Hb Hc Hd].
    exists a, b, c, d. split; [reflexivity|].
    repeat split;
      (eapply lower_char_preimage; [|eassumption]); cbn; tauto.
  - intros (a & b & c & d & -> & Ha & Hb & Hc & Hd).
    destruct Ha as [-> | ->], Hb as [-> | ->], Hc as [-> | ->],
             Hd as [-> | ->]; reflexivity.
Qed.

Lemma replay_length (rows : list ChatMessage) :
  List.length (replay rows) = (2 * List.length rows)%nat.
Proof. induction rows as [|r rows IH]; simpl; [reflexivity|]. rewrite IH. lia. Qed.

Lemma replay_nth (rows : list ChatMessage) (i : nat) (row : ChatMessage) :
  nth_error rows i = Some row ->
  nth_error (replay rows) (2 * i) = Some (mkTurn role_user [cm_message row])
  /\ nth_error (replay rows) (2 * i + 1)
     = Some (mkTurn role_model [cm_response row]).
Proof.
  revert i. induction rows as [|r rows IH]; intros [|i] H; try discriminate.
  - injection H as ->. now split.
  - replace (2 * S i)%nat with (S (S (2 * i))) by lia.
    cbn [replay nth_error Nat.add]. now apply IH.
Qed.

(** Once the message reaches the model, the model is called exactly once.
    When that call raises, the caller gets the error JSON and the tables are
    what they were.  When it returns a reply, the caller gets that reply
    however the saving went, as long as the connection stays open; when the
    connection is lost, the answer is the reply or the error JSON of the
    [rollback] that raised.  The messages are what they were or extended by
    the one new row. *)
Theorem ask_shows_reply_unless_connection_lost
    (env : Env) (req : AskRequest) (db : Database) (c : Session)
    (uid : Z) (text : string) :
  s_user_id c = Some uid ->
  ask_is_json req = true ->
  ask_message req = Text text ->
  PyStr.strip text <> EmptyString ->
  PyStr.lower (PyStr.strip text) <> "exit" ->
  model_ready env = true ->
  let o := serve (ask env req) db c in
  exists history,
    out_ai_calls o = [(history, PyStr.strip text)]
    /\ match send_message env history (PyStr.strip text) with
       | inl e =>
           out_response o = jsonify (JsonError ("Error: " ++ e))
           /\ db_tables (out_database o) = db_tables db
       | inr reply =>
           let shown :=
             jsonify (JsonReply reply (Some (Clock.hh24_mi (wall_clock env)))) in
           (out_response o = shown
            \/ out_response o
               = jsonify (JsonError ("Error: " ++ connection_already_closed)))
           /\ (connection_kept env -> out_response o = shown)
           /\ (db_tables (out_database o) = db_tables db
               \/ exists id,
                   chat_messages (db_tables (out_database o))
                   = (chat_messages (db_tables db)
                      ++ [mkChatMessage id (s_session_id c) (Some uid)
                            (PyStr.strip text) reply (now env)])%list)
       end.
Proof.
  intros Hauth Hjson Hmsg Hne Hexit Hready.
  unfold serve.
  rewrite (ask_passes_guards env req uid text); trivial.
  unfold ask_try, Stmt.select_history, connection_kept. unfold_py.
  env_case; [env_case|]; cbn;
    match goal with
    | |- context [send_message env ?h ?m] =>
        exists h; destruct (send_message env h m) eqn:Hsend
    end; cbn; try (split; [reflexivity|split; [reflexivity|]]); auto.
  all: try (split; [reflexivity|]).
  all: repeat (env_case; cbn).
  all: try match goal with
       | |- context [Stmt.insert_message ?n ?a ?b ?m ?r ?t ?s] =>
           destruct (Stmt.insert_message n a b m r t s)
             as [[[[] t']|e'] s'] eqn:Hins; cbn;
           [apply insert_message_ok in Hins; subst t'|]
       end.
  all: repeat (env_case; cbn).
  all: repeat split; auto.
  all: try (intros Hk;
            repeat match goal with
                   | H : drops _ _ = true |- _ => rewrite Hk in H
                   end; try discriminate; reflexivity).
  all: try solve [right; eexists; reflexivity].
Qed.

Lemma ask_shows_reply_unless_connection_lost_witness :
  (let o := serve (ask Sample.env_model_error (Sample.say "hi"))
                  Sample.db Sample.alice in
   exists history,
     out_ai_calls o = [(history, "hi")]
     /\ out_response o = jsonify (JsonError "Error: 429 quota exceeded")
     /\ db_tables (out_database o) = db_tables Sample.db)
  /\ (let o := serve (ask Sample.env (Sample.say "hi"))
                     Sample.db Sample.alice_stale in
      exists history,
        out_ai_calls o = [(history, "hi")]
        /\ (out_response o = jsonify (JsonReply "echo hi" (Some "00:01"))
            \/ out_response o
               = jsonify (JsonError "Error: connection already closed"))
        /\ (connection_kept Sample.env ->
            out_response o = jsonify (JsonReply "echo hi" (Some "00:01")))
        /\ (db_tables (out_database o) = db_tables Sample.db
            \/ exists id,
                chat_messages (db_tables (out_database o))
                = (chat_messages (db_tables Sample.db)
                   ++ [mkChatMessage id (Some 9) (Some 1) "hi" "echo hi"
                         Sample.clock])%list)).
Proof.
  split.
  - apply (ask_shows_reply_unless_connection_lost Sample.env_model_error
             (Sample.say "hi") Sample.db Sample.alice 1 "hi");
      solve [reflexivity | intros H; vm_compute in H; discriminate H].
  - apply (ask_shows_reply_unless_connection_lost Sample.env (Sample.say "hi")
             Sample.db Sample.alice_stale 1 "hi");
      solve [reflexivity | intros H; vm_compute in H; discriminate H].
Defined.

(** C8: at a message that the model answers while the server goes away
    during the INSERT, [/ask] does not show the reply.  The first two parts
    are the cases where the code does what the claim says: the model raises
    and the caller gets the error JSON with no row added; the INSERT raises
    on a connection that stays open and the caller gets the reply with no
    row added.  In the third part the INSERT raises because the connection
    is lost: the model was called and replied, and the caller gets the error
    JSON of the [rollback] that raised in the handler of the INSERT. *)
Theorem ask_reply_lost_with_the_connection :
  (let o := serve (ask Sample.env_model_error (Sample.say "hi"))
                  Sample.db Sample.alice in
   out_response o = jsonify (JsonError "Error: 429 quota exceeded")
   /\ out_ai_calls o = [(replay [Sample.first_message; Sample.second_message],
                         "hi")]
   /\ out_database o = Sample.db)
  /\ (let o := serve (ask (Sample.env_fault_at 1) (Sample.say "hi"))
                     Sample.db Sample.alice in
      out_response o = jsonify (JsonReply "echo hi" (Some "00:01"))
      /\ db_tables (out_database o) = db_tables Sample.db)
  /\ (let o := serve (ask (Sample.env_lost_at 1) (Sample.say "hi"))
                     Sample.db Sample.alice in
      send_message (Sample.env_lost_at 1)
        (replay [Sample.first_message; Sample.second_message]) "hi"
      = inr "echo hi"
      /\ out_ai_calls o
         = [(replay [Sample.first_message; Sample.second_message], "hi")]
      /\ out_response o
         = jsonify (JsonError "Error: connection already closed")
      /\ db_tables (out_database o) = db_tables Sample.db).
Proof. vm_compute. repeat split; reflexivity. Qed.

(** A reply is also shown without being saved when the stale session id of
    the cookie breaks the foreign key. *)
Example ask_reply_not_saved :
  let o := serve (ask Sample.env (Sample.say "hi"))
                 Sample.db Sample.alice_stale in
  out_response o = jsonify (JsonReply "echo hi" (Some "00:01"))
  /\ db_tables (out_database o) = db_tables Sample.db.
Proof. vm_compute. split; reflexivity. Qed.

(** C7, as the code has it: when the connection is obtained and the history
    query succeeds, a message that reaches the model is sent with a history
    built from the rows of the active session in ascending order of their
    timestamps; row [i] gives the user turn at position [2i] and the model
    turn at position [2i+1], so the history is twice as long as the rows. *)
Theorem ask_history_alternates
    (env : Env) (req : AskRequest) (db : Database) (c : Session)
    (uid : Z) (text : string) :
  s_user_id c = Some uid ->
  ask_is_json req = true ->
  ask_message req = Text text ->
  PyStr.strip text <> EmptyString ->
  PyStr.lower (PyStr.strip text) <> "exit" ->
  model_ready env = true ->
  db_up env = true ->
  fault env 0 = None ->
  let o := serve (ask env req) db c in
  exists rows history,
    Permutation (messages_in (db_tables db) (s_session_id c)) rows
    /\ Sorted (fun a b => cm_timestamp a <= cm_timestamp b) rows
    /\ out_ai_calls o = [(history, PyStr.strip text)]
    /\ List.length history = (2 * List.length rows)%nat
    /\ forall i row,
         nth_error rows i = Some row ->
         nth_error history (2 * i)
         = Some (mkTurn role_user [cm_message row])
         /\ nth_error history (2 * i + 1)
            = Some (mkTurn role_model [cm_response row]).
Proof.
  intros Hauth Hjson Hmsg Hne Hexit Hready Hup Hf0.
  exists (history_rows (tie_messages env) (db_tables db) (s_session_id c)).
  exists (replay (history_rows (tie_messages env) (db_tables db)
                    (s_session_id c))).
  destruct (history_rows_ordered (tie_messages env) (db_tables db)
              (s_session_id c))
    as [Hperm Hsorted].
  split; [exact Hperm|]. split; [exact Hsorted|].
  split; [|split; [apply replay_length|apply replay_nth]].
  unfold serve.
  rewrite (ask_passes_guards env req uid text); trivial.
  unfold ask_try. unfold_py. cbn. rewrite Hup. cbn. rewrite Hf0.
  rewrite select_history_rows. cbn.
  destruct (send_message env _ _); cbn; [reflexivity|].
  env_case; cbn; [env_case; reflexivity|].
  destruct (Stmt.insert_message _ _ _ _ _ _ _) as [[[[] t']|e] s'];
    cbn; [env_case; cbn; [env_case|]|]; reflexivity.
Qed.

Lemma ask_history_alternates_witness :
  let o := serve (ask Sample.env (Sample.say "hi")) Sample.db Sample.alice in
  exists rows history,
    Permutation (messages_in (db_tables Sample.db) (Some 1)) rows
    /\ Sorted (fun a b => cm_timestamp a <= cm_timestamp b) rows
    /\ out_ai_calls o = [(history, "hi")]
    /\ List.length history = (2 * List.length rows)%nat
    /\ forall i row,
         nth_error rows i = Some row ->
         nth_error history (2 * i)
         = Some (mkTurn role_user [cm_message row])
         /\ nth_error history (2 * i + 1)
            = Some (mkTurn role_model [cm_response row]).
Proof.
  apply (ask_history_alternates Sample.env (Sample.say "hi")
           Sample.db Sample.alice 1 "hi");
    solve [reflexivity | intros H; vm_compute in H; discriminate H].
Defined.

(** C7 as stated fails: without a connection the model is called with an
    empty history although the active session holds two rows. *)
Lemma ask_history_empty_when_no_connection :
  let o := serve (ask Sample.env_db_down (Sample.say "hi"))
                 Sample.db Sample.alice in
  out_ai_calls o = [([], "hi")]
  /\ messages_in (db_tables Sample.db) (s_session_id Sample.alice)
     = [Sample.first_message; Sample.second_message].
Proof. vm_compute. split; reflexivity. Qed.

Lemma owns_session_exists (t : Tables) (uid sid : Z) :
  owns t uid sid = true -> Stmt.session_exists t sid = true.
Proof.
  unfold owns, Stmt.session_exists.
  induction (chat_sessions t) as [|s l IH]; simpl; [discriminate|].
  destruct (cs_id s =? sid); simpl; [reflexivity|exact IH].
Qed.

Lemma messages_in_app (t : Tables) (sid : Z) (row : ChatMessage) :
  cm_session_id row = Some sid ->
  messages_in (mkTables (users t) (chat_sessions t)
                 (chat_messages t ++ [row])) (Some sid)
  = (messages_in t (Some sid) ++ [row])%list.
Proof.
  intros H. unfold messages_in. cbn [chat_messages].
  rewrite filter_app. cbn. rewrite H. cbn. now rewrite Z.eqb_refl.
Qed.

(** C1, as the code has it: take a logged-in user whose active session is
    one of their stored sessions, a message other than [exit], a database
    that accepts the connection and runs every statement, and consistent
    tables.  When [/ask] then answers with a response rather than an error,
    the response is the model's reply and the tables differ from the old
    ones by exactly one row of [chat_messages]: it belongs to the active
    session and the user and holds the trimmed message and that reply. *)
Theorem ask_reply_saves_one_row
    (env : Env) (req : AskRequest) (db : Database) (c : Session)
    (uid sid : Z) (text : string) :
  s_user_id c = Some uid ->
  s_session_id c = Some sid ->
  ask_message req = Text text ->
  PyStr.lower (PyStr.strip text) <> "exit" ->
  db_up env = true ->
  no_fault env ->
  consistent db = true ->
  owns (db_tables db) uid sid = true ->
  Stmt.user_exists (db_tables db) uid = true ->
  let o := serve (ask env req) db c in
  is_reply (out_response o) = true ->
  exists reply id,
    let row := mkChatMessage id (Some sid) (Some uid)
                 (PyStr.strip text) reply (now env) in
    out_response o
    = jsonify (JsonReply reply (Some (Clock.hh24_mi (wall_clock env))))
    /\ db_tables (out_database o)
       = mkTables (users (db_tables db)) (chat_sessions (db_tables db))
                  (chat_messages (db_tables db) ++ [row])
    /\ messages_in (db_tables (out_database o)) (Some sid)
       = (messages_in (db_tables db) (Some sid) ++ [row])%list.
Proof.
  intros Hauth Hsid Hmsg Hexit Hup Hnf Hcons Howns Huser.
  destruct (ask_is_json req) eqn:Hjson.
  2: { unfold serve, ask, login_required, bind, get_session, ret;
       cbn [cookie enter]. rewrite Hauth, Hjson. cbn. discriminate. }
  destruct (string_dec (PyStr.strip text) EmptyString) as [Hblank|Hne].
  { unfold serve, ask, login_required, bind, get_session, ret;
    cbn [cookie enter]. rewrite Hauth, Hjson, Hmsg. cbn.
    rewrite Hblank. cbn. discriminate. }
  destruct (model_ready env) eqn:Hready.
  2: { unfold serve, ask, login_required, bind, get_session, ret;
       cbn [cookie enter]. rewrite Hauth, Hjson, Hmsg. cbn.
       rewrite (falsy_false _ Hne).
       apply String.eqb_neq in Hexit. rewrite Hexit, Hready. cbn.
       discriminate. }
  unfold serve.
  rewrite (ask_passes_guards env req uid text); trivial.
  unfold ask_try. unfold_py. cbn. rewrite Hup. cbn.
  rewrite (Hnf 0%nat), select_history_rows. cbn.
  destruct (send_message env _ _) as [e|reply]; cbn; [discriminate|].
  rewrite (Hnf 1%nat), Hsid.
  destruct (insert_message_accepts (now env) sid uid (PyStr.strip text) reply
              db Hcons (owns_session_exists _ _ _ Howns) Huser)
    as (t' & s' & Hins).
  rewrite Hins. cbn. rewrite (Hnf 2%nat). cbn.
  intros _. apply insert_message_ok in Hins. subst t'.
  exists reply, (chat_messages_id_seq (db_sequences db)).
  split; [reflexivity|]. split; [reflexivity|].
  now apply messages_in_app.
Qed.

Lemma ask_reply_saves_one_row_witness :
  let o := serve (ask Sample.env (Sample.say " hi ")) Sample.db Sample.alice in
  exists reply id,
    let row := mkChatMessage id (Some 1) (Some 1) "hi" reply Sample.clock in
    out_response o = jsonify (JsonReply reply (Some "00:01"))
    /\ db_tables (out_database o)
       = mkTables (users (db_tables Sample.db))
                  (chat_sessions (db_tables Sample.db))
                  (chat_messages (db_tables Sample.db) ++ [row])
    /\ messages_in (db_tables (out_database o)) (Some 1)
       = [Sample.first_message; Sample.second_message; row].
Proof.
  apply (ask_reply_saves_one_row Sample.env (Sample.say " hi ")
           Sample.db Sample.alice 1 1 " hi ");
    solve [reflexivity
          | intros H; vm_compute in H; discriminate H
          | intros n; reflexivity].
Defined.

(** C1 as stated fails: [/ask] answers with a response and adds no row when
    the message is [exit], when no connection is obtained and when the
    INSERT raises. *)
Lemma ask_reply_without_row :
  (let o := serve (ask Sample.env (Sample.say "exit"))
                  Sample.db Sample.alice in
   out_response o = jsonify (JsonReply "Chat session ended." None)
   /\ out_database o = Sample.db)
  /\ (let o := serve (ask Sample.env_db_down (Sample.say "hi"))
                     Sample.db Sample.alice in
      out_response o = jsonify (JsonReply "echo hi" (Some "00:01"))
      /\ out_database o = Sample.db)
  /\ (let o := serve (ask (Sample.env_fault_at 1) (Sample.say "hi"))
                     Sample.db Sample.alice in
      out_response o = jsonify (JsonReply "echo hi" (Some "00:01"))
      /\ out_database o = Sample.db).
Proof. vm_compute. repeat split; reflexivity. Qed.

(** ** The endpoint [/switch_session] *)

Lemma filter_none {A} (f : A -> bool) (l : list A) :
  existsb f l = false -> filter f l = [].
Proof.
  induction l as [|x l IH]; simpl; trivial.
  destruct (f x); simpl; [discriminate|exact IH].
Qed.

Lemma filter_some {A} (f : A -> bool) (l : list A) :
  existsb f l = true -> exists x rest, filter f l = x :: rest.
Proof.
  induction l as [|x l IH]; simpl; [discriminate|].
  destruct (f x); simpl; eauto.
Qed.

Lemma select_owned_session_spec (t : Tables) (s : Sequences) (sid uid : Z) :
  exists found,
    Stmt.select_owned_session sid uid t s = (Ok (found, t), s)
    /\ (owns t uid sid = false -> found = None)
    /\ (owns t uid sid = true -> found <> None).
Proof.
  unfold Stmt.select_owned_session, Stmt.query, owns.
  eexists. split; [reflexivity|]. split; intros H.
  - now rewrite (filter_none _ _ H).
  - destruct (filter_some _ _ H) as (x & rest & ->). discriminate.
Qed.

Lemma select_messages_listed (tie : Z -> Z -> bool) (t : Tables)
    (s : Sequences) (sid : Z) :
  Stmt.select_messages tie sid t s = (Ok (listed_messages tie t sid, t), s).
Proof. reflexivity. Qed.

Lemma listed_messages_ordered (tie : Z -> Z -> bool) (t : Tables) (sid : Z) :
  Permutation (map Stmt.view (messages_in t (Some sid)))
              (listed_messages tie t sid)
  /\ Sorted (fun a b => String.leb (mv_timestamp a) (mv_timestamp b) = true)
            (listed_messages tie t sid).
Proof.
  unfold listed_messages. split.
  - apply Permutation_map, order_by_perm.
  - pose proof (order_by_sorted
                  (Sql.asc_text (fun m => mv_timestamp (Stmt.view m)))
                  (Sql.by_key cm_id tie)
                  (fun a b => String.leb_total _ _)
                  (messages_in t (Some sid))) as H.
    induction H as [|a l Hs IH Hhd]; cbn [map]; constructor; trivial.
    destruct Hhd; cbn [map]; constructor. assumption.
Qed.

(** C3, as the code has it: for a logged-in user, a request to switch to a
    session that is not theirs is answered with an error, and cookie and
    database are what they were.  A JSON request to switch to one of their
    sessions (ids are not zero), on a database that accepts the connection
    and runs both queries, is answered with status success and the views of
    exactly the messages of that session, and the session becomes the active
    one. *)
Theorem switch_session_checks_owner
    (env : Env) (req : SwitchRequest) (db : Database) (c : Session)
    (uid sid : Z) :
  s_user_id c = Some uid ->
  switch_session_id req = Some sid ->
  let o := serve (switch_session env req) db c in
  (owns (db_tables db) uid sid = false ->
   is_error (out_response o) = true
   /\ out_session o = c
   /\ out_database o = db)
  /\ (owns (db_tables db) uid sid = true ->
      switch_is_json req = true ->
      sid <> 0 ->
      db_up env = true ->
      no_fault env ->
      exists messages,
        out_response o = jsonify (JsonMessages messages)
        /\ Permutation
             (map Stmt.view (messages_in (db_tables db) (Some sid))) messages
        /\ out_session o = mkSession (Some uid) (s_username c) (Some sid)
        /\ out_database o = db).
Proof.
  intros Hauth Hreq.
  destruct (select_owned_session_spec (db_tables db) (db_sequences db) sid uid)
    as (found & Hsel & Hnone & Hsome).
  unfold serve, switch_session, login_required, get_db_connection, bind,
    get_session.
  cbn [cookie enter]. rewrite Hauth, Hreq. split.
  - intros Howns. rewrite (Hnone Howns) in Hsel.
    destruct (switch_is_json req); cbn;
      [|rewrite database_eta; now repeat split].
    destruct (sid =? 0); cbn; [rewrite database_eta; now repeat split|].
    unfold_py. env_case; cbn; [|rewrite database_eta; now repeat split].
    env_case; cbn; [rewrite database_eta; now repeat split|].
    rewrite Hsel. cbn. rewrite database_eta. now repeat split.
  - intros Howns Hjson Hsid Hup Hnf. rewrite Hjson.
    apply Z.eqb_neq in Hsid. rewrite Hsid, Hup. cbn [negb].
    destruct found as [id|]; [|now destruct (Hsome Howns)].
    exists (listed_messages (tie_messages env) (db_tables db) sid).
    unfold_py. cbn. rewrite (Hnf 0%nat). rewrite Hsel. cbn.
    rewrite (Hnf 1%nat), select_messages_listed. cbn. rewrite database_eta.
    split; [reflexivity|]. split; [|now rewrite Hauth].
    apply listed_messages_ordered.
Qed.

Lemma switch_session_checks_owner_witness :
  (let o := serve (switch_session Sample.env (mkSwitchRequest true (Some 3)))
                  Sample.db Sample.alice in
   is_error (out_response o) = true
   /\ out_session o = Sample.alice
   /\ out_database o = Sample.db)
  /\ (let o := serve (switch_session Sample.env (mkSwitchRequest true (Some 2)))
                     Sample.db Sample.alice in
      exists messages,
        out_response o = jsonify (JsonMessages messages)
        /\ Permutation
             (map Stmt.view (messages_in (db_tables Sample.db) (Some 2)))
             messages
        /\ out_session o = mkSession (Some 1) (Some "alice") (Some 2)
        /\ out_database o = Sample.db).
Proof.
  split.
  - apply (switch_session_checks_owner Sample.env
             (mkSwitchRequest true (Some 3)) Sample.db Sample.alice 1 3);
      reflexivity.
  - apply (switch_session_checks_owner Sample.env
             (mkSwitchRequest true (Some 2)) Sample.db Sample.alice 1 2);
      solve [reflexivity | discriminate | intros n; reflexivity].
Defined.

(** C3 as stated fails: without a connection, switching to one's own
    session is answered with an error and the active session stays. *)
Lemma switch_session_own_session_refused :
  let o := serve (switch_session Sample.env_db_down
                    (mkSwitchRequest true (Some 2)))
                 Sample.db Sample.alice in
  owns (db_tables Sample.db) 1 2 = true
  /\ out_response o = mkResponse (JsonError "Database error") 500
  /\ out_session o = Sample.alice.
Proof. vm_compute. repeat split; reflexivity. Qed.

(** C4, at a session that spans midnight: in [/switch_session] and on the
    page [/] the message stored second comes first, because the query sorts
    on the output column [timestamp], the text [HH24:MI]; the history that
    [/ask] loads from the same rows is in the order of the stored
    timestamps. *)
Theorem messages_listed_by_clock_text :
  cm_timestamp Sample.first_message < cm_timestamp Sample.second_message
  /\ out_response
       (serve (switch_session Sample.env (mkSwitchRequest true (Some 1)))
              Sample.db Sample.alice)
     = jsonify (JsonMessages [Stmt.view Sample.second_message;
                              Stmt.view Sample.first_message])
  /\ (exists sessions,
        body (out_response (serve (home Sample.env) Sample.db Sample.alice))
        = IndexPage sessions
            [Stmt.view Sample.second_message; Stmt.view Sample.first_message]
            (Some "alice") (Some 1))
  /\ out_ai_calls
       (serve (ask Sample.env (Sample.say "hi")) Sample.db Sample.alice)
     = [(replay [Sample.first_message; Sample.second_message], "hi")].
Proof.
  split; [reflexivity|]. split; [reflexivity|]. split; [|reflexivity].
  eexists. vm_compute. reflexivity.
Qed.

(** ** The endpoint [/clear_history] *)

Lemma insert_session_ok (now uid id : Z) (t t' : Tables) (s s' : Sequences) :
  Stmt.insert_session now uid t s = (Ok (id, t'), s') ->
  id = chat_sessions_id_seq s
  /\ t' = mkTables (users t)
            (chat_sessions t ++ [mkChatSession id (Some uid) now])
            (chat_messages t).
Proof.
  unfold Stmt.insert_session.
  destruct (Stmt.session_exists _ _); [discriminate|].
  destruct (negb _); [discriminate|].
  now intros [= <- <- <-].
Qed.

Lemma insert_session_accepts (now uid : Z) (t : Tables) (s : Sequences) :
  forallb (fun c => cs_id c <? chat_sessions_id_seq s) (chat_sessions t) = true ->
  Stmt.user_exists t uid = true ->
  exists t' s',
    Stmt.insert_session now uid t s = (Ok (chat_sessions_id_seq s, t'), s').
Proof.
  intros Hfresh Huser. unfold Stmt.insert_session, Stmt.session_exists.
  rewrite (existsb_below cs_id _ _ Hfresh), Huser. cbn. eauto.
Qed.

Lemma forallb_filter {A} (p f : A -> bool) (l : list A) :
  forallb p l = true -> forallb p (filter f l) = true.
Proof.
  induction l as [|x l IH]; simpl; trivial.
  intros [Hx Hl]%andb_prop.
  destruct (f x); simpl; [rewrite Hx|]; auto.
Qed.

Lemma filter_complement {A} (f : A -> bool) (l : list A) :
  filter f (filter (fun x => negb (f x)) l) = [].
Proof.
  induction l as [|x l IH]; simpl; trivial.
  destruct (f x) eqn:E; simpl; [exact IH|]. now rewrite E.
Qed.

Lemma filter_nothing {A} (f : A -> bool) (l : list A) :
  forallb (fun x => negb (f x)) l = true -> filter f l = [].
Proof.
  induction l as [|x l IH]; simpl; trivial.
  intros [Hx Hl]%andb_prop.
  apply negb_true_iff in Hx. rewrite Hx. auto.
Qed.

(** No stored message names a session id that the sequence has not handed
    out yet. *)
Lemma no_message_in_next_session (db : Database) :
  consistent db = true ->
  forallb (fun m => negb (Sql.eq_int (cm_session_id m)
                            (Some (chat_sessions_id_seq (db_sequences db)))))
          (chat_messages (db_tables db)) = true.
Proof.
  unfold consistent. intros H.
  apply andb_prop in H as [H Hfk].
  apply andb_prop in H as [H _]. apply andb_prop in H as [_ Hs].
  apply forallb_forall. intros m Hm.
  rewrite forallb_forall in Hfk. specialize (Hfk m Hm).
  destruct (cm_session_id m) as [x|]; [|reflexivity].
  cbn in *. unfold Stmt.session_exists in Hfk.
  apply existsb_exists in Hfk as (c & Hc & Hid).
  rewrite forallb_forall in Hs. specialize (Hs c Hc).
  apply negb_true_iff, Z.eqb_neq.
  apply Z.eqb_eq in Hid. apply Z.ltb_lt in Hs. lia.
Qed.

(** For a logged-in user [/clear_history] answers with status success and
    "Chat history cleared" whatever fails, as long as the connection stays
    open; when it is lost, the answer is that or the 500 page of the
    [rollback] that raised.  When no connection is obtained, or the first
    DELETE raises, database and cookie are what they were. *)
Theorem clear_history_reports_success_unless_connection_lost
    (env : Env) (db : Database) (c : Session) (uid : Z) :
  s_user_id c = Some uid ->
  let o := serve (clear_history env) db c in
  let success := jsonify (JsonCleared "Chat history cleared") in
  (out_response o = success \/ out_response o = mkResponse ServerError 500)
  /\ (connection_kept env -> out_response o = success)
  /\ (db_up env = false ->
      out_response o = success /\ out_database o = db /\ out_session o = c)
  /\ (fault env 0 <> None -> out_database o = db /\ out_session o = c).
Proof.
  intros Hauth.
  unfold serve, clear_history, login_required, get_db_connection, bind,
    get_session, connection_kept.
  cbn [cookie enter]. rewrite Hauth.
  unfold Stmt.delete_messages_of, Stmt.delete_sessions_of. unfold_py.
  env_case; cbn;
    [|rewrite database_eta; repeat split; auto; discriminate].
  repeat (env_case; cbn).
  all: try match goal with
       | |- context [Stmt.insert_session ?n ?u ?t ?s] =>
           destruct (Stmt.insert_session n u t s) as [[[id t']|e] s']; cbn
       end.
  all: repeat (env_case; cbn).
  all: try rewrite database_eta.
  all: split; [auto|split; [|split; [discriminate|]]].
  all: try (intros Hk;
            repeat match goal with
                   | H : drops _ _ = true |- _ => rewrite Hk in H
                   end; try discriminate; reflexivity).
  all: try (intros _; split; reflexivity).
  all: intros Hk; now destruct Hk.
Qed.

Lemma clear_history_reports_success_unless_connection_lost_witness :
  let o := serve (clear_history (Sample.env_fault_at 0))
                 Sample.db Sample.alice in
  let success := jsonify (JsonCleared "Chat history cleared") in
  (out_response o = success \/ out_response o = mkResponse ServerError 500)
  /\ (connection_kept (Sample.env_fault_at 0) -> out_response o = success)
  /\ (db_up (Sample.env_fault_at 0) = false ->
      out_response o = success
      /\ out_database o = Sample.db /\ out_session o = Sample.alice)
  /\ (fault (Sample.env_fault_at 0) 0 <> None ->
      out_database o = Sample.db /\ out_session o = Sample.alice).
Proof.
  apply (clear_history_reports_success_unless_connection_lost
           (Sample.env_fault_at 0) Sample.db Sample.alice 1).
  reflexivity.
Defined.

(** C10: at a request during whose first DELETE the server goes away,
    [/clear_history] does not answer with status success.  The first two
    parts are the cases the claim names, where the code does what it says:
    no connection is obtained, or the first DELETE raises on a connection
    that stays open and is rolled back; the answer is status success and
    nothing was cleared.  In the third part the DELETE raises because the
    connection is lost: the [rollback] in the handler raises, nothing
    catches it, and the caller gets the 500 page. *)
Theorem clear_history_fails_with_the_connection :
  (let o := serve (clear_history Sample.env_db_down) Sample.db Sample.alice in
   out_response o = jsonify (JsonCleared "Chat history cleared")
   /\ out_database o = Sample.db)
  /\ (let o := serve (clear_history (Sample.env_fault_at 0))
                     Sample.db Sample.alice in
      out_response o = jsonify (JsonCleared "Chat history cleared")
      /\ out_database o = Sample.db)
  /\ (let o := serve (clear_history (Sample.env_lost_at 0))
                     Sample.db Sample.alice in
      out_response o = mkResponse ServerError 500
      /\ out_database o = Sample.db
      /\ out_session o = Sample.alice).
Proof. vm_compute. repeat split; reflexivity. Qed.

(** C5, as the code has it: when the connection is obtained and every
    statement runs, on consistent tables that hold the logged-in user,
    [/clear_history] leaves the user with exactly one session, created by
    this request and now the active one, with no message in it; no message
    of the user remains. *)
Theorem clear_history_leaves_one_empty_session
    (env : Env) (db : Database) (c : Session) (uid : Z) :
  s_user_id c = Some uid ->
  db_up env = true ->
  no_fault env ->
  consistent db = true ->
  Stmt.user_exists (db_tables db) uid = true ->
  let o := serve (clear_history env) db c in
  let t := db_tables (out_database o) in
  exists id,
    out_response o = jsonify (JsonCleared "Chat history cleared")
    /\ out_session o = mkSession (Some uid) (s_username c) (Some id)
    /\ sessions_of t uid = [mkChatSession id (Some uid) (now env)]
    /\ messages_in t (Some id) = []
    /\ messages_by t uid = [].
Proof.
  intros Hauth Hup Hnf Hcons Huser.
  pose proof (no_message_in_next_session db Hcons) as Hnone.
  assert (Hfresh : forallb (fun s => cs_id s <? chat_sessions_id_seq (db_sequences db))
                     (chat_sessions (db_tables db)) = true).
  { unfold consistent in Hcons.
    apply andb_prop in Hcons as [Hcons _].
    apply andb_prop in Hcons as [Hcons _].
    now apply andb_prop in Hcons as [_ Hcons]. }
  exists (chat_sessions_id_seq (db_sequences db)).
  unfold serve, clear_history, login_required, get_db_connection, bind,
    get_session.
  cbn [cookie enter]. rewrite Hauth, Hup.
  unfold Stmt.delete_messages_of, Stmt.delete_sessions_of. unfold_py.
  cbn. rewrite (Hnf 0%nat). cbn. rewrite (Hnf 1%nat). cbn.
  rewrite (Hnf 2%nat). cbn. rewrite (Hnf 3%nat).
  match goal with
  | |- context [Stmt.insert_session ?n ?u ?t ?s] =>
      destruct (insert_session_accepts n u t s) as (t' & s' & Hins);
        [cbn; now apply forallb_filter | exact Huser |];
        rewrite Hins; apply insert_session_ok in Hins as [_ ->]
  end.
  cbn. rewrite (Hnf 4%nat). cbn.
  split; [reflexivity|]. split; [now rewrite Hauth|].
  unfold sessions_of, messages_in, messages_by. cbn.
  split; [|split].
  - rewrite filter_app, filter_complement. cbn. now rewrite Z.eqb_refl.
  - apply filter_nothing. now do 2 apply forallb_filter.
  - apply filter_nothing. apply forallb_filter.
    apply forallb_forall. intros m Hm.
    now apply filter_In in Hm as [_ Hm].
Qed.

Lemma clear_history_leaves_one_empty_session_witness :
  let o := serve (clear_history Sample.env) Sample.db Sample.alice in
  let t := db_tables (out_database o) in
  exists id,
    out_response o = jsonify (JsonCleared "Chat history cleared")
    /\ out_session o = mkSession (Some 1) (Some "alice") (Some id)
    /\ sessions_of t 1 = [mkChatSession id (Some 1) Sample.clock]
    /\ messages_in t (Some id) = []
    /\ messages_by t 1 = [].
Proof.
  apply (clear_history_leaves_one_empty_session Sample.env
           Sample.db Sample.alice 1);
    solve [reflexivity | intros n; reflexivity].
Defined.

(** C5 as stated fails: without a connection the user keeps both sessions
    and the two messages of the first. *)
Lemma clear_history_clears_nothing_without_connection :
  let o := serve (clear_history Sample.env_db_down) Sample.db Sample.alice in
  let t := db_tables (out_database o) in
  out_response o = jsonify (JsonCleared "Chat history cleared")
  /\ sessions_of t 1 = [mkChatSession 1 (Some 1) 10; mkChatSession 2 (Some 1) 20]
  /\ messages_in t (Some 1) = [Sample.first_message; Sample.second_message].
Proof. vm_compute. repeat split; reflexivity. Qed.

(** ** The endpoint [/register] *)

Lemma select_user_by_username_spec (t : Tables) (s : Sequences)
    (name : string) :
  exists found,
    Stmt.select_user_by_username name t s = (Ok (found, t), s)
    /\ (username_taken t name = true -> found <> None).
Proof.
  unfold Stmt.select_user_by_username, Stmt.query, username_taken.
  eexists. split; [reflexivity|]. intros H.
  destruct (filter_some _ _ H) as (x & rest & ->). discriminate.
Qed.

Lemma select_user_by_email_spec (t : Tables) (s : Sequences)
    (email : string) :
  exists found,
    Stmt.select_user_by_email email t s = (Ok (found, t), s)
    /\ (email_taken t email = true -> found <> None).
Proof.
  unfold Stmt.select_user_by_email, Stmt.query, email_taken.
  eexists. split; [reflexivity|]. intros H.
  destruct (filter_some _ _ H) as (x & rest & ->). discriminate.
Qed.

Lemma insert_user_ok (now id : Z) (name hash : string) (email : option string)
    (t t' : Tables) (s s' : Sequences) :
  Stmt.insert_user now name hash email t s = (Ok (id, t'), s') ->
  t' = mkTables (users t ++ [mkUser id name hash email now])
         (chat_sessions t) (chat_messages t).
Proof.
  unfold Stmt.insert_user.
  destruct (negb _); [discriminate|].
  destruct (_ || _); [discriminate|].
  now intros [= <- <- <-].
Qed.

Ltac refusal :=
  cbn; try rewrite database_eta;
  split;
    [repeat split; auto
    |intros Hk;
     repeat match goal with
            | H : drops _ _ = true |- _ => rewrite Hk in H; discriminate H
            end;
     repeat split].

Lemma register_refuses (env : Env) (req : RegisterRequest) (db : Database)
    (c : Session) :
  username_taken (db_tables db) (PyStr.strip (form_username req)) = true
  \/ (PyStr.strip (form_email req) <> EmptyString
      /\ email_taken (db_tables db) (PyStr.strip (form_email req)) = true)
  \/ PyStr.len (form_password req) < min_password_length ->
  let o := serve (register env req) db c in
  not_registered db c o /\ (connection_kept env -> refused db c o).
Proof.
  intros H. unfold not_registered, refused, connection_kept, serve, register.
  destruct (is_post req); [|refusal].
  destruct (_ || _); [refusal|].
  destruct (_ <? _) eqn:Hlen; [refusal|].
  destruct H as [H|[[Hne H]|H]]; [| |apply Z.ltb_ge in Hlen; lia].
  - destruct (select_user_by_username_spec (db_tables db) (db_sequences db)
                (PyStr.strip (form_username req))) as (found & Hsel & Hfound).
    unfold_py. env_case; cbn; [|refusal].
    env_case; cbn; [env_case; refusal|].
    rewrite Hsel. destruct found; [|now destruct (Hfound H)].
    refusal.
  - destruct (select_user_by_email_spec (db_tables db) (db_sequences db)
                (PyStr.strip (form_email req))) as (found & Hsel & Hfound).
    unfold_py. env_case; cbn; [|refusal].
    env_case; cbn; [env_case; refusal|].
    unfold Stmt.select_user_by_username, Stmt.query.
    destruct (filter _ _); cbn; [|refusal].
    rewrite (falsy_false _ Hne). cbn.
    env_case; cbn; [env_case; refusal|].
    rewrite Hsel. destruct found; [|now destruct (Hfound H)].
    refusal.
Qed.

Ltac register_step :=
  cbn;
  match goal with
  | |- context [db_up ?env] => destruct (db_up env) eqn:?
  | |- context [fault ?env ?n] => destruct (fault env n) eqn:?
  | |- context [drops ?env ?n] => destruct (drops env n) eqn:?
  | |- context [PyStr.falsy ?s] => destruct (PyStr.falsy s) eqn:?
  | |- context [match filter ?f ?l with _ => _ end] => destruct (filter f l)
  | |- context [Stmt.insert_user ?n ?a ?b ?e ?t ?s] =>
      let H := fresh "Huser" in
      destruct (Stmt.insert_user n a b e t s) as [[[? ?]|?] ?] eqn:H;
      [apply insert_user_ok in H; subst|]
  | |- context [Stmt.insert_session ?n ?u ?t ?s] =>
      let H := fresh "Hsession" in
      destruct (Stmt.insert_session n u t s) as [[[? ?]|?] ?] eqn:H;
      [apply insert_session_ok in H as [? ?]; subst|]
  end.

(** A registration that ends with the redirect to the home page has stored
    the requested username. *)
Lemma register_stores_username (env : Env) (req : RegisterRequest)
    (db : Database) (c : Session) :
  let o := serve (register env req) db c in
  out_response o = redirect "home" ->
  username_taken (db_tables (out_database o))
                 (PyStr.strip (form_username req)) = true.
Proof.
  unfold serve, register.
  destruct (is_post req); [|cbn; discriminate].
  destruct (_ || _); [cbn; discriminate|].
  destruct (_ <? _); [cbn; discriminate|].
  unfold Stmt.select_user_by_username, Stmt.select_user_by_email. unfold_py.
  repeat (register_step; cbn; try discriminate).
  all: intros _; rewrite existsb_app; cbn;
    now rewrite String.eqb_refl, orb_true_r.
Qed.

(** C6: a registration is refused (nothing is stored and the caller's
    cookie is what it was) whenever the requested username is taken, the
    non-empty email is taken, or the password has fewer than six characters,
    whatever the database does; the form comes back, or the 500 page when
    the connection was lost, and always the form when the connection stays
    open.  In particular, after a registration that succeeded, every
    registration of the same username is refused in this way. *)
Theorem register_refuses_taken_or_short
    (env : Env) (req : RegisterRequest) (db : Database) (c : Session) :
  let o := serve (register env req) db c in
  (username_taken (db_tables db) (PyStr.strip (form_username req)) = true
   \/ (PyStr.strip (form_email req) <> EmptyString
       /\ email_taken (db_tables db) (PyStr.strip (form_email req)) = true)
   \/ PyStr.len (form_password req) < min_password_length ->
   not_registered db c o /\ (connection_kept env -> refused db c o))
  /\ (out_response o = redirect "home" ->
      forall (env' : Env) (req' : RegisterRequest) (c' : Session),
        PyStr.strip (form_username req') = PyStr.strip (form_username req) ->
        let o' := serve (register env' req') (out_database o) c' in
        not_registered (out_database o) c' o'
        /\ (connection_kept env' -> refused (out_database o) c' o')).
Proof.
  split.
  - apply register_refuses.
  - intros Hok env' req' c' Hname.
    apply register_refuses. left. rewrite Hname.
    now apply register_stores_username.
Qed.

Lemma register_refuses_taken_or_short_witness :
  (let o := serve (register Sample.env (Sample.sign_up " bob " "secret1" ""))
                  Sample.db anonymous in
   not_registered Sample.db anonymous o
   /\ (connection_kept Sample.env -> refused Sample.db anonymous o))
  /\ (let o := serve (register Sample.env
                        (Sample.sign_up "carol" "secret1" "carol@example.org"))
                     Sample.db anonymous in
      out_response o = redirect "home"
      /\ let o' := serve (register Sample.env
                            (Sample.sign_up " carol" "another-secret" ""))
                         (out_database o) anonymous in
         not_registered (out_database o) anonymous o'
         /\ (connection_kept Sample.env ->
             refused (out_database o) anonymous o')).
Proof.
  split.
  - apply (proj1 (register_refuses_taken_or_short Sample.env
                    (Sample.sign_up " bob " "secret1" "")
                    Sample.db anonymous)).
    left. reflexivity.
  - split; [reflexivity|].
    apply (proj2 (register_refuses_taken_or_short Sample.env
                    (Sample.sign_up "carol" "secret1" "carol@example.org")
                    Sample.db anonymous));
      reflexivity.
Defined.

(** ** Consistency is an invariant of every handler *)

Lemma consistent_spec (t : Tables) (s : Sequences) :
  consistent (mkDatabase t s) = true <->
  (forall u, In u (users t) -> u_id u < users_id_seq s)
  /\ (forall c, In c (chat_sessions t) -> cs_id c < chat_sessions_id_seq s)
  /\ (forall m, In m (chat_messages t) -> cm_id m < chat_messages_id_seq s)
  /\ (forall m, In m (chat_messages t) ->
        Stmt.references (Stmt.session_exists t) (cm_session_id m) = true).
Proof.
  unfold consistent. cbn [db_tables db_sequences].
  rewrite !andb_true_iff, !forallb_forall.
  setoid_rewrite Z.ltb_lt. tauto.
Qed.

Lemma consistent_later (t : Tables) (s s' : Sequences) :
  seq_le s s' ->
  consistent (mkDatabase t s) = true -> consistent (mkDatabase t s') = true.
Proof.
  intros (Hu & Hc & Hm). rewrite !consistent_spec.
  intros (H1 & H2 & H3 & H4). repeat split; trivial; intros x Hx.
  - specialize (H1 x Hx). lia.
  - specialize (H2 x Hx). lia.
  - specialize (H3 x Hx). lia.
Qed.

Lemma seq_le_refl (s : Sequences) : seq_le s s.
Proof. unfold seq_le. lia. Qed.

Lemma seq_le_trans (a b c : Sequences) : seq_le a b -> seq_le b c -> seq_le a c.
Proof. unfold seq_le. lia. Qed.

Lemma query_lawful {A} (f : Tables -> A) : lawful (Stmt.query f).
Proof.
  intros t s r s' [= <- <-]. split; [apply seq_le_refl|trivial].
Qed.

Lemma references_more (t t' : Tables) (v : option Z) :
  (forall x, Stmt.session_exists t x = true -> Stmt.session_exists t' x = true) ->
  Stmt.references (Stmt.session_exists t) v = true ->
  Stmt.references (Stmt.session_exists t') v = true.
Proof. destruct v; cbn; auto. Qed.

Lemma insert_message_lawful (now : Z) (sid uid : option Z) (msg resp : string) :
  lawful (Stmt.insert_message now sid uid msg resp).
Proof.
  intros t s r s'. unfold Stmt.insert_message.
  destruct (existsb _ _);
    [intros [= <- <-]; split; [unfold seq_le; cbn; lia|trivial]|].
  destruct (negb _ || _) eqn:Hfk;
    intros [= <- <-]; (split; [unfold seq_le; cbn; lia|]); trivial.
  apply orb_false_iff in Hfk as [Hfk _]. apply negb_false_iff in Hfk.
  rewrite !consistent_spec. cbn.
  intros (H1 & H2 & H3 & H4). repeat split; trivial; intros m Hm.
  - apply in_app_iff in Hm as [Hm|[<-|[]]]; [specialize (H3 m Hm)|cbn]; lia.
  - apply in_app_iff in Hm as [Hm|[<-|[]]]; [now apply H4|exact Hfk].
Qed.

Lemma session_exists_app (t : Tables) (c : ChatSession) (x : Z) :
  Stmt.session_exists t x = true ->
  Stmt.session_exists
    (mkTables (users t) (chat_sessions t ++ [c]) (chat_messages t)) x = true.
Proof.
  unfold Stmt.session_exists. cbn. rewrite existsb_app. now intros ->.
Qed.

Lemma insert_session_lawful (now uid : Z) : lawful (Stmt.insert_session now uid).
Proof.
  intros t s r s'. unfold Stmt.insert_session.
  destruct (Stmt.session_exists _ _);
    [intros [= <- <-]; split; [unfold seq_le; cbn; lia|trivial]|].
  destruct (negb _);
    intros [= <- <-]; (split; [unfold seq_le; cbn; lia|]); trivial.
  rewrite !consistent_spec. cbn.
  intros (H1 & H2 & H3 & H4). repeat split; trivial.
  - intros c Hc.
    apply in_app_iff in Hc as [Hc|[<-|[]]]; [specialize (H2 c Hc)|cbn]; lia.
  - intros m Hm. specialize (H4 m Hm).
    eapply references_more; [|exact H4]. apply session_exists_app.
Qed.

Lemma insert_user_lawful (now : Z) (name hash : string) (email : option string) :
  lawful (Stmt.insert_user now name hash email).
Proof.
  intros t s r s'. unfold Stmt.insert_user.
  destruct (negb _);
    [intros [= <- <-]; split; [unfold seq_le; cbn; lia|trivial]|].
  destruct (_ || _);
    intros [= <- <-]; (split; [unfold seq_le; cbn; lia|]); trivial.
  rewrite !consistent_spec. cbn.
  intros (H1 & H2 & H3 & H4). repeat split; trivial.
  intros u Hu.
  apply in_app_iff in Hu as [Hu|[<-|[]]]; [specialize (H1 u Hu)|cbn]; lia.
Qed.

Lemma delete_messages_of_lawful (uid : Z) : lawful (Stmt.delete_messages_of uid).
Proof.
  intros t s r s' [= <- <-]. split; [apply seq_le_refl|].
  rewrite !consistent_spec. cbn.
  intros (H1 & H2 & H3 & H4). repeat split; trivial;
    intros m [Hm _]%filter_In; auto.
Qed.

Lemma delete_sessions_of_lawful (uid : Z) : lawful (Stmt.delete_sessions_of uid).
Proof.
  intros t s r s' [= <- <-]. split; [apply seq_le_refl|].
  rewrite !consistent_spec. cbn.
  intros (H1 & H2 & H3 & H4). repeat split; trivial.
  - intros c [Hc _]%filter_In. auto.
  - intros m [Hm _]%filter_In. auto.
  - intros m [Hm Hkept]%filter_In. specialize (H4 m Hm).
    destruct (cm_session_id m) as [x|]; [|reflexivity].
    cbn in *. unfold Stmt.session_exists in *. cbn.
    apply existsb_exists in H4 as (c & Hc & Hid).
    apply existsb_exists. exists c. split; [|exact Hid].
    apply filter_In. split; [exact Hc|].
    destruct (Sql.eq_int (cs_user_id c) (Some uid)) eqn:Howned; [|reflexivity].
    apply negb_true_iff in Hkept.
    assert (Hin : existsb (fun c0 => x =? cs_id c0)
                    (filter (fun c0 => Sql.eq_int (cs_user_id c0) (Some uid))
                            (chat_sessions t)) = true).
    { apply existsb_exists. exists c. split.
      - apply filter_In. now split.
      - now rewrite Z.eqb_sym. }
    congruence.
Qed.

Lemma keeps_ret {A} (a : A) : keeps (ret a).
Proof. now intros w H. Qed.

Lemma keeps_raise {A} (e : string) : keeps (@raise A e).
Proof. now intros w H. Qed.

Lemma keeps_bind {A B} (m : M A) (k : A -> M B) :
  keeps m -> (forall a, keeps (k a)) -> keeps (bind m k).
Proof.
  intros Hm Hk w Hw. unfold bind. specialize (Hm w Hw).
  destruct (m w) as [[a|e] w']; cbn in *; [now apply Hk|exact Hm].
Qed.

Lemma keeps_try_except {A} (m : M A) (h : string -> M A) :
  keeps m -> (forall e, keeps (h e)) -> keeps (try_except m h).
Proof.
  intros Hm Hh w Hw. unfold try_except. specialize (Hm w Hw).
  destruct (m w) as [[a|e] w']; cbn in *; [exact Hm|now apply Hh].
Qed.

Lemma keeps_finally {A} (m : M A) (f : M unit) :
  keeps m -> keeps f -> keeps (finally m f).
Proof.
  intros Hm Hf w Hw. unfold finally. specialize (Hm w Hw).
  destruct (m w) as [r w']. cbn in Hm. specialize (Hf w' Hm).
  destruct (f w') as [[[]|e] w'']; exact Hf.
Qed.

Lemma keeps_get_session : keeps get_session.
Proof. now intros w H. Qed.

Lemma keeps_put_session (c : Session) : keeps (put_session c).
Proof. now intros w H. Qed.

Lemma keeps_flash (message category : string) : keeps (flash message category).
Proof. now intros w H. Qed.

Lemma keeps_ask_model (env : Env) (history : list Turn) (text : string) :
  keeps (ask_model env history text).
Proof.
  intros w H. unfold ask_model. now destruct (send_message env history text).
Qed.

Lemma keeps_rollback : keeps rollback.
Proof.
  intros w [H Hw]. unfold rollback. destruct (closed w); now split.
Qed.

Lemma keeps_close : keeps close.
Proof. intros w [H _]. now split. Qed.

Lemma keeps_commit (env : Env) : keeps (commit env).
Proof.
  intros w [Hc Hw]. unfold commit.
  destruct (closed w); [now split|].
  destruct (fault env (ops w)); [|destruct (aborted w)]; now split.
Qed.

Lemma keeps_execute {A} (env : Env) (stmt : statement A) :
  lawful stmt -> keeps (execute env stmt).
Proof.
  intros Hstmt w [Hc Hw]. unfold execute.
  destruct (closed w); [now split|].
  destruct (fault env (ops w)); [now split|].
  destruct (aborted w); [now split|].
  destruct (stmt (work w) (seqs w)) as [r s'] eqn:E.
  destruct (Hstmt _ _ _ _ E) as [Hle Hr].
  destruct r as [[a t']|e]; cbn; split;
    eauto using consistent_later.
Qed.

Create HintDb keeps discriminated.
#[local] Hint Resolve keeps_ret keeps_raise keeps_get_session keeps_put_session
  keeps_flash keeps_ask_model keeps_rollback keeps_close keeps_commit
  query_lawful insert_message_lawful insert_session_lawful insert_user_lawful
  delete_messages_of_lawful delete_sessions_of_lawful : keeps.

(** Takes a handler apart along its control flow. *)
Ltac keeps_step :=
  match goal with
  | |- forall _, _ => intro
  | |- keeps (bind _ _) => apply keeps_bind
  | |- keeps (try_except _ _) => apply keeps_try_except
  | |- keeps (finally _ _) => apply keeps_finally
  | |- keeps (execute _ _) => apply keeps_execute
  | |- keeps close => apply keeps_close
  | |- keeps (if ?b then _ else _) => destruct b
  | |- keeps (match ?x with _ => _ end) => destruct x
  | |- keeps (let _ := _ in _) => cbv zeta
  | |- _ => solve [auto with keeps]
  end.

Lemma keeps_home_loop (env : Env) (current : option Z) (rows : list ChatSession) :
  forall acc cur, keeps (home_loop env current rows acc cur).
Proof.
  induction rows as [|row rows IH]; intros acc cur; cbn [home_loop].
  - apply keeps_ret.
  - unfold Stmt.select_messages. repeat keeps_step.
Qed.

Lemma keeps_ask (env : Env) (req : AskRequest) : keeps (ask env req).
Proof.
  unfold ask, login_required, ask_try, stripped_message, set_session_id, set_user,
    Stmt.select_history.
  repeat keeps_step.
Qed.

Lemma keeps_switch_session (env : Env) (req : SwitchRequest) :
  keeps (switch_session env req).
Proof.
  unfold switch_session, login_required, set_session_id,
    Stmt.select_owned_session, Stmt.select_messages.
  repeat keeps_step.
Qed.

Lemma keeps_clear_history (env : Env) : keeps (clear_history env).
Proof.
  unfold clear_history, login_required, set_session_id.
  repeat keeps_step.
Qed.

Lemma keeps_home (env : Env) : keeps (home env).
Proof.
  unfold home, login_required, Stmt.select_sessions.
  repeat keeps_step. apply keeps_home_loop.
Qed.

Lemma keeps_register (env : Env) (req : RegisterRequest) :
  keeps (register env req).
Proof.
  unfold register, set_session_id, set_user,
    Stmt.select_user_by_username, Stmt.select_user_by_email.
  repeat keeps_step.
Qed.

Lemma serve_keeps (h : M Response) (db : Database) (c : Session) :
  keeps h ->
  consistent db = true ->
  consistent (out_database (serve h db c)) = true.
Proof.
  intros Hh Hdb. unfold serve.
  assert (Hw : sound (enter db c))
    by (split; cbn; now rewrite database_eta).
  specialize (Hh _ Hw). destruct (h (enter db c)) as [r w]. apply Hh.
Qed.

(** Every handler takes a consistent database to a consistent database,
    whatever the request, the cookie and the environment are. *)
Theorem handlers_keep_consistency (env : Env) (db : Database) (c : Session) :
  consistent db = true ->
  consistent (out_database (serve (home env) db c)) = true
  /\ (forall req, consistent (out_database (serve (register env req) db c)) = true)
  /\ (forall req, consistent (out_database (serve (ask env req) db c)) = true)
  /\ (forall req,
        consistent (out_database (serve (switch_session env req) db c)) = true)
  /\ consistent (out_database (serve (clear_history env) db c)) = true.
Proof.
  intros Hdb. repeat split; intros; apply serve_keeps; trivial.
  - apply keeps_home.
  - apply keeps_register.
  - apply keeps_ask.
  - apply keeps_switch_session.
  - apply keeps_clear_history.
Qed.

(** ** The schema is an invariant of every route *)

Lemma well_formed_spec (t : Tables) (s : Sequences) :
  well_formed (mkDatabase t s) = true <->
  consistent (mkDatabase t s) = true
  /\ distinct_by Z.eqb (map u_id (users t)) = true
  /\ distinct_by Z.eqb (map cs_id (chat_sessions t)) = true
  /\ distinct_by Z.eqb (map cm_id (chat_messages t)) = true
  /\ distinct_by String.eqb (map u_username (users t)) = true
  /\ (forall c, In c (chat_sessions t) ->
        Stmt.references (Stmt.user_exists t) (cs_user_id c) = true)
  /\ (forall m, In m (chat_messages t) ->
        Stmt.references (Stmt.user_exists t) (cm_user_id m) = true).
Proof.
  unfold well_formed. cbn [db_tables].
  rewrite !andb_true_iff, !forallb_forall. tauto.
Qed.

Lemma well_formed_later (t : Tables) (s s' : Sequences) :
  seq_le s s' ->
  well_formed (mkDatabase t s) = true -> well_formed (mkDatabase t s') = true.
Proof.
  intros Hle. rewrite !well_formed_spec.
  intros (Hc & H). split; [|exact H]. now apply (consistent_later t s s').
Qed.

Lemma existsb_filter_false {A} (p f : A -> bool) (l : list A) :
  existsb p l = false -> existsb p (filter f l) = false.
Proof.
  induction l as [|x l IH]; simpl; trivial.
  intros [Hx Hl]%orb_false_iff.
  destruct (f x); simpl; [rewrite Hx|]; auto.
Qed.

Lemma distinct_keys_filter {A K} (same : K -> K -> bool) (key : A -> K)
    (f : A -> bool) (l : list A) :
  distinct_by same (map key l) = true ->
  distinct_by same (map key (filter f l)) = true.
Proof.
  induction l as [|x l IH]; simpl; trivial.
  intros [Hx Hl]%andb_prop. destruct (f x); simpl; [|auto].
  rewrite (IH Hl), andb_true_r.
  apply negb_true_iff in Hx. apply negb_true_iff.
  clear -Hx. induction l as [|y l IH]; simpl in *; trivial.
  apply orb_false_iff in Hx as [Hy Hl].
  destruct (f y); simpl; [rewrite Hy|]; auto.
Qed.

Lemma distinct_keys_app {A K} (same : K -> K -> bool) (key : A -> K)
    (l : list A) (x : A) :
  distinct_by same (map key l) = true ->
  (forall y, In y l -> same (key y) (key x) = false) ->
  distinct_by same (map key (l ++ [x])) = true.
Proof.
  induction l as [|y l IH]; simpl; trivial.
  intros [Hy Hl]%andb_prop Hfresh.
  rewrite IH by auto. rewrite andb_true_r.
  rewrite map_app, existsb_app. cbn.
  apply negb_true_iff in Hy. rewrite Hy, (Hfresh y) by now left.
  reflexivity.
Qed.

Lemma user_exists_app (t : Tables) (u : User) (x : Z) :
  Stmt.user_exists t x = true ->
  Stmt.user_exists
    (mkTables (users t ++ [u]) (chat_sessions t) (chat_messages t)) x = true.
Proof.
  unfold Stmt.user_exists. cbn. rewrite existsb_app. now intros ->.
Qed.

Lemma references_user_more (t t' : Tables) (v : option Z) :
  (forall x, Stmt.user_exists t x = true -> Stmt.user_exists t' x = true) ->
  Stmt.references (Stmt.user_exists t) v = true ->
  Stmt.references (Stmt.user_exists t') v = true.
Proof. destruct v; cbn; auto. Qed.

Lemma query_respects_schema {A} (f : Tables -> A) :
  respects_schema (Stmt.query f).
Proof.
  intros t s r s' [= <- <-]. split; [apply seq_le_refl|trivial].
Qed.

Lemma insert_message_respects_schema (now : Z) (sid uid : option Z)
    (msg resp : string) :
  respects_schema (Stmt.insert_message now sid uid msg resp).
Proof.
  intros t s r s' E.
  destruct (insert_message_lawful now sid uid msg resp t s r s' E) as [Hle Hc].
  split; [exact Hle|]. revert E. unfold Stmt.insert_message.
  destruct (existsb _ _); [now intros [= <- <-]|].
  destruct (negb _ || _) eqn:Hfk; intros [= <- <-]; trivial.
  apply orb_false_iff in Hfk as [_ Hfk]. apply negb_false_iff in Hfk.
  rewrite !well_formed_spec. cbn [users chat_sessions chat_messages].
  intros (H0 & H1 & H2 & H3 & H4 & H5 & H6).
  split; [now apply Hc|]. repeat split; trivial.
  - apply distinct_keys_app; [exact H3|]. intros m Hm.
    apply consistent_spec in H0 as (_ & _ & Hid & _).
    specialize (Hid m Hm). cbn. apply Z.eqb_neq. lia.
  - intros m Hm.
    apply in_app_iff in Hm as [Hm|[<-|[]]]; [now apply H6|exact Hfk].
Qed.

Lemma insert_session_respects_schema (now uid : Z) :
  respects_schema (Stmt.insert_session now uid).
Proof.
  intros t s r s' E.
  destruct (insert_session_lawful now uid t s r s' E) as [Hle Hc].
  split; [exact Hle|]. revert E. unfold Stmt.insert_session.
  destruct (Stmt.session_exists _ _); [now intros [= <- <-]|].
  destruct (negb _) eqn:Hfk; intros [= <- <-]; trivial.
  apply negb_false_iff in Hfk.
  rewrite !well_formed_spec. cbn [users chat_sessions chat_messages].
  intros (H0 & H1 & H2 & H3 & H4 & H5 & H6).
  split; [now apply Hc|]. repeat split; trivial.
  - apply distinct_keys_app; [exact H2|]. intros c Hin.
    apply consistent_spec in H0 as (_ & Hid & _).
    specialize (Hid c Hin). cbn. apply Z.eqb_neq. lia.
  - intros c Hin.
    apply in_app_iff in Hin as [Hin|[<-|[]]]; [now apply H5|exact Hfk].
Qed.

Lemma insert_user_respects_schema (now : Z) (name hash : string)
    (email : option string) :
  respects_schema (Stmt.insert_user now name hash email).
Proof.
  intros t s r s' E.
  destruct (insert_user_lawful now name hash email t s r s' E) as [Hle Hc].
  split; [exact Hle|]. revert E. unfold Stmt.insert_user.
  destruct (negb _); [now intros [= <- <-]|].
  destruct (_ || _) eqn:Huniq; intros [= <- <-]; trivial.
  apply orb_false_iff in Huniq as [_ Huniq].
  rewrite !well_formed_spec. cbn [users chat_sessions chat_messages].
  intros (H0 & H1 & H2 & H3 & H4 & H5 & H6).
  split; [now apply Hc|]. repeat split; trivial.
  - apply distinct_keys_app; [exact H1|]. intros u Hin.
    apply consistent_spec in H0 as (Hid & _).
    specialize (Hid u Hin). cbn. apply Z.eqb_neq. lia.
  - apply distinct_keys_app; [exact H4|]. intros u Hin. cbn.
    destruct (String.eqb (u_username u) name) eqn:Hsame; [|reflexivity].
    assert (existsb (fun u0 => String.eqb (u_username u0) name) (users t)
            = true) by (apply existsb_exists; eauto).
    congruence.
  - intros c Hin. eapply references_user_more; [|now apply H5].
    apply user_exists_app.
  - intros m Hin. eapply references_user_more; [|now apply H6].
    apply user_exists_app.
Qed.

Lemma delete_messages_of_respects_schema (uid : Z) :
  respects_schema (Stmt.delete_messages_of uid).
Proof.
  intros t s r s' E.
  destruct (delete_messages_of_lawful uid t s r s' E) as [Hle Hc].
  split; [exact Hle|]. revert E. intros [= <- <-].
  rewrite !well_formed_spec. cbn [users chat_sessions chat_messages].
  intros (H0 & H1 & H2 & H3 & H4 & H5 & H6).
  split; [now apply Hc|]. repeat split; trivial.
  - now apply distinct_keys_filter.
  - intros m [Hm _]%filter_In. now apply H6.
Qed.

Lemma delete_sessions_of_respects_schema (uid : Z) :
  respects_schema (Stmt.delete_sessions_of uid).
Proof.
  intros t s r s' E.
  destruct (delete_sessions_of_lawful uid t s r s' E) as [Hle Hc].
  split; [exact Hle|]. revert E. intros [= <- <-].
  rewrite !well_formed_spec. cbn [users chat_sessions chat_messages].
  intros (H0 & H1 & H2 & H3 & H4 & H5 & H6).
  split; [now apply Hc|]. repeat split; trivial.
  - now apply distinct_keys_filter.
  - now apply distinct_keys_filter.
  - intros c [Hin _]%filter_In. now apply H5.
  - intros m [Hm _]%filter_In. now apply H6.
Qed.

Lemma schema_ret {A} (a : A) : keeps_schema (ret a).
Proof. now intros w H. Qed.

Lemma schema_raise {A} (e : string) : keeps_schema (@raise A e).
Proof. now intros w H. Qed.

Lemma schema_bind {A B} (m : M A) (k : A -> M B) :
  keeps_schema m -> (forall a, keeps_schema (k a)) -> keeps_schema (bind m k).
Proof.
  intros Hm Hk w Hw. unfold bind. specialize (Hm w Hw).
  destruct (m w) as [[a|e] w']; cbn in *; [now apply Hk|exact Hm].
Qed.

Lemma schema_try_except {A} (m : M A) (h : string -> M A) :
  keeps_schema m -> (forall e, keeps_schema (h e)) ->
  keeps_schema (try_except m h).
Proof.
  intros Hm Hh w Hw. unfold try_except. specialize (Hm w Hw).
  destruct (m w) as [[a|e] w']; cbn in *; [exact Hm|now apply Hh].
Qed.

Lemma schema_finally {A} (m : M A) (f : M unit) :
  keeps_schema m -> keeps_schema f -> keeps_schema (finally m f).
Proof.
  intros Hm Hf w Hw. unfold finally. specialize (Hm w Hw).
  destruct (m w) as [r w']. cbn in Hm. specialize (Hf w' Hm).
  destruct (f w') as [[[]|e] w'']; exact Hf.
Qed.

Lemma schema_get_session : keeps_schema get_session.
Proof. now intros w H. Qed.

Lemma schema_put_session (c : Session) : keeps_schema (put_session c).
Proof. now intros w H. Qed.

Lemma schema_flash (message category : string) :
  keeps_schema (flash message category).
Proof. now intros w H. Qed.

Lemma schema_ask_model (env : Env) (history : list Turn) (text : string) :
  keeps_schema (ask_model env history text).
Proof.
  intros w H. unfold ask_model. now destruct (send_message env history text).
Qed.

Lemma schema_rollback : keeps_schema rollback.
Proof.
  intros w [H Hw]. unfold rollback. destruct (closed w); now split.
Qed.

Lemma schema_close : keeps_schema close.
Proof. intros w [H _]. now split. Qed.

Lemma schema_commit (env : Env) : keeps_schema (commit env).
Proof.
  intros w [Hc Hw]. unfold commit.
  destruct (closed w); [now split|].
  destruct (fault env (ops w)); [|destruct (aborted w)]; now split.
Qed.

Lemma schema_execute {A} (env : Env) (stmt : statement A) :
  respects_schema stmt -> keeps_schema (execute env stmt).
Proof.
  intros Hstmt w [Hc Hw]. unfold execute.
  destruct (closed w); [now split|].
  destruct (fault env (ops w)); [now split|].
  destruct (aborted w); [now split|].
  destruct (stmt (work w) (seqs w)) as [r s'] eqn:E.
  destruct (Hstmt _ _ _ _ E) as [Hle Hr].
  destruct r as [[a t']|e]; cbn; split;
    eauto using well_formed_later.
Qed.

Create HintDb schema discriminated.
#[local] Hint Resolve schema_ret schema_raise schema_get_session
  schema_put_session schema_flash schema_ask_model schema_rollback
  schema_close schema_commit query_respects_schema insert_message_respects_schema
  insert_session_respects_schema insert_user_respects_schema
  delete_messages_of_respects_schema delete_sessions_of_respects_schema
  : schema.

(** Takes a handler apart along its control flow. *)
Ltac schema_step :=
  match goal with
  | |- forall _, _ => intro
  | |- keeps_schema (bind _ _) => apply schema_bind
  | |- keeps_schema (try_except _ _) => apply schema_try_except
  | |- keeps_schema (finally _ _) => apply schema_finally
  | |- keeps_schema (execute _ _) => apply schema_execute
  | |- keeps_schema close => apply schema_close
  | |- keeps_schema (if ?b then _ else _) => destruct b
  | |- keeps_schema (match ?x with _ => _ end) => destruct x
  | |- keeps_schema (let _ := _ in _) => cbv zeta
  | |- _ => solve [auto with schema]
  end.

Ltac schema_handler :=
  unfold login_required, login_required_answer, get_db_connection,
    stripped_message, set_session_id, set_user,
    Stmt.select_history, Stmt.select_messages, Stmt.select_sessions,
    Stmt.select_owned_session, Stmt.select_user_by_username,
    Stmt.select_user_by_email, StmtAux.select_user,
    StmtAux.select_latest_session, StmtAux.select_version;
  repeat schema_step.

Lemma schema_home_loop (env : Env) (current : option Z)
    (rows : list ChatSession) :
  forall acc cur, keeps_schema (home_loop env current rows acc cur).
Proof.
  induction rows as [|row rows IH]; intros acc cur; cbn [home_loop].
  - apply schema_ret.
  - schema_handler.
Qed.

Lemma schema_home (env : Env) : keeps_schema (home env).
Proof. unfold home. schema_handler. apply schema_home_loop. Qed.

Lemma schema_register (env : Env) (req : RegisterRequest) :
  keeps_schema (register env req).
Proof. unfold register. schema_handler. Qed.

Lemma schema_ask (env : Env) (req : AskRequest) : keeps_schema (ask env req).
Proof. unfold ask, ask_try. schema_handler. Qed.

Lemma schema_switch_session (env : Env) (req : SwitchRequest) :
  keeps_schema (switch_session env req).
Proof. unfold switch_session. schema_handler. Qed.

Lemma schema_clear_history (env : Env) : keeps_schema (clear_history env).
Proof. unfold clear_history. schema_handler. Qed.

Lemma schema_login (env : Env) (check : string -> string -> bool)
    (req : LoginRequest) :
  keeps_schema (login env check req).
Proof. unfold login. schema_handler. Qed.

Lemma schema_logout : keeps_schema logout.
Proof. unfold logout. schema_handler. Qed.

Lemma schema_new_session (env : Env) : keeps_schema (new_session env).
Proof. unfold new_session, new_session_try. schema_handler. Qed.

Lemma schema_health_check (env : Env) : keeps_schema (health_check env).
Proof. unfold health_check, test_db_connection. schema_handler. Qed.

Lemma serve_keeps_schema (h : M Response) (db : Database) (c : Session) :
  keeps_schema h ->
  well_formed db = true ->
  well_formed (out_database (serve h db c)) = true.
Proof.
  intros Hh Hdb. unfold serve.
  assert (Hw : schema_holds (enter db c))
    by (split; cbn; now rewrite database_eta).
  specialize (Hh _ Hw). destruct (h (enter db c)) as [r w]. apply Hh.
Qed.

Lemma visit_keeps_schema (h : M Answer) (db : Database) (c : Session) :
  keeps_schema h ->
  well_formed db = true ->
  well_formed (visit_database (visit h db c)) = true.
Proof.
  intros Hh Hdb. unfold visit.
  assert (Hw : schema_holds (enter db c))
    by (split; cbn; now rewrite database_eta).
  specialize (Hh _ Hw). destruct (h (enter db c)) as [r w]. apply Hh.
Qed.

(** Whatever the request, the cookie and the environment are, each of the
    nine routes takes a database in which the constraints of [init_db] hold
    to one in which they hold: primary keys and usernames stay unique,
    foreign keys keep naming stored rows. *)
Theorem routes_keep_the_schema
    (env : Env) (check : string -> string -> bool) (db : Database)
    (c : Session) :
  well_formed db = true ->
  well_formed (out_database (serve (home env) db c)) = true
  /\ (forall req,
        well_formed (out_database (serve (register env req) db c)) = true)
  /\ (forall req,
        well_formed (visit_database (visit (login env check req) db c)) = true)
  /\ well_formed (out_database (serve logout db c)) = true
  /\ (forall req, well_formed (out_database (serve (ask env req) db c)) = true)
  /\ (forall req,
        well_formed (out_database (serve (switch_session env req) db c)) = true)
  /\ well_formed (out_database (serve (clear_history env) db c)) = true
  /\ well_formed (visit_database (visit (new_session env) db c)) = true
  /\ well_formed (visit_database (visit (health_check env) db c)) = true.
Proof.
  intros Hdb.
  repeat split; intros;
    first [apply serve_keeps_schema | apply visit_keeps_schema]; trivial.
  - apply schema_home.
  - apply schema_register.
  - apply schema_login.
  - apply schema_logout.
  - apply schema_ask.
  - apply schema_switch_session.
  - apply schema_clear_history.
  - apply schema_new_session.
  - apply schema_health_check.
Qed.

Lemma routes_keep_the_schema_witness :
  well_formed (out_database (serve (clear_history Sample.env) Sample.db
                               Sample.alice)) = true.
Proof.
  apply (routes_keep_the_schema Sample.env SampleAux.check Sample.db
           Sample.alice).
  reflexivity.
Defined.

(** ** The login gate *)

(** A caller whose cookie holds no [user_id] is sent to the login page by
    each of the five protected routes; the database and the cookie are what
    they were, nothing is flashed and the model is not called. *)
Theorem anonymous_caller_is_sent_to_login
    (env : Env) (db : Database) (c : Session)
    (ask_req : AskRequest) (switch_req : SwitchRequest) :
  s_user_id c = None ->
  let turned_away := mkOutcome (redirect "login") db c [] [] in
  serve (home env) db c = turned_away
  /\ serve (ask env ask_req) db c = turned_away
  /\ serve (switch_session env switch_req) db c = turned_away
  /\ serve (clear_history env) db c = turned_away
  /\ visit (new_session env) db c
     = mkVisit (Chat (redirect "login")) db c [] [].
Proof.
  intros Hanon.
  unfold serve, visit, home, ask, switch_session, clear_history, new_session,
    login_required, login_required_answer, bind, get_session, ret.
  cbn [cookie enter]. rewrite Hanon. cbn. rewrite database_eta.
  repeat split.
Qed.

Lemma anonymous_caller_is_sent_to_login_witness :
  let turned_away := mkOutcome (redirect "login") Sample.db anonymous [] [] in
  serve (home Sample.env) Sample.db anonymous = turned_away
  /\ serve (ask Sample.env (Sample.say "hi")) Sample.db anonymous
     = turned_away
  /\ serve (switch_session Sample.env (mkSwitchRequest true (Some 1)))
           Sample.db anonymous = turned_away
  /\ serve (clear_history Sample.env) Sample.db anonymous = turned_away
  /\ visit (new_session Sample.env) Sample.db anonymous
     = mkVisit (Chat (redirect "login")) Sample.db anonymous [] [].
Proof.
  apply (anonymous_caller_is_sent_to_login Sample.env Sample.db anonymous
           (Sample.say "hi") (mkSwitchRequest true (Some 1))).
  reflexivity.
Defined.

(** [/logout] empties the cookie whoever the caller was and leaves the
    database alone; a request to [/ask] or [/clear_history] made with the
    cookie it returns is sent to the login page and changes nothing. *)
Theorem logout_ends_the_login
    (env : Env) (db : Database) (c : Session) (req : AskRequest) :
  let o := serve logout db c in
  out_response o = redirect "login"
  /\ out_session o = anonymous
  /\ out_database o = db
  /\ serve (ask env req) (out_database o) (out_session o)
     = mkOutcome (redirect "login") db anonymous [] []
  /\ serve (clear_history env) (out_database o) (out_session o)
     = mkOutcome (redirect "login") db anonymous [] [].
Proof.
  unfold serve, logout, ask, clear_history, login_required. unfold_py.
  cbn. rewrite database_eta. repeat split.
Qed.

(** ** The route [/login] *)

Arguments StmtAux.select_user : simpl never.
Arguments StmtAux.select_latest_session : simpl never.
Arguments StmtAux.select_version : simpl never.

Lemma filter_head_in {A} (f : A -> bool) (l : list A) (x : A) (rest : list A) :
  filter f l = x :: rest -> In x l /\ f x = true.
Proof.
  intros H. apply filter_In. rewrite H. now left.
Qed.

Lemma select_user_spec (t : Tables) (s : Sequences) (name : string) :
  exists found,
    StmtAux.select_user name t s = (Ok (found, t), s)
    /\ match found with
       | Some u => In u (users t) /\ u_username u = name
       | None => forall u, In u (users t) -> u_username u <> name
       end.
Proof.
  unfold StmtAux.select_user, Stmt.query.
  destruct (filter _ (users t)) as [|u rest] eqn:E;
    eexists; (split; [reflexivity|]); cbn.
  - intros u Hu Hname.
    assert (Hin : In u (filter (fun v => String.eqb (u_username v) name)
                          (users t)))
      by (apply filter_In; split; [exact Hu|now apply String.eqb_eq]).
    now rewrite E in Hin.
  - apply filter_head_in in E as [Hin Hname].
    split; [exact Hin|now apply String.eqb_eq].
Qed.

Lemma distinct_usernames_filter (l : list User) (u : User) :
  distinct_by String.eqb (map u_username l) = true ->
  In u l ->
  filter (fun v => String.eqb (u_username v) (u_username u)) l = [u].
Proof.
  induction l as [|x l IH]; cbn; [easy|].
  intros [Hx Hl]%andb_prop Hin. apply negb_true_iff in Hx.
  assert (Hothers : forall y, In y l ->
            String.eqb (u_username x) (u_username y) = false).
  { intros y Hy. destruct (String.eqb _ _) eqn:E; [|reflexivity].
    assert (existsb (String.eqb (u_username x)) (map u_username l) = true).
    { apply existsb_exists. exists (u_username y). split; [|exact E].
      now apply in_map. }
    congruence. }
  destruct Hin as [->|Hin].
  - rewrite String.eqb_refl. f_equal. apply filter_nothing.
    apply forallb_forall. intros y Hy. apply negb_true_iff.
    rewrite String.eqb_sym. now apply Hothers.
  - rewrite (Hothers u Hin). now apply IH.
Qed.

(** With unique usernames the row that [login] fetches is the user of that
    name. *)
Lemma select_user_finds (t : Tables) (s : Sequences) (u : User) :
  distinct_by String.eqb (map u_username (users t)) = true ->
  In u (users t) ->
  StmtAux.select_user (u_username u) t s = (Ok (Some u, t), s).
Proof.
  intros Hd Hin. unfold StmtAux.select_user, Stmt.query.
  now rewrite (distinct_usernames_filter _ _ Hd Hin).
Qed.

(** When no stored user of the stripped name accepts the password, in
    particular when no user has that name, [/login] answers with the login
    form and leaves the cookie and the database as they were, whatever the
    environment does. *)
Theorem login_refuses_wrong_credentials
    (env : Env) (check : string -> string -> bool) (req : LoginRequest)
    (db : Database) (c : Session) :
  (forall u, In u (users (db_tables db)) ->
             u_username u = PyStr.strip (login_username req) ->
             check (u_password u) (login_password req) = false) ->
  let o := visit (login env check req) db c in
  visit_answer o = LoginPage
  /\ visit_session o = c
  /\ visit_database o = db.
Proof.
  intros Hbad.
  destruct (select_user_spec (db_tables db) (db_sequences db)
              (PyStr.strip (login_username req))) as (found & Hsel & Hfound).
  unfold visit, login.
  destruct (login_is_post req); [|cbn; rewrite database_eta; now repeat split].
  destruct (_ || _); [cbn; rewrite database_eta; now repeat split|].
  unfold_py. env_case; cbn; [|rewrite database_eta; now repeat split].
  env_case; cbn; [rewrite database_eta; now repeat split|].
  rewrite Hsel. destruct found as [u|]; cbn.
  - destruct Hfound as [Hin Hname]. rewrite (Hbad u Hin Hname). cbn.
    rewrite database_eta; now repeat split.
  - rewrite database_eta; now repeat split.
Qed.

Lemma login_refuses_wrong_credentials_witness :
  let o := visit (login Sample.env SampleAux.check
                    (SampleAux.sign_in "alice" "b")) Sample.db anonymous in
  visit_answer o = LoginPage
  /\ visit_session o = anonymous
  /\ visit_database o = Sample.db.
Proof.
  apply (login_refuses_wrong_credentials Sample.env SampleAux.check
           (SampleAux.sign_in "alice" "b") Sample.db anonymous).
  intros u [<-|[<-|[]]] H; [reflexivity|discriminate H].
Defined.

Lemma desc_total {A} (key : A -> Z) (a b : A) :
  Sql.desc key a b = true \/ Sql.desc key b a = true.
Proof.
  unfold Sql.desc.
  destruct (Z.leb_spec (key b) (key a)); [now left|right].
  apply Z.leb_le. lia.
Qed.

(** The first row of [ORDER BY created_at DESC] is a row of the table that
    no row is newer than. *)
Lemma order_by_desc_head {A} (key : A -> Z) (tie : A -> A -> bool)
    (l : list A) (x : A) (rest : list A) :
  Sql.order_by (Sql.desc key) tie l = x :: rest ->
  In x l /\ forall y, In y l -> key y <= key x.
Proof.
  intros E.
  pose proof (order_by_perm (Sql.desc key) tie l) as Hperm.
  pose proof (order_by_sorted (Sql.desc key) tie (desc_total key) l)
    as Hsorted.
  rewrite E in Hperm, Hsorted.
  apply Sorted_StronglySorted in Hsorted.
  2: { intros a b c Hab Hbc. unfold Sql.desc in *.
       apply Z.leb_le in Hab, Hbc. apply Z.leb_le. lia. }
  apply StronglySorted_inv in Hsorted as [_ Hall].
  rewrite Forall_forall in Hall.
  split.
  - apply (Permutation_in x (Permutation_sym Hperm)). now left.
  - intros y Hy. apply (Permutation_in y Hperm) in Hy as [<-|Hy]; [lia|].
    specialize (Hall y Hy). unfold Sql.desc in Hall.
    now apply Z.leb_le in Hall.
Qed.

Lemma select_latest_session_spec (tie : Z -> Z -> bool) (t : Tables)
    (s : Sequences) (uid : Z) :
  exists found,
    StmtAux.select_latest_session tie uid t s = (Ok (found, t), s)
    /\ match found with
       | Some sid =>
           exists latest,
             In latest (sessions_of t uid) /\ cs_id latest = sid
             /\ forall c, In c (sessions_of t uid) ->
                          cs_created_at c <= cs_created_at latest
       | None => sessions_of t uid = []
       end.
Proof.
  unfold StmtAux.select_latest_session, Stmt.query.
  fold (sessions_of t uid).
  destruct (Sql.order_by _ _ (sessions_of t uid)) as [|x rest] eqn:E;
    eexists; (split; [reflexivity|]); cbn.
  - pose proof (order_by_length (Sql.desc cs_created_at)
                  (Sql.by_key cs_id tie) (sessions_of t uid))
      as Hlen.
    rewrite E in Hlen. now destruct (sessions_of t uid).
  - apply order_by_desc_head in E as [Hin Hmax]. now exists x.
Qed.

Lemma sessions_of_owns (t : Tables) (uid : Z) (c : ChatSession) :
  In c (sessions_of t uid) -> owns t uid (cs_id c) = true.
Proof.
  intros [Hin Howner]%filter_In. unfold owns.
  apply existsb_exists. exists c. split; [exact Hin|].
  now rewrite Z.eqb_refl, Howner.
Qed.

Lemma in_user_exists (t : Tables) (u : User) :
  In u (users t) -> Stmt.user_exists t (u_id u) = true.
Proof.
  intros Hin. unfold Stmt.user_exists. apply existsb_exists.
  exists u. split; [exact Hin|apply Z.eqb_refl].
Qed.

Lemma well_formed_fresh_session (db : Database) :
  well_formed db = true ->
  forallb (fun c => cs_id c <? chat_sessions_id_seq (db_sequences db))
          (chat_sessions (db_tables db)) = true.
Proof.
  destruct db as [t s]. intros H.
  apply well_formed_spec in H as (H & _).
  unfold consistent in H. cbn in *.
  apply andb_prop in H as [H _]. apply andb_prop in H as [H _].
  now apply andb_prop in H as [_ H].
Qed.

(** A stored user who signs in with the right password, while the
    connection is obtained and every statement runs, is answered with the
    redirect (to [next] when the request names it, else to the home page)
    and gets a cookie with their id, their name and one of their own
    sessions: the newest by [created_at] when they have sessions, and then
    the database is what it was; otherwise a session created by this
    request, the only row added. *)
Theorem login_attaches_own_session
    (env : Env) (check : string -> string -> bool) (req : LoginRequest)
    (db : Database) (c : Session) (u : User) :
  login_is_post req = true ->
  PyStr.strip (login_username req) <> EmptyString ->
  login_password req <> EmptyString ->
  well_formed db = true ->
  In u (users (db_tables db)) ->
  u_username u = PyStr.strip (login_username req) ->
  check (u_password u) (login_password req) = true ->
  db_up env = true ->
  no_fault env ->
  let o := visit (login env check req) db c in
  let t := db_tables db in
  exists sid,
    visit_answer o = after_login (login_next req)
    /\ visit_session o
       = mkSession (Some (u_id u)) (Some (u_username u)) (Some sid)
    /\ owns (db_tables (visit_database o)) (u_id u) sid = true
    /\ match sessions_of t (u_id u) with
       | [] =>
           db_tables (visit_database o)
           = mkTables (users t)
               (chat_sessions t ++ [mkChatSession sid (Some (u_id u)) (now env)])
               (chat_messages t)
       | _ :: _ =>
           visit_database o = db
           /\ exists latest,
                In latest (sessions_of t (u_id u)) /\ cs_id latest = sid
                /\ forall s, In s (sessions_of t (u_id u)) ->
                             cs_created_at s <= cs_created_at latest
       end.
Proof.
  intros Hpost Hname Hpw Hwf Hin Hu Hcheck Hup Hnf.
  pose proof Hwf as Hwf'. destruct db as [t s].
  apply well_formed_spec in Hwf' as (_ & _ & _ & _ & Hnames & _).
  pose proof (select_user_finds t s u Hnames Hin) as Hsel. rewrite Hu in Hsel.
  destruct (select_latest_session_spec (tie_sessions env) t s (u_id u))
    as (found & Hlatest & Hfound).
  unfold visit, login. cbn [db_tables db_sequences].
  rewrite Hpost, (falsy_false _ Hname), (falsy_false _ Hpw). cbn [orb].
  unfold_py. cbn. rewrite Hup. cbn. rewrite (Hnf 0%nat), Hsel. cbn.
  rewrite Hcheck. cbn. rewrite (Hnf 1%nat), Hlatest. cbn.
  destruct found as [sid|].
  - destruct Hfound as (latest & Hl & Hid & Hmax).
    exists sid. cbn. rewrite (Hnf 2%nat). cbn.
    split; [reflexivity|]. split; [reflexivity|].
    split; [rewrite <- Hid; now apply sessions_of_owns|].
    destruct (sessions_of t (u_id u)); [now destruct Hl|].
    split; [reflexivity|]. now exists latest.
  - rewrite Hfound. cbn. rewrite (Hnf 2%nat).
    destruct (insert_session_accepts (now env) (u_id u) t s
                (well_formed_fresh_session _ Hwf) (in_user_exists _ _ Hin))
      as (t' & s' & Hins).
    rewrite Hins. apply insert_session_ok in Hins as [_ ->].
    exists (chat_sessions_id_seq s). cbn. rewrite (Hnf 3%nat). cbn.
    split; [reflexivity|]. split; [reflexivity|]. split; [|reflexivity].
    unfold owns. cbn. rewrite existsb_app. cbn.
    now rewrite !Z.eqb_refl, orb_true_r.
Qed.

Lemma login_attaches_own_session_witness :
  let o := visit (login Sample.env SampleAux.check
                    (SampleAux.sign_in " alice " "a")) Sample.db anonymous in
  exists sid,
    visit_answer o = Chat (redirect "home")
    /\ visit_session o = mkSession (Some 1) (Some "alice") (Some sid)
    /\ owns (db_tables (visit_database o)) 1 sid = true
    /\ visit_database o = Sample.db
    /\ exists latest,
         In latest (sessions_of (db_tables Sample.db) 1)
         /\ cs_id latest = sid
         /\ forall s, In s (sessions_of (db_tables Sample.db) 1) ->
                      cs_created_at s <= cs_created_at latest.
Proof.
  apply (login_attaches_own_session Sample.env SampleAux.check
           (SampleAux.sign_in " alice " "a") Sample.db anonymous
           (mkUser 1 "alice" "pbkdf2:a" None 0));
    solve [reflexivity
          | intros H; vm_compute in H; discriminate H
          | intros n; reflexivity
          | now left].
Defined.

(** Once the password has been accepted the cookie names the user, also
    when the lookup of their sessions then raises: the caller is answered
    with the login form and an error, yet is logged in, and the active
    session is the one the cookie held before. *)
Theorem login_marks_the_caller_before_the_session
    (env : Env) (check : string -> string -> bool) (req : LoginRequest)
    (db : Database) (c : Session) (u : User) (e : string) :
  login_is_post req = true ->
  PyStr.strip (login_username req) <> EmptyString ->
  login_password req <> EmptyString ->
  well_formed db = true ->
  In u (users (db_tables db)) ->
  u_username u = PyStr.strip (login_username req) ->
  check (u_password u) (login_password req) = true ->
  db_up env = true ->
  fault env 0 = None ->
  fault env 1 = Some e ->
  let o := visit (login env check req) db c in
  visit_answer o = LoginPage
  /\ visit_flashes o = [("Login error: " ++ e, "error")]
  /\ visit_session o
     = mkSession (Some (u_id u)) (Some (u_username u)) (s_session_id c)
  /\ visit_database o = db.
Proof.
  intros Hpost Hname Hpw Hwf Hin Hu Hcheck Hup Hf0 Hf1.
  pose proof Hwf as Hwf'. destruct db as [t s].
  apply well_formed_spec in Hwf' as (_ & _ & _ & _ & Hnames & _).
  pose proof (select_user_finds t s u Hnames Hin) as Hsel. rewrite Hu in Hsel.
  unfold visit, login. cbn [db_tables db_sequences].
  rewrite Hpost, (falsy_false _ Hname), (falsy_false _ Hpw). cbn [orb].
  unfold_py. cbn. rewrite Hup. cbn. rewrite Hf0, Hsel. cbn.
  rewrite Hcheck. cbn. rewrite Hf1. cbn. repeat split.
Qed.

Lemma login_marks_the_caller_before_the_session_witness :
  let o := visit (login (Sample.env_fault_at 1) SampleAux.check
                    (SampleAux.sign_in "bob" "b")) Sample.db Sample.alice in
  visit_answer o = LoginPage
  /\ visit_flashes o
     = [("Login error: canceling statement due to statement timeout",
         "error")]
  /\ visit_session o = mkSession (Some 2) (Some "bob") (Some 1)
  /\ visit_database o = Sample.db.
Proof.
  apply (login_marks_the_caller_before_the_session (Sample.env_fault_at 1)
           SampleAux.check (SampleAux.sign_in "bob" "b") Sample.db
           Sample.alice (mkUser 2 "bob" "pbkdf2:b" (Some "bob@example.org") 0)
           "canceling statement due to statement timeout");
    solve [reflexivity
          | intros H; vm_compute in H; discriminate H
          | right; now left].
Defined.

(** ** Registration, and signing in afterwards *)

Lemma filter_empty_existsb {A} (f : A -> bool) (l : list A) :
  filter f l = [] -> existsb f l = false.
Proof.
  induction l as [|x l IH]; simpl; trivial.
  destruct (f x); [discriminate|exact IH].
Qed.

(** Like [register_step], and remembers what the queries found. *)
Ltac register_case :=
  cbn;
  match goal with
  | |- context [db_up ?env] => destruct (db_up env) eqn:?
  | |- context [fault ?env ?n] => destruct (fault env n) eqn:?
  | |- context [drops ?env ?n] => destruct (drops env n) eqn:?
  | |- context [PyStr.falsy ?s] => destruct (PyStr.falsy s) eqn:?
  | |- context [match filter ?f ?l with _ => _ end] =>
      destruct (filter f l) eqn:?
  | |- context [Stmt.insert_user ?n ?a ?b ?e ?t ?s] =>
      let H := fresh "Huser" in
      destruct (Stmt.insert_user n a b e t s) as [[[? ?]|?] ?] eqn:H
  | |- context [Stmt.insert_session ?n ?u ?t ?s] =>
      let H := fresh "Hsession" in
      destruct (Stmt.insert_session n u t s) as [[[? ?]|?] ?] eqn:H;
      [apply insert_session_ok in H as [? ?]; subst|]
  end.

Lemma insert_user_id (now id : Z) (name hash : string) (email : option string)
    (t t' : Tables) (s s' : Sequences) :
  Stmt.insert_user now name hash email t s = (Ok (id, t'), s') ->
  id = users_id_seq s
  /\ s' = mkSequences (users_id_seq s + 1) (chat_sessions_id_seq s)
            (chat_messages_id_seq s).
Proof.
  unfold Stmt.insert_user.
  destruct (negb _); [discriminate|].
  destruct (_ || _); [discriminate|].
  now intros [= <- <- <-].
Qed.

(** What a registration that ends with the redirect has done. *)
Lemma register_effect (env : Env) (req : RegisterRequest) (db : Database)
    (c : Session) :
  let o := serve (register env req) db c in
  let name := PyStr.strip (form_username req) in
  let email := PyStr.strip (form_email req) in
  let t := db_tables db in
  let uid := users_id_seq (db_sequences db) in
  let sid := chat_sessions_id_seq (db_sequences db) in
  out_response o = redirect "home" ->
  username_taken t name = false
  /\ name <> EmptyString
  /\ form_password req <> EmptyString
  /\ out_session o = mkSession (Some uid) (Some name) (Some sid)
  /\ db_tables (out_database o)
     = mkTables
         (users t
          ++ [mkUser uid name
                (generate_password_hash env (form_password req))
                (if PyStr.falsy email then None else Some email) (now env)])
         (chat_sessions t ++ [mkChatSession sid (Some uid) (now env)])
         (chat_messages t).
Proof.
  unfold serve, register.
  destruct (is_post req); [|cbn; discriminate].
  destruct (PyStr.falsy (PyStr.strip (form_username req))) eqn:Hname;
    [cbn; discriminate|].
  destruct (PyStr.falsy (form_password req)) eqn:Hpw; [cbn; discriminate|].
  cbn [orb].
  destruct (_ <? _); [cbn; discriminate|].
  unfold Stmt.select_user_by_username, Stmt.select_user_by_email. unfold_py.
  assert (Hne : forall x, PyStr.falsy x = false -> x <> EmptyString)
    by (intros x H ->; discriminate H).
  repeat (register_case; cbn; try discriminate).
  all: intros _;
    match goal with
    | H : Stmt.insert_user _ _ _ _ _ _ = _ |- _ =>
        pose proof (insert_user_id _ _ _ _ _ _ _ _ _ H) as [-> ->];
        apply insert_user_ok in H; subst
    end; cbn.
  all: repeat split; auto.
  all: unfold username_taken; now apply filter_empty_existsb.
Qed.

Lemma insert_user_accepts (now : Z) (name hash : string)
    (email : option string) (db : Database) :
  well_formed db = true ->
  Sql.fits 100 name = true ->
  Sql.fits 255 hash = true ->
  match email with Some e => Sql.fits 255 e = true | None => True end ->
  username_taken (db_tables db) name = false ->
  Stmt.insert_user now name hash email (db_tables db) (db_sequences db)
  = (Ok (users_id_seq (db_sequences db),
         mkTables (users (db_tables db)
                   ++ [mkUser (users_id_seq (db_sequences db)) name hash
                         email now])
                  (chat_sessions (db_tables db))
                  (chat_messages (db_tables db))),
     mkSequences (users_id_seq (db_sequences db) + 1)
                 (chat_sessions_id_seq (db_sequences db))
                 (chat_messages_id_seq (db_sequences db))).
Proof.
  intros Hwf Hname Hhash Hemail Hfree. destruct db as [t s].
  apply well_formed_spec in Hwf as (Hc & _).
  unfold consistent in Hc. cbn in *.
  apply andb_prop in Hc as [Hc _]. apply andb_prop in Hc as [Hc _].
  apply andb_prop in Hc as [Hids _].
  unfold Stmt.insert_user, Stmt.user_exists.
  rewrite Hname, Hhash. cbn.
  replace (match email with Some e => Sql.fits 255 e | None => true end)
    with true by (destruct email; auto).
  cbn. rewrite (existsb_below u_id _ _ Hids).
  unfold username_taken in Hfree. now rewrite Hfree.
Qed.

(** A posted registration with a free, non-empty username of at most 100
    characters, a password of at least six, and an email that is empty or
    free, on a well-formed database that accepts the connection and runs
    every statement, redirects to the home page.  It adds exactly one user,
    holding the stripped name, the hash of the password (not the password)
    and the stripped email or [NULL], and exactly one session of that user;
    the cookie names that user and that session. *)
Theorem register_creates_user_and_session
    (env : Env) (req : RegisterRequest) (db : Database) (c : Session) :
  let name := PyStr.strip (form_username req) in
  let email := PyStr.strip (form_email req) in
  let hash := generate_password_hash env (form_password req) in
  let t := db_tables db in
  let uid := users_id_seq (db_sequences db) in
  let sid := chat_sessions_id_seq (db_sequences db) in
  is_post req = true ->
  name <> EmptyString ->
  min_password_length <= PyStr.len (form_password req) ->
  Sql.fits 100 name = true ->
  Sql.fits 255 hash = true ->
  Sql.fits 255 email = true ->
  username_taken t name = false ->
  email_taken t email = false ->
  well_formed db = true ->
  db_up env = true ->
  no_fault env ->
  let o := serve (register env req) db c in
  out_response o = redirect "home"
  /\ out_session o = mkSession (Some uid) (Some name) (Some sid)
  /\ db_tables (out_database o)
     = mkTables
         (users t
          ++ [mkUser uid name hash
                (if PyStr.falsy email then None else Some email) (now env)])
         (chat_sessions t ++ [mkChatSession sid (Some uid) (now env)])
         (chat_messages t).
Proof.
  intros name email hash t uid sid
    Hpost Hname Hlen Hfn Hfh Hfe Hfree Hmail Hwf Hup Hnf.
  assert (Hpw : PyStr.falsy (form_password req) = false).
  { destruct (form_password req); [|reflexivity].
    unfold min_password_length, PyStr.len in Hlen. cbn in Hlen. lia. }
  subst name email hash t uid sid.
  unfold serve, register.
  rewrite Hpost, (falsy_false _ Hname), Hpw. cbn [orb].
  apply Z.ltb_ge in Hlen. rewrite Hlen.
  unfold Stmt.select_user_by_username, Stmt.select_user_by_email. unfold_py.
  cbn. rewrite Hup. cbn. rewrite (Hnf 0%nat).
  pose proof Hfree as Hfree'.
  unfold username_taken in Hfree'. rewrite (filter_none _ _ Hfree'). cbn.
  pose proof (insert_user_accepts (now env) _ _
                (if PyStr.falsy (PyStr.strip (form_email req)) then None
                 else Some (PyStr.strip (form_email req))) db Hwf Hfn Hfh)
    as Hins.
  assert (Hfresh := well_formed_fresh_session db Hwf).
  destruct (PyStr.falsy (PyStr.strip (form_email req))) eqn:Hempty; cbn.
  - rewrite (Hnf 1%nat), (Hins I Hfree). cbn. rewrite (Hnf 2%nat).
    match goal with
    | |- context [Stmt.insert_session ?n ?u ?t0 ?s0] =>
        destruct (insert_session_accepts n u t0 s0) as (t' & s' & Hs);
          [exact Hfresh
          |unfold Stmt.user_exists; cbn; rewrite existsb_app; cbn;
           now rewrite Z.eqb_refl, orb_true_r
          |rewrite Hs; apply insert_session_ok in Hs as [_ ->]]
    end.
    cbn. rewrite (Hnf 3%nat). cbn. repeat split.
  - rewrite (Hnf 1%nat).
    unfold email_taken in Hmail. rewrite (filter_none _ _ Hmail). cbn.
    rewrite (Hnf 2%nat), (Hins Hfe Hfree). cbn. rewrite (Hnf 3%nat).
    match goal with
    | |- context [Stmt.insert_session ?n ?u ?t0 ?s0] =>
        destruct (insert_session_accepts n u t0 s0) as (t' & s' & Hs);
          [exact Hfresh
          |unfold Stmt.user_exists; cbn; rewrite existsb_app; cbn;
           now rewrite Z.eqb_refl, orb_true_r
          |rewrite Hs; apply insert_session_ok in Hs as [_ ->]]
    end.
    cbn. rewrite (Hnf 4%nat). cbn. repeat split.
Qed.

Lemma register_creates_user_and_session_witness :
  let o := serve (register Sample.env
                    (Sample.sign_up " carol " "secret1" ""))
                 Sample.db anonymous in
  out_response o = redirect "home"
  /\ out_session o = mkSession (Some 3) (Some "carol") (Some 4)
  /\ db_tables (out_database o)
     = mkTables
         (users (db_tables Sample.db)
          ++ [mkUser 3 "carol" "pbkdf2:secret1" None Sample.clock])
         (chat_sessions (db_tables Sample.db)
          ++ [mkChatSession 4 (Some 3) Sample.clock])
         (chat_messages (db_tables Sample.db)).
Proof.
  apply (register_creates_user_and_session Sample.env
           (Sample.sign_up " carol " "secret1" "") Sample.db anonymous);
    solve [reflexivity
          | intros H; vm_compute in H; discriminate H
          | intros n; reflexivity].
Defined.

(** No stored session belongs to the user id that the sequence hands out
    next. *)
Lemma no_session_of_next_user (db : Database) :
  well_formed db = true ->
  filter (fun s => Sql.eq_int (cs_user_id s)
                     (Some (users_id_seq (db_sequences db))))
         (chat_sessions (db_tables db)) = [].
Proof.
  destruct db as [t s]. intros H.
  apply well_formed_spec in H as (Hc & _ & _ & _ & _ & Hfk & _).
  apply consistent_spec in Hc as (Hids & _).
  apply filter_nothing, forallb_forall. intros c Hin.
  specialize (Hfk c Hin). cbn.
  destruct (cs_user_id c) as [x|]; [|reflexivity].
  cbn in *. unfold Stmt.user_exists in Hfk.
  apply existsb_exists in Hfk as (u & Hu & Hid).
  specialize (Hids u Hu). apply Z.eqb_eq in Hid.
  apply negb_true_iff, Z.eqb_neq. lia.
Qed.

(** Registering and then signing in: after a registration that ended with
    the redirect, a login with the same username and password, checked by a
    [check_password_hash] that accepts the stored hash for that password, on
    a database that accepts the connection and runs every statement,
    succeeds; it gives the very cookie the registration gave (the new user
    and the session created at registration) and changes nothing in the
    database. *)
Theorem register_then_login
    (env env' : Env) (check : string -> string -> bool)
    (req : RegisterRequest) (db : Database) (c c' : Session)
    (next : option string) :
  well_formed db = true ->
  let o := serve (register env req) db c in
  out_response o = redirect "home" ->
  check (generate_password_hash env (form_password req)) (form_password req)
  = true ->
  db_up env' = true ->
  no_fault env' ->
  let o' := visit (login env' check
                     (mkLoginRequest true (form_username req)
                        (form_password req) next))
                  (out_database o) c' in
  visit_answer o' = after_login next
  /\ visit_session o' = out_session o
  /\ visit_database o' = out_database o.
Proof.
  intros Hwf o Hok Hcheck Hup Hnf.
  destruct (register_effect env req db c Hok)
    as (Hfree & Hname & Hpw & Hcookie & Htables).
  fold o in Hcookie, Htables.
  pose proof (no_session_of_next_user db Hwf) as Hnone.
  destruct (out_database o) as [t1 s1] eqn:Hdb. cbn in Htables. subst t1.
  rewrite Hcookie.
  unfold visit, login. cbn [login_is_post login_username login_password
                            login_next db_tables db_sequences].
  rewrite (falsy_false _ Hname), (falsy_false _ Hpw). cbn [orb].
  unfold StmtAux.select_user, StmtAux.select_latest_session. unfold_py.
  cbn. rewrite Hup. cbn. rewrite (Hnf 0%nat).
  rewrite filter_app. unfold username_taken in Hfree.
  rewrite (filter_none _ _ Hfree). cbn. rewrite String.eqb_refl. cbn.
  rewrite Hcheck. cbn. rewrite (Hnf 1%nat).
  rewrite filter_app, Hnone. cbn. rewrite Z.eqb_refl. cbn.
  rewrite (Hnf 2%nat). cbn. repeat split.
Qed.

Lemma register_then_login_witness :
  let o := serve (register Sample.env
                    (Sample.sign_up "carol" "secret1" ""))
                 Sample.db anonymous in
  let o' := visit (login Sample.env SampleAux.check
                     (mkLoginRequest true "carol" "secret1" None))
                  (out_database o) anonymous in
  visit_answer o' = Chat (redirect "home")
  /\ visit_session o' = mkSession (Some 3) (Some "carol") (Some 4)
  /\ visit_database o' = out_database o.
Proof.
  apply (register_then_login Sample.env Sample.env SampleAux.check
           (Sample.sign_up "carol" "secret1" "") Sample.db anonymous
           anonymous None);
    solve [reflexivity | intros n; reflexivity].
Defined.

(** ** The route [/new_session] *)

(** For a logged-in user stored in [users], on a well-formed database that
    accepts the connection and runs both the INSERT and the commit,
    [/new_session] answers with the id of a session that did not exist, adds
    exactly that session (owned by the user, without messages) and makes it
    the active one. *)
Theorem new_session_creates_active_session
    (env : Env) (db : Database) (c : Session) (uid : Z) :
  s_user_id c = Some uid ->
  Stmt.user_exists (db_tables db) uid = true ->
  well_formed db = true ->
  db_up env = true ->
  no_fault env ->
  let o := visit (new_session env) db c in
  let t := db_tables db in
  let sid := chat_sessions_id_seq (db_sequences db) in
  visit_answer o = NewSessionCreated sid
  /\ visit_session o = mkSession (Some uid) (s_username c) (Some sid)
  /\ Stmt.session_exists t sid = false
  /\ db_tables (visit_database o)
     = mkTables (users t)
         (chat_sessions t ++ [mkChatSession sid (Some uid) (now env)])
         (chat_messages t)
  /\ messages_in (db_tables (visit_database o)) (Some sid) = [].
Proof.
  intros Hauth Huser Hwf Hup Hnf.
  pose proof (well_formed_fresh_session db Hwf) as Hfresh.
  assert (Hcons : consistent db = true).
  { destruct db. now apply well_formed_spec in Hwf as (Hc & _). }
  pose proof (no_message_in_next_session db Hcons) as Hnone.
  destruct (insert_session_accepts (now env) uid (db_tables db)
              (db_sequences db) Hfresh Huser) as (t' & s' & Hins).
  unfold visit, new_session, new_session_try, login_required_answer,
    get_db_connection, bind, get_session.
  cbn [cookie enter]. rewrite Hauth, Hup. unfold_py. cbn.
  rewrite (Hnf 0%nat), Hins. apply insert_session_ok in Hins as [_ ->].
  cbn. rewrite (Hnf 1%nat). cbn.
  split; [reflexivity|]. split; [now rewrite Hauth|].
  split; [unfold Stmt.session_exists; now apply existsb_below|].
  split; [reflexivity|].
  unfold messages_in. cbn. now apply filter_nothing.
Qed.

Lemma new_session_creates_active_session_witness :
  let o := visit (new_session Sample.env) Sample.db Sample.alice in
  visit_answer o = NewSessionCreated 4
  /\ visit_session o = mkSession (Some 1) (Some "alice") (Some 4)
  /\ Stmt.session_exists (db_tables Sample.db) 4 = false
  /\ db_tables (visit_database o)
     = mkTables (users (db_tables Sample.db))
         (chat_sessions (db_tables Sample.db)
          ++ [mkChatSession 4 (Some 1) Sample.clock])
         (chat_messages (db_tables Sample.db))
  /\ messages_in (db_tables (visit_database o)) (Some 4) = [].
Proof.
  apply (new_session_creates_active_session Sample.env Sample.db
           Sample.alice 1);
    solve [reflexivity | intros n; reflexivity].
Defined.

(** When no connection is obtained, or the INSERT raises, the local
    [session_id] that the final [return] reads was never bound: for a
    logged-in caller [/new_session] ends in the server's 500 page, and the
    tables and the cookie are what they were. *)
Theorem new_session_fails_without_insert
    (env : Env) (db : Database) (c : Session) (uid : Z) :
  s_user_id c = Some uid ->
  db_up env = false \/ fault env 0 <> None ->
  let o := visit (new_session env) db c in
  visit_answer o = Chat (mkResponse ServerError 500)
  /\ db_tables (visit_database o) = db_tables db
  /\ visit_session o = c.
Proof.
  intros Hauth Hfail.
  unfold visit, new_session, new_session_try, login_required_answer,
    get_db_connection, bind, get_session.
  cbn [cookie enter]. rewrite Hauth. unfold_py.
  destruct (db_up env); cbn; [|now repeat split].
  destruct Hfail as [Hfail|Hfail]; [discriminate|].
  destruct (fault env 0); [|now destruct Hfail].
  cbn. destruct (drops env 0); cbn; now repeat split.
Qed.

Lemma new_session_fails_without_insert_witness :
  let o := visit (new_session Sample.env_db_down) Sample.db Sample.alice in
  visit_answer o = Chat (mkResponse ServerError 500)
  /\ db_tables (visit_database o) = db_tables Sample.db
  /\ visit_session o = Sample.alice.
Proof.
  apply (new_session_fails_without_insert Sample.env_db_down Sample.db
           Sample.alice 1); [reflexivity|now left].
Defined.

(** When the INSERT goes through and the commit raises, the cookie's active
    session is the new id.  When the connection stays open the rollback goes
    through: [/new_session] answers with status success and that id although
    no such session is stored, the tables being what they were.  When the
    connection is lost the rollback raises and the answer is the server's
    500 page. *)
Theorem new_session_reports_rolled_back_session
    (env : Env) (db : Database) (c : Session) (uid : Z) (e : string) :
  s_user_id c = Some uid ->
  Stmt.user_exists (db_tables db) uid = true ->
  well_formed db = true ->
  db_up env = true ->
  fault env 0 = None ->
  fault env 1 = Some e ->
  let o := visit (new_session env) db c in
  let sid := chat_sessions_id_seq (db_sequences db) in
  visit_answer o = (if drops env 1 then Chat (mkResponse ServerError 500)
                    else NewSessionCreated sid)
  /\ s_session_id (visit_session o) = Some sid
  /\ (drops env 1 = false ->
      db_tables (visit_database o) = db_tables db
      /\ Stmt.session_exists (db_tables (visit_database o)) sid = false).
Proof.
  intros Hauth Huser Hwf Hup Hf0 Hf1.
  pose proof (well_formed_fresh_session db Hwf) as Hfresh.
  destruct (insert_session_accepts (now env) uid (db_tables db)
              (db_sequences db) Hfresh Huser) as (t' & s' & Hins).
  unfold visit, new_session, new_session_try, login_required_answer,
    get_db_connection, bind, get_session.
  cbn [cookie enter]. rewrite Hauth, Hup. unfold_py. cbn.
  rewrite Hf0, Hins. cbn. rewrite Hf1. cbn.
  destruct (drops env 1); cbn;
    (split; [reflexivity|]; split; [reflexivity|]);
    [discriminate|].
  intros _. split; [reflexivity|].
  unfold Stmt.session_exists. now apply existsb_below.
Qed.

Lemma new_session_reports_rolled_back_session_witness :
  (let o := visit (new_session (Sample.env_fault_at 1)) Sample.db
                  Sample.alice in
   visit_answer o = NewSessionCreated 4
   /\ s_session_id (visit_session o) = Some 4
   /\ (drops (Sample.env_fault_at 1) 1 = false ->
       db_tables (visit_database o) = db_tables Sample.db
       /\ Stmt.session_exists (db_tables (visit_database o)) 4 = false))
  /\ (let o := visit (new_session (Sample.env_lost_at 1)) Sample.db
                     Sample.alice in
      visit_answer o = Chat (mkResponse ServerError 500)
      /\ s_session_id (visit_session o) = Some 4
      /\ (drops (Sample.env_lost_at 1) 1 = false ->
          db_tables (visit_database o) = db_tables Sample.db
          /\ Stmt.session_exists (db_tables (visit_database o)) 4 = false)).
Proof.
  split.
  - apply (new_session_reports_rolled_back_session (Sample.env_fault_at 1)
             Sample.db Sample.alice 1
             "canceling statement due to statement timeout");
      reflexivity.
  - apply (new_session_reports_rolled_back_session (Sample.env_lost_at 1)
             Sample.db Sample.alice 1
             "server closed the connection unexpectedly");
      reflexivity.
Defined.

(** ** The route [/health] *)

(** [/health] needs no login and changes neither database nor cookie.  It
    reports the database as connected exactly when the connection was
    obtained and [SELECT version()] ran, the model as initialized exactly
    when it is, and the system as healthy exactly when both hold. *)
Theorem health_check_reports_both_parts
    (env : Env) (db : Database) (c : Session) :
  let o := visit (health_check env) db c in
  let connected :=
    db_up env && match fault env 0 with None => true | Some _ => false end in
  visit_answer o
  = Health (if connected && model_ready env then "healthy" else "unhealthy")
           (if connected then "connected" else "disconnected")
           (if model_ready env then "initialized" else "not initialized")
           (strftime_ymd_hms (wall_clock env))
  /\ visit_database o = db
  /\ visit_session o = c.
Proof.
  unfold visit, health_check, test_db_connection, get_db_connection,
    StmtAux.select_version.
  unfold_py. cbn.
  destruct (db_up env); cbn; [|rewrite database_eta; now repeat split].
  destruct (fault env 0); cbn; rewrite database_eta; now repeat split.
Qed.

(** ** The page [/] *)

(** Fetching the messages of a session changes at most the statement
    counter and the state of the connection. *)
Lemma execute_select_messages (env : Env) (sid : Z) (w : World) :
  exists r b k n,
    execute env (Stmt.select_messages (tie_messages env) sid) w
    = (r, mkWorld (committed w) (work w) (seqs w) b k n (cookie w) (flashes w)
            (ai_log w))
    /\ match r with
       | Ok messages =>
           messages = listed_messages (tie_messages env) (work w) sid
       | Raise _ => True
       end.
Proof.
  unfold execute. rewrite select_messages_listed.
  destruct (closed w); [|destruct (fault env (ops w)); [|destruct (aborted w)]];
    do 4 eexists; (split; [reflexivity|]); cbn; trivial.
Qed.

Lemma home_loop_spec (env : Env) (current : option Z) (uid : Z) (t : Tables)
    (rows : list ChatSession) :
  (forall r, In r rows -> owns t uid (cs_id r) = true) ->
  let listed := listed_messages (tie_messages env) t in
  forall (acc : list SessionView) (cur : list MessageView) (w : World),
    work w = t ->
    (forall v, In v acc ->
       owns t uid (sv_session_id v) = true
       /\ sv_messages v = listed (sv_session_id v)) ->
    (cur = [] \/ exists sid, current = Some sid /\ owns t uid sid = true
                             /\ cur = listed sid) ->
    exists acc' cur' b k n,
      home_loop env current rows acc cur w
      = (Ok (acc', cur'),
         mkWorld (committed w) (work w) (seqs w) b k n (cookie w) (flashes w)
                 (ai_log w))
      /\ (forall v, In v acc' ->
            owns t uid (sv_session_id v) = true
            /\ sv_messages v = listed (sv_session_id v))
      /\ (cur' = [] \/ exists sid, current = Some sid /\ owns t uid sid = true
                                   /\ cur' = listed sid).
Proof.
  intros Hrows listed.
  induction rows as [|row rows IH]; intros acc cur w Hw Hacc Hcur.
  - cbn. exists acc, cur, (aborted w), (closed w), (ops w).
    split; [now destruct w|split; assumption].
  - cbn [home_loop]. unfold try_except, bind.
    destruct (execute_select_messages env (cs_id row) w)
      as (r & b & k & n & -> & Hr).
    destruct r as [messages|e].
    + subst messages. rewrite Hw. fold (listed (cs_id row)).
      edestruct (IH (fun r H => Hrows r (or_intror H))
                   (acc ++ [mkSessionView (cs_id row)
                              (Clock.strftime_ymd_hm (cs_created_at row))
                              (listed (cs_id row))])%list
                   (if Sql.eq_int (Some (cs_id row)) current
                    then listed (cs_id row) else cur)
                   (mkWorld (committed w) t (seqs w) b k n (cookie w)
                      (flashes w) (ai_log w)))
        as (acc' & cur' & b' & k' & n' & -> & Hacc' & Hcur').
      * reflexivity.
      * intros v [Hv|[<-|[]]]%in_app_iff; [now apply Hacc|].
        cbn. split; [apply Hrows; now left|reflexivity].
      * destruct current as [sid|]; cbn; [|exact Hcur].
        destruct (Z.eqb_spec (cs_id row) sid) as [<-|_]; [|exact Hcur].
        right. exists (cs_id row). repeat split. apply Hrows. now left.
      * cbn. exists acc', cur', b', k', n'.
        split; [reflexivity|split; assumption].
    + exists acc, cur, b, k, n. split; [reflexivity|split; assumption].
Qed.

(** The sessions [home] and [login] fetch for a user, for a choice [tie]
    between sessions created at the same time. *)
Lemma select_sessions_rows (tie : Z -> Z -> bool) (t : Tables) (s : Sequences)
    (uid : Z) :
  Stmt.select_sessions tie uid t s
  = (Ok (Sql.order_by (Sql.desc cs_created_at) (Sql.by_key cs_id tie)
           (sessions_of t uid), t), s).
Proof. reflexivity. Qed.

Lemma listed_sessions_owned (tie : Z -> Z -> bool) (t : Tables) (uid : Z)
    (r : ChatSession) :
  In r (Sql.order_by (Sql.desc cs_created_at) (Sql.by_key cs_id tie)
          (sessions_of t uid)) ->
  owns t uid (cs_id r) = true.
Proof.
  intros Hin. apply sessions_of_owns.
  eapply Permutation_in; [apply Permutation_sym, order_by_perm|exact Hin].
Qed.

Lemma home_run (env : Env) (db : Database) (c : Session) (uid : Z) :
  s_user_id c = Some uid ->
  let t := db_tables db in
  let listed := listed_messages (tie_messages env) t in
  exists sessions history b k n,
    home env (enter db c)
    = (Ok (render_template
             (IndexPage sessions history (s_username c) (s_session_id c))),
       mkWorld t t (db_sequences db) b k n c [] [])
    /\ (forall v, In v sessions ->
          owns t uid (sv_session_id v) = true
          /\ sv_messages v = listed (sv_session_id v))
    /\ (history = []
        \/ exists sid, s_session_id c = Some sid
                       /\ owns t uid sid = true
                       /\ history = listed sid).
Proof.
  intros Hauth t listed.
  assert (Hnothing : forall v : SessionView, In v [] ->
            owns t uid (sv_session_id v) = true
            /\ sv_messages v = listed (sv_session_id v))
    by (intros v []).
  unfold home, login_required, get_db_connection, bind, get_session.
  cbn [cookie enter]. rewrite Hauth.
  destruct (db_up env).
  - unfold finally, try_except, execute.
    cbn [ops aborted closed work seqs enter committed cookie flashes ai_log].
    destruct (fault env 0).
    + cbn. exists [], [], false, true, 1%nat.
      split; [reflexivity|split; [exact Hnothing|now left]].
    + rewrite select_sessions_rows.
      match goal with
      | |- context [home_loop env ?cur ?rows [] [] ?w] =>
          edestruct (home_loop_spec env cur uid t rows
                       (listed_sessions_owned (tie_sessions env) t uid) [] [] w)
            as (acc' & cur' & b & k & n & -> & Hacc & Hcur);
            [reflexivity|exact Hnothing|now left|]
      end.
      cbn. exists acc', cur', false, true, n.
      split; [reflexivity|split; assumption].
  - cbn. exists [], [], false, false, 0%nat.
    split; [reflexivity|split; [exact Hnothing|now left]].
Qed.

(** Whatever the environment does, the page [/] of a logged-in user changes
    neither database nor cookie and calls no model; every session it lists
    is one of the user's own, shown with the messages of that session; and
    the current chat it shows is empty or the messages of the active
    session, which is then one of the user's own. *)
Theorem home_shows_only_own_sessions
    (env : Env) (db : Database) (c : Session) (uid : Z) :
  s_user_id c = Some uid ->
  let o := serve (home env) db c in
  let t := db_tables db in
  let listed := listed_messages (tie_messages env) t in
  out_database o = db
  /\ out_session o = c
  /\ out_ai_calls o = []
  /\ exists sessions history,
       out_response o
       = render_template
           (IndexPage sessions history (s_username c) (s_session_id c))
       /\ (forall v, In v sessions ->
             owns t uid (sv_session_id v) = true
             /\ sv_messages v = listed (sv_session_id v))
       /\ (history = []
           \/ exists sid, s_session_id c = Some sid
                          /\ owns t uid sid = true
                          /\ history = listed sid).
Proof.
  intros Hauth.
  destruct (home_run env db c uid Hauth)
    as (sessions & history & b & k & n & Hrun & Hs & Hh).
  unfold serve. rewrite Hrun. cbn. rewrite database_eta.
  split; [reflexivity|]. split; [reflexivity|]. split; [reflexivity|].
  exists sessions, history. split; [reflexivity|split; assumption].
Qed.

Lemma home_shows_only_own_sessions_witness :
  let o := serve (home (Sample.env_fault_at 2)) Sample.db Sample.alice in
  let t := db_tables Sample.db in
  let listed := listed_messages Sample.lower_id_first t in
  out_database o = Sample.db
  /\ out_session o = Sample.alice
  /\ out_ai_calls o = []
  /\ exists sessions history,
       out_response o
       = render_template (IndexPage sessions history (Some "alice") (Some 1))
       /\ (forall v, In v sessions ->
             owns t 1 (sv_session_id v) = true
             /\ sv_messages v = listed (sv_session_id v))
       /\ (history = []
           \/ exists sid, Some 1 = Some sid
                          /\ owns t 1 sid = true
                          /\ history = listed sid).
Proof.
  apply (home_shows_only_own_sessions (Sample.env_fault_at 2) Sample.db
           Sample.alice 1).
  reflexivity.
Defined.

Lemma home_loop_run (env : Env) (current : option Z)
    (rows : list ChatSession) :
  no_fault env ->
  let tie := tie_messages env in
  forall (acc : list SessionView) (cur : list MessageView) (w : World),
    aborted w = false ->
    closed w = false ->
    exists n,
      home_loop env current rows acc cur w
      = (Ok ((acc ++ map (session_entry tie (work w)) rows)%list,
             fold_left
               (fun shown row =>
                  if Sql.eq_int (Some (cs_id row)) current
                  then listed_messages tie (work w) (cs_id row) else shown)
               rows cur),
         mkWorld (committed w) (work w) (seqs w) false false n (cookie w)
                 (flashes w) (ai_log w)).
Proof.
  intros Hnf tie.
  induction rows as [|row rows IH]; intros acc cur w Hw Hopen.
  - cbn. exists (ops w). rewrite app_nil_r. destruct w. cbn in *. now subst.
  - cbn [home_loop]. unfold try_except, bind, execute.
    rewrite Hopen, (Hnf (ops w)), Hw, select_messages_listed.
    match goal with
    | |- context [home_loop env current rows ?a ?k ?w1] =>
        destruct (IH a k w1 eq_refl eq_refl) as (n & ->)
    end.
    cbn. exists n. now rewrite <- app_assoc.
Qed.

Lemma shown_after_loop (listed : Z -> list MessageView) (sid : Z)
    (rows : list ChatSession) (cur : list MessageView) :
  fold_left
    (fun shown row =>
       if Sql.eq_int (Some (cs_id row)) (Some sid)
       then listed (cs_id row) else shown)
    rows cur
  = if existsb (fun row => cs_id row =? sid) rows
    then listed sid else cur.
Proof.
  revert cur. induction rows as [|row rows IH]; intros cur; cbn; trivial.
  rewrite IH. destruct (Z.eqb_spec (cs_id row) sid) as [->|_]; cbn; trivial.
  now destruct (existsb _ rows).
Qed.

Lemma shown_without_session (listed : Z -> list MessageView)
    (rows : list ChatSession) (cur : list MessageView) :
  fold_left
    (fun shown row =>
       if Sql.eq_int (Some (cs_id row)) None
       then listed (cs_id row) else shown)
    rows cur = cur.
Proof. revert cur. induction rows as [|row rows IH]; intros cur; cbn; auto. Qed.

Lemma existsb_permutation {A} (p : A -> bool) (l l' : list A) :
  Permutation l l' -> existsb p l = existsb p l'.
Proof.
  intros H. induction H; cbn; trivial.
  - now rewrite IHPermutation.
  - now rewrite !orb_assoc, (orb_comm (p y)).
  - congruence.
Qed.

Lemma owns_among_sessions (t : Tables) (uid sid : Z) :
  existsb (fun row => cs_id row =? sid) (sessions_of t uid) = owns t uid sid.
Proof.
  unfold owns, sessions_of.
  induction (chat_sessions t) as [|s l IH]; cbn; trivial.
  destruct (Sql.eq_int (cs_user_id s) (Some uid)); cbn.
  - now rewrite IH, andb_true_r.
  - now rewrite IH, andb_false_r.
Qed.

(** When the connection is obtained and every query runs, the page [/] of
    a logged-in user lists exactly the user's sessions, each once, newest
    first by [created_at], each with the messages of that session; the
    current chat is empty when the cookie names no session or a session
    that is not the user's. *)
Theorem home_lists_sessions_newest_first
    (env : Env) (db : Database) (c : Session) (uid : Z) :
  s_user_id c = Some uid ->
  db_up env = true ->
  no_fault env ->
  let o := serve (home env) db c in
  let t := db_tables db in
  exists rows history,
    Permutation (sessions_of t uid) rows
    /\ Sorted (fun a b => cs_created_at b <= cs_created_at a) rows
    /\ out_response o
       = render_template
           (IndexPage (map (session_entry (tie_messages env) t) rows) history
                      (s_username c) (s_session_id c))
    /\ (match s_session_id c with
        | Some sid => owns t uid sid = false
        | None => True
        end -> history = []).
Proof.
  intros Hauth Hup Hnf.
  exists (Sql.order_by (Sql.desc cs_created_at)
            (Sql.by_key cs_id (tie_sessions env))
            (sessions_of (db_tables db) uid)).
  exists (match s_session_id c with
          | Some sid =>
              if owns (db_tables db) uid sid
              then listed_messages (tie_messages env) (db_tables db) sid
              else []
          | None => []
          end).
  split; [apply order_by_perm|]. split.
  { pose proof (order_by_sorted (Sql.desc cs_created_at)
                  (Sql.by_key cs_id (tie_sessions env))
                  (desc_total cs_created_at)
                  (sessions_of (db_tables db) uid)) as H.
    induction H as [|a l Hs IH Hhd]; constructor; trivial.
    destruct Hhd; constructor. unfold Sql.desc in *. now apply Z.leb_le. }
  split.
  2: { destruct (s_session_id c) as [sid|]; [|reflexivity].
       now intros ->. }
  unfold serve, home, login_required, get_db_connection, bind, get_session.
  cbn [cookie enter]. rewrite Hauth, Hup.
  unfold finally, try_except, execute.
  cbn [ops aborted closed work seqs enter committed cookie flashes ai_log].
  rewrite (Hnf 0%nat), select_sessions_rows.
  match goal with
  | |- context [home_loop env ?cur ?rows [] [] ?w] =>
      destruct (home_loop_run env cur rows Hnf [] [] w eq_refl eq_refl)
        as (n & ->)
  end.
  unfold close, ret.
  cbn [fst snd committed work seqs cookie flashes ai_log out_response
       app].
  unfold render_template. do 2 f_equal.
  destruct (s_session_id c) as [sid|].
  - rewrite (shown_after_loop
               (listed_messages (tie_messages env) (db_tables db))).
    rewrite <- (existsb_permutation _ _ _
                  (order_by_perm (Sql.desc cs_created_at)
                     (Sql.by_key cs_id (tie_sessions env))
                     (sessions_of (db_tables db) uid))).
    now rewrite owns_among_sessions.
  - apply (shown_without_session
             (listed_messages (tie_messages env) (db_tables db))).
Qed.

Lemma home_lists_sessions_newest_first_witness :
  let o := serve (home Sample.env) Sample.db Sample.alice_stale in
  let t := db_tables Sample.db in
  exists rows history,
    Permutation (sessions_of t 1) rows
    /\ Sorted (fun a b => cs_created_at b <= cs_created_at a) rows
    /\ out_response o
       = render_template
           (IndexPage (map (session_entry Sample.lower_id_first t) rows)
                      history (Some "alice") (Some 9))
    /\ (owns t 1 9 = false -> history = []).
Proof.
  apply (home_lists_sessions_newest_first Sample.env Sample.db
           Sample.alice_stale 1);
    solve [reflexivity | intros n; reflexivity].
Defined.

(** ** More on [/ask] *)

(** Splits on what the environment, the model and the INSERT decide next. *)
Ltac ask_step :=
  cbn;
  match goal with
  | |- context [db_up ?env] => destruct (db_up env) eqn:?
  | |- context [fault ?env ?n] => destruct (fault env n) eqn:?
  | |- context [drops ?env ?n] => destruct (drops env n) eqn:?
  | |- context [send_message ?env ?h ?m] =>
      destruct (send_message env h m) eqn:?
  | |- context [Stmt.insert_message ?n ?a ?b ?m ?r ?t ?s] =>
      let H := fresh "Hins" in
      destruct (Stmt.insert_message n a b m r t s) as [[[[] ?]|?] ?] eqn:H;
      [apply insert_message_ok in H; subst|]
  end.

(** Whatever the request, the cookie and the environment are, [/ask] leaves
    [users], [chat_sessions] and the cookie alone, calls the model at most
    once, and either leaves [chat_messages] alone or adds one row at its
    end, stamped with the session and the user of the cookie. *)
Theorem ask_only_appends_one_message
    (env : Env) (req : AskRequest) (db : Database) (c : Session) :
  let o := serve (ask env req) db c in
  let t := db_tables db in
  let t' := db_tables (out_database o) in
  users t' = users t
  /\ chat_sessions t' = chat_sessions t
  /\ out_session o = c
  /\ (List.length (out_ai_calls o) <= 1)%nat
  /\ (chat_messages t' = chat_messages t
      \/ exists row,
           chat_messages t' = (chat_messages t ++ [row])%list
           /\ cm_session_id row = s_session_id c
           /\ cm_user_id row = s_user_id c
           /\ cm_timestamp row = now env).
Proof.
  unfold serve, ask, login_required, ask_try, stripped_message,
    get_db_connection, Stmt.select_history.
  unfold_py. cbn.
  destruct (s_user_id c) as [uid|] eqn:Hauth; [|cbn; auto 6].
  destruct (ask_is_json req); [|cbn; auto 6].
  destruct (ask_message req) as [|text|]; cbn; [auto 6| |auto 6].
  destruct (PyStr.falsy _); [cbn; auto 6|].
  destruct (String.eqb _ _); [cbn; auto 6|].
  destruct (model_ready env); [|cbn; auto 6].
  repeat (ask_step; cbn; try solve [auto 6]).
  all: repeat split; auto; right; eexists; (split; [reflexivity|]);
    cbn; now repeat split.
Qed.

(** When the model object is missing, a logged-in caller whose message
    passed the checks gets the error "AI model not initialized..." with
    status 200; no statement runs and no model is called. *)
Theorem ask_without_model
    (env : Env) (req : AskRequest) (db : Database) (c : Session)
    (uid : Z) (text : string) :
  s_user_id c = Some uid ->
  ask_is_json req = true ->
  ask_message req = Text text ->
  PyStr.strip text <> EmptyString ->
  PyStr.lower (PyStr.strip text) <> "exit" ->
  model_ready env = false ->
  serve (ask env req) db c
  = mkOutcome
      (mkResponse
         (JsonError
            "AI model not initialized. Please check API key and model availability.")
         200)
      db c [] [].
Proof.
  intros Hauth Hjson Hmsg Hne Hexit Hmodel.
  unfold serve, ask, login_required, bind, get_session, ret;
    cbn [cookie enter].
  rewrite Hauth, Hjson, Hmsg. cbn [negb stripped_message ret].
  rewrite (falsy_false _ Hne).
  apply String.eqb_neq in Hexit. rewrite Hexit, Hmodel. cbn.
  now rewrite database_eta.
Qed.

Lemma ask_without_model_witness :
  serve (ask (mkEnv true (fun _ => None) (fun _ => false) Sample.lower_id_first
                 Sample.lower_id_first 0 0 false Sample.echo Sample.salted)
             (Sample.say "hi")) Sample.db Sample.alice
  = mkOutcome
      (mkResponse
         (JsonError
            "AI model not initialized. Please check API key and model availability.")
         200)
      Sample.db Sample.alice [] [].
Proof.
  apply (ask_without_model
           (mkEnv true (fun _ => None) (fun _ => false) Sample.lower_id_first
                 Sample.lower_id_first 0 0 false Sample.echo Sample.salted)
           (Sample.say "hi") Sample.db Sample.alice 1 "hi");
    solve [reflexivity | intros H; vm_compute in H; discriminate H].
Defined.

(** A JSON body whose [message] is not text (a number, [null], a list) is
    stripped outside every [try]: for a logged-in caller the request ends in
    the server's 500 page; nothing is written and no model is called. *)
Theorem ask_message_that_is_not_text
    (env : Env) (req : AskRequest) (db : Database) (c : Session) (uid : Z) :
  s_user_id c = Some uid ->
  ask_is_json req = true ->
  ask_message req = NotText ->
  serve (ask env req) db c
  = mkOutcome (mkResponse ServerError 500) db c [] [].
Proof.
  intros Hauth Hjson Hmsg.
  unfold serve, ask, login_required, bind, get_session, ret;
    cbn [cookie enter].
  rewrite Hauth, Hjson, Hmsg. cbn. now rewrite database_eta.
Qed.

Lemma ask_message_that_is_not_text_witness :
  serve (ask Sample.env (mkAskRequest true NotText)) Sample.db Sample.alice
  = mkOutcome (mkResponse ServerError 500) Sample.db Sample.alice [] [].
Proof.
  apply (ask_message_that_is_not_text Sample.env (mkAskRequest true NotText)
           Sample.db Sample.alice 1); reflexivity.
Defined.

Lemma insert_message_refused (now sid : Z) (uid : option Z)
    (msg resp : string) (t : Tables) (s : Sequences) :
  Stmt.session_exists t sid = false ->
  exists e s',
    Stmt.insert_message now (Some sid) uid msg resp t s = (Raise e, s').
Proof.
  intros Hmissing. unfold Stmt.insert_message.
  destruct (existsb _ _); [eauto|]. cbn. rewrite Hmissing. cbn. eauto.
Qed.

(** When the cookie's active session is not stored (it was cleared from
    another browser, or its creation was rolled back), [/ask] stores
    nothing, whatever the model answers and the environment does: the
    foreign key of [chat_messages.session_id] refuses the row. *)
Theorem ask_stores_nothing_without_the_session
    (env : Env) (req : AskRequest) (db : Database) (c : Session) (sid : Z) :
  s_session_id c = Some sid ->
  Stmt.session_exists (db_tables db) sid = false ->
  db_tables (out_database (serve (ask env req) db c)) = db_tables db.
Proof.
  intros Hsid Hmissing.
  unfold serve, ask, login_required, ask_try, stripped_message,
    get_db_connection, Stmt.select_history.
  unfold_py. cbn.
  destruct (s_user_id c) as [uid|]; [|reflexivity].
  destruct (ask_is_json req); [|reflexivity].
  destruct (ask_message req) as [|text|]; cbn; trivial.
  destruct (PyStr.falsy _); [reflexivity|].
  destruct (String.eqb _ _); [reflexivity|].
  destruct (model_ready env); [|reflexivity].
  cbn. rewrite Hsid.
  repeat (cbn;
          match goal with
          | |- context [db_up ?env] => destruct (db_up env)
          | |- context [fault ?env ?n] => destruct (fault env n)
          | |- context [drops ?env ?n] => destruct (drops env n)
          | |- context [send_message ?env ?h ?m] =>
              destruct (send_message env h m)
          | |- context [Stmt.insert_message ?n (Some sid) ?u ?m ?r ?t ?s] =>
              destruct (insert_message_refused n sid u m r t s Hmissing)
                as (? & ? & ->)
          end);
    reflexivity.
Qed.

Lemma ask_stores_nothing_without_the_session_witness :
  db_tables (out_database (serve (ask Sample.env (Sample.say "hi"))
                             Sample.db Sample.alice_stale))
  = db_tables Sample.db.
Proof.
  apply (ask_stores_nothing_without_the_session Sample.env (Sample.say "hi")
           Sample.db Sample.alice_stale 9); reflexivity.
Defined.

(** ** More on [/switch_session] *)

(** Whatever the request and the environment are, [/switch_session] never
    changes the database, and the cookie of a logged-in caller is afterwards
    either what it was or differs only in its active session, which is then
    the requested one and one of the caller's own. *)
Theorem switch_session_never_adopts_foreign_session
    (env : Env) (req : SwitchRequest) (db : Database) (c : Session)
    (uid : Z) :
  s_user_id c = Some uid ->
  let o := serve (switch_session env req) db c in
  out_database o = db
  /\ (out_session o = c
      \/ exists sid,
           switch_session_id req = Some sid
           /\ owns (db_tables db) uid sid = true
           /\ out_session o = mkSession (Some uid) (s_username c) (Some sid)).
Proof.
  intros Hauth.
  unfold serve, switch_session, login_required, get_db_connection, bind,
    get_session.
  cbn [cookie enter]. rewrite Hauth.
  destruct (switch_is_json req); cbn; [|rewrite database_eta; auto].
  destruct (switch_session_id req) as [sid|]; cbn;
    [|rewrite database_eta; auto].
  destruct (sid =? 0); cbn; [rewrite database_eta; auto|].
  destruct (select_owned_session_spec (db_tables db) (db_sequences db) sid uid)
    as (found & Hsel & Hnone & Hsome).
  unfold_py. env_case; cbn; [|rewrite database_eta; auto].
  env_case; cbn; [rewrite database_eta; auto|].
  rewrite Hsel. destruct found as [id|]; cbn; [|rewrite database_eta; auto].
  assert (Howns : owns (db_tables db) uid sid = true).
  { destruct (owns (db_tables db) uid sid); [reflexivity|].
    now specialize (Hnone eq_refl). }
  env_case; [|rewrite select_messages_listed]; cbn; rewrite database_eta;
    (split; [reflexivity|right; exists sid; rewrite <- Hauth; auto]).
Qed.

Lemma switch_session_never_adopts_foreign_session_witness :
  let o := serve (switch_session (Sample.env_fault_at 1)
                    (mkSwitchRequest true (Some 2)))
                 Sample.db Sample.alice in
  out_database o = Sample.db
  /\ (out_session o = Sample.alice
      \/ exists sid,
           Some 2 = Some sid
           /\ owns (db_tables Sample.db) 1 sid = true
           /\ out_session o = mkSession (Some 1) (Some "alice") (Some sid)).
Proof.
  apply (switch_session_never_adopts_foreign_session (Sample.env_fault_at 1)
           (mkSwitchRequest true (Some 2)) Sample.db Sample.alice 1).
  reflexivity.
Defined.

(** The active session is switched before the messages are fetched: when
    the caller owns the session and the second query raises, the caller
    gets the error with status 500 and yet the cookie's active session is
    the requested one. *)
Theorem switch_session_switches_before_listing
    (env : Env) (req : SwitchRequest) (db : Database) (c : Session)
    (uid sid : Z) (e : string) :
  s_user_id c = Some uid ->
  switch_is_json req = true ->
  switch_session_id req = Some sid ->
  sid <> 0 ->
  owns (db_tables db) uid sid = true ->
  db_up env = true ->
  fault env 0 = None ->
  fault env 1 = Some e ->
  let o := serve (switch_session env req) db c in
  out_response o = mkResponse (JsonError e) 500
  /\ out_session o = mkSession (Some uid) (s_username c) (Some sid)
  /\ out_database o = db.
Proof.
  intros Hauth Hjson Hreq Hsid Howns Hup Hf0 Hf1.
  destruct (select_owned_session_spec (db_tables db) (db_sequences db) sid uid)
    as (found & Hsel & Hnone & Hsome).
  unfold serve, switch_session, login_required, get_db_connection, bind,
    get_session.
  cbn [cookie enter]. rewrite Hauth, Hreq, Hjson.
  apply Z.eqb_neq in Hsid. rewrite Hsid, Hup. cbn [negb].
  destruct found as [id|]; [|now destruct (Hsome Howns)].
  unfold_py. cbn. rewrite Hf0, Hsel. cbn. rewrite Hf1. cbn.
  rewrite database_eta, Hauth. repeat split.
Qed.

Lemma switch_session_switches_before_listing_witness :
  let o := serve (switch_session (Sample.env_fault_at 1)
                    (mkSwitchRequest true (Some 2)))
                 Sample.db Sample.alice in
  out_response o
  = mkResponse (JsonError "canceling statement due to statement timeout") 500
  /\ out_session o = mkSession (Some 1) (Some "alice") (Some 2)
  /\ out_database o = Sample.db.
Proof.
  apply (switch_session_switches_before_listing (Sample.env_fault_at 1)
           (mkSwitchRequest true (Some 2)) Sample.db Sample.alice 1 2
           "canceling statement due to statement timeout");
    solve [reflexivity | discriminate].
Defined.

(** The messages that a successful [/switch_session] returns are the views
    of the rows of the session in ascending order of their [timestamp]
    text, the clock time [HH24:MI] without the date. *)
Theorem switch_session_lists_by_clock_text
    (env : Env) (req : SwitchRequest) (db : Database) (c : Session)
    (uid sid : Z) :
  s_user_id c = Some uid ->
  switch_is_json req = true ->
  switch_session_id req = Some sid ->
  sid <> 0 ->
  owns (db_tables db) uid sid = true ->
  db_up env = true ->
  no_fault env ->
  let o := serve (switch_session env req) db c in
  exists messages,
    out_response o = jsonify (JsonMessages messages)
    /\ Permutation (map Stmt.view (messages_in (db_tables db) (Some sid)))
                   messages
    /\ Sorted (fun a b => String.leb (mv_timestamp a) (mv_timestamp b) = true)
              messages.
Proof.
  intros Hauth Hjson Hreq Hsid Howns Hup Hnf.
  destruct (select_owned_session_spec (db_tables db) (db_sequences db) sid uid)
    as (found & Hsel & Hnone & Hsome).
  exists (listed_messages (tie_messages env) (db_tables db) sid).
  destruct (listed_messages_ordered (tie_messages env) (db_tables db) sid)
    as [Hperm Hsorted].
  split; [|split; assumption].
  unfold serve, switch_session, login_required, get_db_connection, bind,
    get_session.
  cbn [cookie enter]. rewrite Hauth, Hreq, Hjson.
  apply Z.eqb_neq in Hsid. rewrite Hsid, Hup. cbn [negb].
  destruct found as [id|]; [|now destruct (Hsome Howns)].
  unfold_py. cbn. rewrite (Hnf 0%nat), Hsel. cbn.
  now rewrite (Hnf 1%nat), select_messages_listed.
Qed.

Lemma switch_session_lists_by_clock_text_witness :
  let o := serve (switch_session Sample.env (mkSwitchRequest true (Some 1)))
                 Sample.db Sample.alice in
  exists messages,
    out_response o = jsonify (JsonMessages messages)
    /\ Permutation
         (map Stmt.view (messages_in (db_tables Sample.db) (Some 1)))
         messages
    /\ Sorted (fun a b => String.leb (mv_timestamp a) (mv_timestamp b) = true)
              messages.
Proof.
  apply (switch_session_lists_by_clock_text Sample.env
           (mkSwitchRequest true (Some 1)) Sample.db Sample.alice 1 1);
    solve [reflexivity | discriminate | intros n; reflexivity].
Defined.

(** ** More on [/clear_history] *)

(** The three states [/clear_history] can leave the tables in: untouched,
    cleared, or cleared with the fresh session. *)
Lemma clear_history_cases (env : Env) (db : Database) (c : Session)
    (uid : Z) :
  s_user_id c = Some uid ->
  let t := db_tables db in
  let t' := db_tables (out_database (serve (clear_history env) db c)) in
  t' = t
  \/ t' = cleared t uid
  \/ exists id,
       t' = mkTables (users t)
              (chat_sessions (cleared t uid)
               ++ [mkChatSession id (Some uid) (now env)])
              (chat_messages (cleared t uid)).
Proof.
  intros Hauth.
  unfold serve, clear_history, login_required, get_db_connection, bind,
    get_session.
  cbn [cookie enter]. rewrite Hauth.
  unfold Stmt.delete_messages_of, Stmt.delete_sessions_of. unfold_py.
  env_case; [|cbn; auto].
  repeat (env_case; cbn; try solve [auto]).
  all: try match goal with
       | |- context [Stmt.insert_session ?n ?u ?t ?s] =>
           destruct (Stmt.insert_session n u t s) as [[[id t']|e] s'] eqn:Hins;
           cbn; [apply insert_session_ok in Hins as [_ ->]|]
       end.
  all: repeat (env_case; cbn).
  all: solve [auto
             | right; left; reflexivity
             | right; right; eexists; reflexivity].
Qed.

Lemma filter_filter_implied {A} (f g : A -> bool) (l : list A) :
  (forall x, f x = true -> g x = true) ->
  filter f (filter g l) = filter f l.
Proof.
  intros H. induction l as [|x l IH]; cbn; trivial.
  destruct (g x) eqn:Hg; cbn.
  - now rewrite IH.
  - destruct (f x) eqn:Hf; [|exact IH].
    rewrite (H x Hf) in Hg. discriminate.
Qed.

Lemma cleared_spares (t : Tables) (uid v : Z) :
  v <> uid ->
  sessions_of (cleared t uid) v = sessions_of t v
  /\ filter (foreign_to t uid) (chat_messages (cleared t uid))
     = filter (foreign_to t uid) (chat_messages t).
Proof.
  intros Hv. unfold sessions_of, cleared. cbn. split.
  - apply filter_filter_implied. intros s Hs.
    destruct (cs_user_id s) as [x|]; [|discriminate]. cbn in *.
    apply Z.eqb_eq in Hs. subst x. apply negb_true_iff, Z.eqb_neq. lia.
  - rewrite !filter_filter_implied; trivial.
    + intros m [H _]%andb_prop. exact H.
    + intros m [_ H]%andb_prop. exact H.
Qed.

(** Whatever the environment does, [/clear_history] by one user leaves the
    other users as they are: the [users] table is unchanged, every other
    user keeps exactly their sessions, and the messages that the caller
    neither wrote nor has in one of their sessions are all kept, in
    order. *)
Theorem clear_history_spares_other_users
    (env : Env) (db : Database) (c : Session) (uid v : Z) :
  s_user_id c = Some uid ->
  v <> uid ->
  let t := db_tables db in
  let t' := db_tables (out_database (serve (clear_history env) db c)) in
  users t' = users t
  /\ sessions_of t' v = sessions_of t v
  /\ filter (foreign_to t uid) (chat_messages t')
     = filter (foreign_to t uid) (chat_messages t).
Proof.
  intros Hauth Hv.
  destruct (cleared_spares (db_tables db) uid v Hv) as [Hs Hm].
  destruct (clear_history_cases env db c uid Hauth) as [->|[->|(id & ->)]].
  - now repeat split.
  - now repeat split.
  - split; [reflexivity|]. split; [|exact Hm].
    unfold sessions_of in *. cbn [chat_sessions] in *.
    rewrite filter_app, Hs. cbn.
    destruct (Z.eqb_spec uid v); [congruence|]. apply app_nil_r.
Qed.

Lemma clear_history_spares_other_users_witness :
  let t := db_tables Sample.db in
  let t' := db_tables (out_database
                         (serve (clear_history Sample.env) Sample.db
                                Sample.alice)) in
  users t' = users t
  /\ sessions_of t' 2 = sessions_of t 2
  /\ filter (foreign_to t 1) (chat_messages t')
     = filter (foreign_to t 1) (chat_messages t).
Proof.
  apply (clear_history_spares_other_users Sample.env Sample.db Sample.alice
           1 2); [reflexivity|discriminate].
Defined.

(** The DELETEs are committed before the fresh session is inserted: when
    that INSERT raises, the user is left with no session and no message, and
    the cookie keeps naming the deleted session.  [/clear_history] then
    answers with status success when the connection stays open, so that the
    rollback goes through, and with the server's 500 page when the
    connection is lost and the rollback raises. *)
Theorem clear_history_leaves_no_session_when_insert_fails
    (env : Env) (db : Database) (c : Session) (uid : Z) (e : string) :
  s_user_id c = Some uid ->
  db_up env = true ->
  fault env 0 = None ->
  fault env 1 = None ->
  fault env 2 = None ->
  fault env 3 = Some e ->
  let o := serve (clear_history env) db c in
  let t' := db_tables (out_database o) in
  out_response o = (if drops env 3 then mkResponse ServerError 500
                    else jsonify (JsonCleared "Chat history cleared"))
  /\ out_session o = c
  /\ t' = cleared (db_tables db) uid
  /\ sessions_of t' uid = []
  /\ messages_by t' uid = [].
Proof.
  intros Hauth Hup Hf0 Hf1 Hf2 Hf3.
  unfold serve, clear_history, login_required, get_db_connection, bind,
    get_session.
  cbn [cookie enter]. rewrite Hauth, Hup.
  unfold Stmt.delete_messages_of, Stmt.delete_sessions_of. unfold_py.
  cbn. rewrite Hf0. cbn. rewrite Hf1. cbn. rewrite Hf2. cbn. rewrite Hf3.
  cbn. destruct (drops env 3); cbn.
  all: split; [reflexivity|]; split; [reflexivity|]; split; [reflexivity|].
  all: unfold sessions_of, messages_by; cbn; split;
    [apply filter_complement|].
  all: apply filter_nothing; apply forallb_filter;
    apply forallb_forall; intros m Hm;
    now apply filter_In in Hm as [_ Hm].
Qed.

Lemma clear_history_leaves_no_session_when_insert_fails_witness :
  (let o := serve (clear_history (Sample.env_fault_at 3)) Sample.db
                  Sample.alice in
   let t' := db_tables (out_database o) in
   out_response o = jsonify (JsonCleared "Chat history cleared")
   /\ out_session o = Sample.alice
   /\ t' = cleared (db_tables Sample.db) 1
   /\ sessions_of t' 1 = []
   /\ messages_by t' 1 = [])
  /\ (let o := serve (clear_history (Sample.env_lost_at 3)) Sample.db
                     Sample.alice in
      let t' := db_tables (out_database o) in
      out_response o = mkResponse ServerError 500
      /\ out_session o = Sample.alice
      /\ t' = cleared (db_tables Sample.db) 1
      /\ sessions_of t' 1 = []
      /\ messages_by t' 1 = []).
Proof.
  split.
  - apply (clear_history_leaves_no_session_when_insert_fails
             (Sample.env_fault_at 3) Sample.db Sample.alice 1
             "canceling statement due to statement timeout");
      reflexivity.
  - apply (clear_history_leaves_no_session_when_insert_fails
             (Sample.env_lost_at 3) Sample.db Sample.alice 1
             "server closed the connection unexpectedly");
      reflexivity.
Defined.

(** ** Requests in sequence *)

(** The call that a message makes to the model when the history query
    runs. *)
Lemma ask_history_sent (env : Env) (req : AskRequest) (db : Database)
    (c : Session) (uid : Z) (text : string) :
  s_user_id c = Some uid ->
  ask_is_json req = true ->
  ask_message req = Text text ->
  PyStr.strip text <> EmptyString ->
  PyStr.lower (PyStr.strip text) <> "exit" ->
  model_ready env = true ->
  db_up env = true ->
  fault env 0 = None ->
  out_ai_calls (serve (ask env req) db c)
  = [(replay (history_rows (tie_messages env) (db_tables db)
                (s_session_id c)),
      PyStr.strip text)].
Proof.
  intros Hauth Hjson Hmsg Hne Hexit Hready Hup Hf0.
  unfold serve.
  rewrite (ask_passes_guards env req uid text); trivial.
  unfold ask_try. unfold_py. cbn. rewrite Hup. cbn. rewrite Hf0.
  rewrite select_history_rows. cbn.
  destruct (send_message env _ _); cbn; [reflexivity|].
  env_case; cbn; [env_case; reflexivity|].
  destruct (Stmt.insert_message _ _ _ _ _ _ _) as [[[[] t']|e] s'];
    cbn; [env_case; cbn; [env_case|]|]; reflexivity.
Qed.

(** What a successful [/new_session] leaves behind. *)
Lemma new_session_outcome (env : Env) (db : Database) (c : Session)
    (uid : Z) :
  s_user_id c = Some uid ->
  Stmt.user_exists (db_tables db) uid = true ->
  well_formed db = true ->
  db_up env = true ->
  no_fault env ->
  let o := visit (new_session env) db c in
  let sid := chat_sessions_id_seq (db_sequences db) in
  visit_session o = mkSession (Some uid) (s_username c) (Some sid)
  /\ messages_in (db_tables (visit_database o)) (Some sid) = [].
Proof.
  intros Hauth Huser Hwf Hup Hnf.
  pose proof (well_formed_fresh_session db Hwf) as Hfresh.
  assert (Hcons : consistent db = true).
  { destruct db. now apply well_formed_spec in Hwf as (Hc & _). }
  pose proof (no_message_in_next_session db Hcons) as Hnone.
  destruct (insert_session_accepts (now env) uid (db_tables db)
              (db_sequences db) Hfresh Huser) as (t' & s' & Hins).
  unfold visit, new_session, new_session_try, login_required_answer,
    get_db_connection, bind, get_session.
  cbn [cookie enter]. rewrite Hauth, Hup. unfold_py. cbn.
  rewrite (Hnf 0%nat), Hins. apply insert_session_ok in Hins as [_ ->].
  cbn. rewrite (Hnf 1%nat). cbn.
  split; [now rewrite Hauth|].
  unfold messages_in. cbn. now apply filter_nothing.
Qed.

(** What a successful [/clear_history] leaves behind. *)
Lemma clear_history_outcome (env : Env) (db : Database) (c : Session)
    (uid : Z) :
  s_user_id c = Some uid ->
  Stmt.user_exists (db_tables db) uid = true ->
  well_formed db = true ->
  db_up env = true ->
  no_fault env ->
  let o := serve (clear_history env) db c in
  let sid := chat_sessions_id_seq (db_sequences db) in
  out_session o = mkSession (Some uid) (s_username c) (Some sid)
  /\ messages_in (db_tables (out_database o)) (Some sid) = [].
Proof.
  intros Hauth Huser Hwf Hup Hnf.
  pose proof (well_formed_fresh_session db Hwf) as Hfresh.
  assert (Hcons : consistent db = true).
  { destruct db. now apply well_formed_spec in Hwf as (Hc & _). }
  pose proof (no_message_in_next_session db Hcons) as Hnone.
  unfold serve, clear_history, login_required, get_db_connection, bind,
    get_session.
  cbn [cookie enter]. rewrite Hauth, Hup.
  unfold Stmt.delete_messages_of, Stmt.delete_sessions_of. unfold_py.
  cbn. rewrite (Hnf 0%nat). cbn. rewrite (Hnf 1%nat). cbn.
  rewrite (Hnf 2%nat). cbn. rewrite (Hnf 3%nat).
  match goal with
  | |- context [Stmt.insert_session ?n ?u ?t ?s] =>
      destruct (insert_session_accepts n u t s) as (t' & s' & Hins);
        [cbn; now apply forallb_filter | exact Huser |];
        rewrite Hins; apply insert_session_ok in Hins as [_ ->]
  end.
  cbn. rewrite (Hnf 4%nat). cbn.
  split; [now rewrite Hauth|].
  unfold messages_in. cbn.
  apply filter_nothing. now do 2 apply forallb_filter.
Qed.

Lemma no_rows_no_history (tie : Z -> Z -> bool) (t : Tables)
    (sid : option Z) :
  messages_in t sid = [] -> replay (history_rows tie t sid) = [].
Proof. unfold history_rows. now intros ->. Qed.

(** A session just created starts without context: after a successful
    [/new_session], and after a successful [/clear_history], the next
    message of the user reaches the model with an empty history. *)
Theorem fresh_session_has_no_history
    (env env' : Env) (req : AskRequest) (db : Database) (c : Session)
    (uid : Z) (text : string) :
  s_user_id c = Some uid ->
  Stmt.user_exists (db_tables db) uid = true ->
  well_formed db = true ->
  db_up env = true ->
  no_fault env ->
  ask_is_json req = true ->
  ask_message req = Text text ->
  PyStr.strip text <> EmptyString ->
  PyStr.lower (PyStr.strip text) <> "exit" ->
  model_ready env' = true ->
  db_up env' = true ->
  fault env' 0 = None ->
  let created := visit (new_session env) db c in
  let wiped := serve (clear_history env) db c in
  out_ai_calls (serve (ask env' req) (visit_database created)
                      (visit_session created))
  = [([], PyStr.strip text)]
  /\ out_ai_calls (serve (ask env' req) (out_database wiped)
                         (out_session wiped))
     = [([], PyStr.strip text)].
Proof.
  intros Hauth Huser Hwf Hup Hnf Hjson Hmsg Hne Hexit Hready Hup' Hf0.
  destruct (new_session_outcome env db c uid Hauth Huser Hwf Hup Hnf)
    as [Hc1 Hm1].
  destruct (clear_history_outcome env db c uid Hauth Huser Hwf Hup Hnf)
    as [Hc2 Hm2].
  split.
  - rewrite (ask_history_sent env' req _ _ uid text); trivial;
      [|now rewrite Hc1].
    rewrite Hc1. cbn [s_session_id]. now rewrite no_rows_no_history.
  - rewrite (ask_history_sent env' req _ _ uid text); trivial;
      [|now rewrite Hc2].
    rewrite Hc2. cbn [s_session_id]. now rewrite no_rows_no_history.
Qed.

Lemma fresh_session_has_no_history_witness :
  let created := visit (new_session Sample.env) Sample.db Sample.alice in
  let wiped := serve (clear_history Sample.env) Sample.db Sample.alice in
  out_ai_calls (serve (ask Sample.env (Sample.say "hi"))
                      (visit_database created) (visit_session created))
  = [([], "hi")]
  /\ out_ai_calls (serve (ask Sample.env (Sample.say "hi"))
                         (out_database wiped) (out_session wiped))
     = [([], "hi")].
Proof.
  apply (fresh_session_has_no_history Sample.env Sample.env (Sample.say "hi")
           Sample.db Sample.alice 1 "hi");
    solve [reflexivity
          | intros H; vm_compute in H; discriminate H
          | intros n; reflexivity].
Defined.

(** The whole outcome of a message that the model answers and the database
    stores. *)
Lemma ask_outcome (env : Env) (req : AskRequest) (db : Database)
    (c : Session) (uid sid : Z) (text reply : string) :
  s_user_id c = Some uid ->
  s_session_id c = Some sid ->
  ask_is_json req = true ->
  ask_message req = Text text ->
  PyStr.strip text <> EmptyString ->
  PyStr.lower (PyStr.strip text) <> "exit" ->
  model_ready env = true ->
  db_up env = true ->
  no_fault env ->
  consistent db = true ->
  Stmt.session_exists (db_tables db) sid = true ->
  Stmt.user_exists (db_tables db) uid = true ->
  send_message env
    (replay (history_rows (tie_messages env) (db_tables db) (Some sid)))
    (PyStr.strip text) = inr reply ->
  serve (ask env req) db c
  = mkOutcome
      (jsonify (JsonReply reply (Some (Clock.hh24_mi (wall_clock env)))))
      (mkDatabase
         (mkTables (users (db_tables db)) (chat_sessions (db_tables db))
            (chat_messages (db_tables db)
             ++ [mkChatMessage (chat_messages_id_seq (db_sequences db))
                   (Some sid) (Some uid) (PyStr.strip text) reply (now env)]))
         (mkSequences (users_id_seq (db_sequences db))
            (chat_sessions_id_seq (db_sequences db))
            (chat_messages_id_seq (db_sequences db) + 1)))
      c []
      [(replay (history_rows (tie_messages env) (db_tables db) (Some sid)),
        PyStr.strip text)].
Proof.
  intros Hauth Hsid Hjson Hmsg Hne Hexit Hready Hup Hnf Hcons Hs Hu Hsend.
  destruct (insert_message_accepts (now env) sid uid (PyStr.strip text) reply
              db Hcons Hs Hu) as (t' & s' & Hins).
  assert (Hseq : s' = mkSequences (users_id_seq (db_sequences db))
                        (chat_sessions_id_seq (db_sequences db))
                        (chat_messages_id_seq (db_sequences db) + 1)).
  { revert Hins. unfold Stmt.insert_message.
    destruct (existsb _ _); [discriminate|].
    destruct (_ || _); [discriminate|]. now intros [= _ <-]. }
  unfold serve.
  rewrite (ask_passes_guards env req uid text); trivial.
  unfold ask_try. unfold_py. cbn. rewrite Hup. cbn.
  rewrite (Hnf 0%nat), select_history_rows, Hsid. cbn.
  rewrite Hsend. cbn. rewrite (Hnf 1%nat), Hins. cbn.
  rewrite (Hnf 2%nat). cbn.
  apply insert_message_ok in Hins. now subst.
Qed.

Lemma insert_row_last {A} (leb tie : A -> A -> bool) (a x : A)
    (l : list A) :
  Sql.goes_before leb tie a x = true ->
  Sql.insert_row leb tie a (l ++ [x])
  = (Sql.insert_row leb tie a l ++ [x])%list.
Proof.
  intros Hax. induction l as [|y l IH]; cbn [Sql.insert_row app].
  - now rewrite Hax.
  - destruct (Sql.goes_before leb tie a y); [reflexivity|]. now rewrite IH.
Qed.

(** A row that every other row goes before sorts last. *)
Lemma order_by_last {A} (leb tie : A -> A -> bool) (x : A) (l : list A) :
  (forall a, In a l -> Sql.goes_before leb tie a x = true) ->
  Sql.order_by leb tie (l ++ [x]) = (Sql.order_by leb tie l ++ [x])%list.
Proof.
  induction l as [|a l IH]; intros H; cbn [Sql.order_by app]; trivial.
  rewrite IH by (intros b Hb; apply H; now right).
  apply insert_row_last. apply H. now left.
Qed.

Lemma replay_app (rows rows' : list ChatMessage) :
  replay (rows ++ rows') = (replay rows ++ replay rows')%list.
Proof. induction rows as [|r rows IH]; cbn; [reflexivity|now rewrite IH]. Qed.

(** The conversation is remembered: when a message was answered and
    stored, and every message already in the session has an earlier
    timestamp, the user's next message reaches the model with the earlier
    exchanges, as the query of that request orders them by timestamp,
    followed by that message as a user turn and its reply as a model
    turn. *)
Theorem ask_remembers_the_last_exchange
    (env env' : Env) (req req' : AskRequest) (db : Database) (c : Session)
    (uid sid : Z) (text text' reply : string) :
  s_user_id c = Some uid ->
  s_session_id c = Some sid ->
  ask_is_json req = true ->
  ask_message req = Text text ->
  PyStr.strip text <> EmptyString ->
  PyStr.lower (PyStr.strip text) <> "exit" ->
  model_ready env = true ->
  db_up env = true ->
  no_fault env ->
  consistent db = true ->
  Stmt.session_exists (db_tables db) sid = true ->
  Stmt.user_exists (db_tables db) uid = true ->
  (forall m, In m (messages_in (db_tables db) (Some sid)) ->
             cm_timestamp m < now env) ->
  send_message env
    (replay (history_rows (tie_messages env) (db_tables db) (Some sid)))
    (PyStr.strip text) = inr reply ->
  ask_is_json req' = true ->
  ask_message req' = Text text' ->
  PyStr.strip text' <> EmptyString ->
  PyStr.lower (PyStr.strip text') <> "exit" ->
  model_ready env' = true ->
  db_up env' = true ->
  fault env' 0 = None ->
  let o := serve (ask env req) db c in
  let earlier := history_rows (tie_messages env') (db_tables db) (Some sid) in
  Permutation (messages_in (db_tables db) (Some sid)) earlier
  /\ Sorted (fun a b => cm_timestamp a <= cm_timestamp b) earlier
  /\ out_ai_calls (serve (ask env' req') (out_database o) (out_session o))
     = [((replay earlier
          ++ [mkTurn role_user [PyStr.strip text];
              mkTurn role_model [reply]])%list,
         PyStr.strip text')].
Proof.
  intros Hauth Hsid Hjson Hmsg Hne Hexit Hready Hup Hnf Hcons Hs Hu Hclock
    Hsend Hjson' Hmsg' Hne' Hexit' Hready' Hup' Hf0 o earlier.
  destruct (history_rows_ordered (tie_messages env') (db_tables db) (Some sid))
    as [Hperm Hsorted].
  split; [exact Hperm|]. split; [exact Hsorted|].
  subst o earlier.
  rewrite (ask_outcome env req db c uid sid text reply); trivial.
  cbn [out_ai_calls out_database out_session].
  rewrite (ask_history_sent env' req' _ c uid text'); trivial.
  rewrite Hsid. cbn [db_tables]. do 2 f_equal.
  unfold history_rows.
  rewrite messages_in_app by reflexivity.
  rewrite order_by_last, replay_app; [reflexivity|].
  intros m Hm. unfold Sql.goes_before, Sql.asc. cbn [cm_timestamp].
  specialize (Hclock m Hm).
  destruct (Z.leb_spec (now env) (cm_timestamp m)); [lia|reflexivity].
Qed.

Lemma ask_remembers_the_last_exchange_witness :
  let o := serve (ask Sample.env (Sample.say "hi")) Sample.db Sample.alice in
  let earlier := [Sample.first_message; Sample.second_message] in
  Permutation (messages_in (db_tables Sample.db) (Some 1)) earlier
  /\ Sorted (fun a b => cm_timestamp a <= cm_timestamp b) earlier
  /\ out_ai_calls (serve (ask Sample.env (Sample.say "more"))
                         (out_database o) (out_session o))
     = [((replay earlier ++ [mkTurn role_user ["hi"];
                             mkTurn role_model ["echo hi"]])%list,
         "more")].
Proof.
  apply (ask_remembers_the_last_exchange Sample.env Sample.env
           (Sample.say "hi") (Sample.say "more") Sample.db Sample.alice
           1 1 "hi" "more" "echo hi");
    try solve [reflexivity
              | intros H; vm_compute in H; discriminate H
              | intros n; reflexivity].
  intros m [<-|[<-|[]]]; reflexivity.
Defined.

(** What a successful [/switch_session] leaves behind. *)
Lemma switch_session_outcome (env : Env) (req : SwitchRequest)
    (db : Database) (c : Session) (uid sid : Z) :
  s_user_id c = Some uid ->
  switch_is_json req = true ->
  switch_session_id req = Some sid ->
  sid <> 0 ->
  owns (db_tables db) uid sid = true ->
  db_up env = true ->
  no_fault env ->
  let o := serve (switch_session env req) db c in
  out_session o = mkSession (Some uid) (s_username c) (Some sid)
  /\ out_database o = db.
Proof.
  intros Hauth Hjson Hreq Hsid Howns Hup Hnf.
  destruct (select_owned_session_spec (db_tables db) (db_sequences db) sid uid)
    as (found & Hsel & Hnone & Hsome).
  unfold serve, switch_session, login_required, get_db_connection, bind,
    get_session.
  cbn [cookie enter]. rewrite Hauth, Hreq, Hjson.
  apply Z.eqb_neq in Hsid. rewrite Hsid, Hup. cbn [negb].
  destruct found as [id|]; [|now destruct (Hsome Howns)].
  unfold_py. cbn. rewrite (Hnf 0%nat), Hsel. cbn.
  rewrite (Hnf 1%nat), select_messages_listed. cbn.
  now rewrite database_eta, Hauth.
Qed.

Lemma messages_in_other (t : Tables) (other : option Z) (row : ChatMessage) :
  Sql.eq_int (cm_session_id row) other = false ->
  messages_in (mkTables (users t) (chat_sessions t)
                 (chat_messages t ++ [row])) other
  = messages_in t other.
Proof.
  intros H. unfold messages_in. cbn [chat_messages].
  rewrite filter_app. cbn. rewrite H. apply app_nil_r.
Qed.

(** After a successful switch to one of their sessions, the user's next
    message is answered in that session: the model gets the history of that
    session, the exchange is stored as the one new row of that session, and
    the messages of every other session are what they were. *)
Theorem switch_then_ask_uses_that_session
    (env env' : Env) (switch_req : SwitchRequest) (req : AskRequest)
    (db : Database) (c : Session) (uid sid : Z) (text reply : string) :
  s_user_id c = Some uid ->
  switch_is_json switch_req = true ->
  switch_session_id switch_req = Some sid ->
  sid <> 0 ->
  owns (db_tables db) uid sid = true ->
  db_up env = true ->
  no_fault env ->
  ask_is_json req = true ->
  ask_message req = Text text ->
  PyStr.strip text <> EmptyString ->
  PyStr.lower (PyStr.strip text) <> "exit" ->
  model_ready env' = true ->
  db_up env' = true ->
  no_fault env' ->
  consistent db = true ->
  Stmt.user_exists (db_tables db) uid = true ->
  let t := db_tables db in
  let history := replay (history_rows (tie_messages env') t (Some sid)) in
  send_message env' history (PyStr.strip text) = inr reply ->
  let switched := serve (switch_session env switch_req) db c in
  let o := serve (ask env' req) (out_database switched)
                 (out_session switched) in
  let t' := db_tables (out_database o) in
  out_ai_calls o = [(history, PyStr.strip text)]
  /\ (exists id,
        messages_in t' (Some sid)
        = (messages_in t (Some sid)
           ++ [mkChatMessage id (Some sid) (Some uid) (PyStr.strip text)
                 reply (now env')])%list)
  /\ forall other, other <> sid ->
       messages_in t' (Some other) = messages_in t (Some other).
Proof.
  intros Hauth Hsjson Hsreq Hsid Howns Hup Hnf Hjson Hmsg Hne Hexit Hready
    Hup' Hnf' Hcons Huser t history Hsend switched o t'.
  destruct (switch_session_outcome env switch_req db c uid sid
              Hauth Hsjson Hsreq Hsid Howns Hup Hnf) as [Hcookie Hdb].
  subst t' o switched. rewrite Hcookie, Hdb.
  rewrite (ask_outcome env' req db _ uid sid text reply); trivial;
    [|now apply owns_session_exists with (uid := uid)].
  cbn [out_ai_calls out_database db_tables].
  split; [reflexivity|]. split.
  - eexists. now apply messages_in_app.
  - intros other Hother. apply messages_in_other. cbn.
    apply Z.eqb_neq. congruence.
Qed.

Lemma switch_then_ask_uses_that_session_witness :
  let t := db_tables Sample.db in
  let switched := serve (switch_session Sample.env
                           (mkSwitchRequest true (Some 2)))
                        Sample.db Sample.alice in
  let o := serve (ask Sample.env (Sample.say "hi")) (out_database switched)
                 (out_session switched) in
  let t' := db_tables (out_database o) in
  out_ai_calls o = [([], "hi")]
  /\ (exists id,
        messages_in t' (Some 2)
        = [mkChatMessage id (Some 2) (Some 1) "hi" "echo hi" Sample.clock])
  /\ forall other, other <> 2 ->
       messages_in t' (Some other) = messages_in t (Some other).
Proof.
  apply (switch_then_ask_uses_that_session Sample.env Sample.env
           (mkSwitchRequest true (Some 2)) (Sample.say "hi") Sample.db
           Sample.alice 1 2 "hi" "echo hi");
    solve [reflexivity
          | discriminate
          | intros H; vm_compute in H; discriminate H
          | intros n; reflexivity].
Defined.
